(** * aivocado: a shallow embedding of the plant monitor and its properties

    The development follows the Python modules of the repository:
    [display.py] (optimal ranges, status indicator, bar gauge, dashboard),
    [ai_advisor.py] (recommendation service with rule-based fallback),
    [sensors.py] (sensor readings and the mock simulator) and
    [api_client.py] (telemetry push client).

    Modelling conventions.
    - Python numbers (the [int] and [float] values of readings, ranges and
      bounds) are rationals [Q] with exact arithmetic.  Every finite float
      and every int is a rational and the comparisons [<], [<=], [>] agree
      with the rational order; rounding of float arithmetic and the special
      values nan and inf are outside the model.
    - Python [str] is [string]; a character is a code point below 256.
    - Python [int] is [Z]; [len] returns a [Z].
    - A [dict] used as a table is a [gmap]; a JSON payload keeps its
      insertion order in an association list.
    - Code that can raise returns an [outcome]; code that prints, reads the
      clock, draws random numbers or talks to the network runs in the
      monad [M] over an explicit [World].
    - Formatting done by the Python library (format specifications of
      f-strings, [strftime], [isoformat]) is a parameter, the class
      [Formatting].

    Not modelled: the hardware drivers of [RaspberryPiSensors], the
    factory [get_sensor_interface], argument parsing and the endless loop
    of [main.py]. *)

From Stdlib Require Import ZArith QArith Qround Lqa String Ascii List Lia.
From stdpp Require Import base option gmap strings pretty.
Import ListNotations.

#[local] Open Scope string_scope.
#[local] Open Scope Z_scope.

(** ** Numbers *)

Module Num.

(** [a < b], [a <= b], [a > b] and [a == b] on Python numbers. *)
Definition ltb (a b : Q) : bool := negb (Qle_bool b a).
Definition leb (a b : Q) : bool := Qle_bool a b.
Definition gtb (a b : Q) : bool := ltb b a.
Definition eqb (a b : Q) : bool := Qeq_bool a b.

(** [max(a, b)] keeps its first argument unless the second is greater;
    [min(a, b)] keeps its first argument unless the second is smaller. *)
Definition max (a b : Q) : Q := if gtb b a then b else a.
Definition min (a b : Q) : Q := if ltb b a then b else a.

(** [int(x)]: truncation toward zero. *)
Definition int (x : Q) : Z := Z.quot (Qnum x) (Zpos (Qden x)).

Definition of_int (n : Z) : Q := inject_Z n.

End Num.

(** ** Strings *)

Module Str.

Definition len (s : string) : Z := Z.of_nat (String.length s).

(** [s * n]: [n] copies of [s], none when [n <= 0]. *)
Definition mul (s : string) (n : Z) : string :=
  Nat.iter (Z.to_nat n) (String.append s) "".

(** [sep.join(parts)] *)
Definition join (sep : string) (parts : list string) : string :=
  String.concat sep parts.

(** Truth value of a string: non-empty. *)
Definition truthy (s : string) : bool :=
  match s with EmptyString => false | String _ _ => true end.

(** [c.isspace()] for a code point below 256. *)
Definition isspace (c : ascii) : bool :=
  let n := N_of_ascii c in
  (((9 <=? n) && (n <=? 13)) || ((28 <=? n) && (n <=? 32))
   || (n =? 133) || (n =? 160))%N.

(** [s.split()]: the maximal runs of non-whitespace characters. *)
Fixpoint split_go (cur : string) (s : string) : list string :=
  match s with
  | EmptyString => if truthy cur then [cur] else []
  | String c rest =>
      if isspace c
      then (if truthy cur then cur :: split_go "" rest else split_go "" rest)
      else split_go (cur ++ String c "") rest
  end.
Definition split (s : string) : list string := split_go "" s.

(** [s.strip()] *)
Fixpoint lstrip (s : string) : string :=
  match s with
  | EmptyString => ""
  | String c rest => if isspace c then lstrip rest else s
  end.
Definition rstrip (s : string) : string :=
  String.rev (lstrip (String.rev s)).
Definition strip (s : string) : string := rstrip (lstrip s).

(** [s.lower()] on the letters A to Z; the texts it is applied to here
    are ASCII. *)
Definition lower_char (c : ascii) : ascii :=
  let n := N_of_ascii c in
  if ((65 <=? n) && (n <=? 90))%N then ascii_of_N (n + 32) else c.
Fixpoint lower (s : string) : string :=
  match s with
  | EmptyString => ""
  | String c rest => String (lower_char c) (lower rest)
  end.

(** [sub in s] *)
Fixpoint contains (sub s : string) : bool :=
  String.prefix sub s ||
  match s with
  | EmptyString => false
  | String _ rest => contains sub rest
  end.

(** [s.count(sub)] for a non-empty [sub]: occurrences counted from the
    left without overlap; [skip] is the number of characters of the
    last match still to pass over. *)
Fixpoint count_go (sub : string) (skip : nat) (s : string) : Z :=
  match s with
  | EmptyString => 0
  | String _ rest =>
      match skip with
      | S k => count_go sub k rest
      | O =>
          if String.prefix sub s
          then 1 + count_go sub (String.length sub - 1) rest
          else count_go sub 0 rest
      end
  end.
Definition count (s sub : string) : Z := count_go sub 0 s.

End Str.

(** ** Exceptions and effects *)

(** The exceptions that occur in the modelled code.  [Exception] stands
    for any other subclass of Python's [Exception] (a network failure, an
    authentication error, ...), [KeyboardInterrupt] and [SystemExit] derive
    from [BaseException] only. *)
Inductive exn :=
| KeyError (key : string)
| ZeroDivisionError
| IndexError
| AttributeError (class_name attr : string)
| Exception (msg : string)
| KeyboardInterrupt
| SystemExit.

(** [isinstance(e, Exception)] *)
Definition is_Exception (e : exn) : bool :=
  match e with
  | KeyboardInterrupt | SystemExit => false
  | _ => true
  end.

(** [str(e)] *)
Definition str_exn (e : exn) : string :=
  match e with
  | KeyError key => "'" ++ key ++ "'"
  | ZeroDivisionError => "division by zero"
  | IndexError => "list index out of range"
  | AttributeError class_name attr =>
      "'" ++ class_name ++ "' object has no attribute '" ++ attr ++ "'"
  | Exception msg => msg
  | KeyboardInterrupt | SystemExit => ""
  end.

Inductive outcome (A : Type) :=
| Return (a : A)
| Raise (e : exn).
Arguments Return {A} a.
Arguments Raise {A} e.

#[global] Instance outcome_ret : MRet outcome := fun A a => Return a.
#[global] Instance outcome_bind : MBind outcome := fun A B f m =>
  match m with
  | Return a => f a
  | Raise e => Raise e
  end.

(** [d[key]] on a dict: [KeyError] when the key is absent. *)
Definition getitem {V} (d : gmap string V) (key : string) : outcome V :=
  match d !! key with
  | Some v => Return v
  | None => Raise (KeyError key)
  end.

(** ** The outside world *)

(** An instant, as returned by [datetime.now()]. *)
Definition datetime := Z.

(** A JSON value as passed to [httpx.post(json=...)]; objects keep the
    insertion order of the dict they are built from. *)
#[warnings="-register-all"]
Inductive json :=
| JStr (s : string)
| JNum (x : Q)
| JObj (fields : list (string * json)).

(** The arguments of one [httpx.post] call and the part of its response
    the code looks at. *)
Record Request := {
  url : string;
  json_body : json;
  headers : gmap string string;
  timeout : Q;
}.

Record Response := { status_code : Z }.

(** The arguments of one [messages.create] call of the Anthropic client
    and the part of its response the code looks at: a list of content
    blocks, of which only text blocks have a [text] attribute. *)
Record CreateArgs := {
  model : string;
  max_tokens : Z;
  system : string;
  messages : list (gmap string string);
}.

(** The client object built by [Anthropic(api_key=...)]. *)
Record Anthropic := { api_key : string }.

Inductive ContentBlock :=
| TextBlock (text : string)
| OtherBlock (class_name : string).

Record Message := { content : list ContentBlock }.

(** Everything the program can observe or change outside itself.  The
    three oracles fix what the environment will answer: [uniform k a b] is
    the value of the [k]-th call [random.uniform(a, b)], [post k req] the
    result of the [k]-th [httpx.post] and [create k client args] the
    result of the [k]-th [messages.create]; calls are numbered from 0. *)
Record World := {
  clock : datetime;
  environ : gmap string string;
  uniform : nat -> Q -> Q -> Q;
  draws : nat;
  post : nat -> Request -> outcome Response;
  sent : list Request;
  create : nat -> Anthropic -> CreateArgs -> outcome Message;
  asked : list CreateArgs;
  console : list string;
}.

Definition set_draws (n : nat) (w : World) : World :=
  {| clock := clock w; environ := environ w; uniform := uniform w;
     draws := n; post := post w; sent := sent w; create := create w;
     asked := asked w; console := console w |}.

Definition set_sent (l : list Request) (w : World) : World :=
  {| clock := clock w; environ := environ w; uniform := uniform w;
     draws := draws w; post := post w; sent := l; create := create w;
     asked := asked w; console := console w |}.

Definition set_asked (l : list CreateArgs) (w : World) : World :=
  {| clock := clock w; environ := environ w; uniform := uniform w;
     draws := draws w; post := post w; sent := sent w; create := create w;
     asked := l; console := console w |}.

Definition set_console (l : list string) (w : World) : World :=
  {| clock := clock w; environ := environ w; uniform := uniform w;
     draws := draws w; post := post w; sent := sent w; create := create w;
     asked := asked w; console := l |}.

(** Computations that may raise and act on the world.  A raised
    exception keeps the effects performed before it. *)
Definition M (A : Type) : Type := World -> outcome A * World.

#[global] Instance M_ret : MRet M := fun A a w => (Return a, w).
#[global] Instance M_bind : MBind M := fun A B f m w =>
  match m w with
  | (Return a, w') => f a w'
  | (Raise e, w') => (Raise e, w')
  end.

(** A pure computation that may raise, run inside [M]. *)
Definition lift {A} (o : outcome A) : M A := fun w => (o, w).

(** [try: body / except Exception as e: handler(e)] *)
Definition try_except {A} (body : M A) (handler : exn -> M A) : M A :=
  fun w =>
    match body w with
    | (Raise e, w') =>
        if is_Exception e then handler e w' else (Raise e, w')
    | r => r
    end.

(** [print(line)] *)
Definition print (line : string) : M unit :=
  fun w => (Return tt, set_console (console w ++ [line]) w).

(** [clear_screen()]: [os.system('cls' if os.name == 'nt' else 'clear')] *)
Definition clear_screen : M unit :=
  fun w => (Return tt, set_console [] w).

(** [datetime.now()] *)
Definition datetime_now : M datetime :=
  fun w => (Return (clock w), w).

(** [os.getenv(name)] *)
Definition os_getenv (name : string) : M (option string) :=
  fun w => (Return (environ w !! name), w).

(** [random.uniform(a, b)] *)
Definition random_uniform (a b : Q) : M Q :=
  fun w => (Return (uniform w (draws w) a b), set_draws (S (draws w)) w).

(** [httpx.post(url, json=..., headers=..., timeout=...)] *)
Definition httpx_post (req : Request) : M Response :=
  fun w => (post w (length (sent w)) req, set_sent (sent w ++ [req]) w).

(** [client.messages.create(...)] *)
Definition messages_create (client : Anthropic) (args : CreateArgs) : M Message :=
  fun w => (create w (length (asked w)) client args,
            set_asked (asked w ++ [args]) w).

(** Truth value of an optional string: neither [None] nor empty. *)
Definition truthy_opt (o : option string) : bool :=
  match o with
  | Some s => Str.truthy s
  | None => false
  end.

(** [a or b] on optional strings; [b] is evaluated only when [a] is
    falsy. *)
Definition or_else (a : option string) (b : M (option string)) : M (option string) :=
  if truthy_opt a then mret a else b.

(** [str(x)] of an optional string inside an f-string. *)
Definition str_opt (o : option string) : string :=
  match o with
  | Some s => s
  | None => "None"
  end.

(** Formatting done by the Python library: [format(x, spec)] for a
    number (the part after the colon of an f-string field, empty for a
    plain [{x}]), [strftime] and [isoformat] of an instant. *)
Class Formatting := {
  format_num : string -> Q -> string;
  strftime : datetime -> string -> string;
  isoformat : datetime -> string;
}.

(** ** sensors.py *)

(** [SensorReading]: all sensor readings at a point in time. *)
Record SensorReading := {
  timestamp : datetime;
  temperature_c : Q;
  humidity_percent : Q;
  co2_ppm : Q;
  light_lux : Q;
}.

Module MockSensors.

(** The base values set by [__init__]. *)
Record t := {
  _base_temp : Q;
  _base_humidity : Q;
  _base_co2 : Q;
  _base_light : Q;
}.

Definition __init__ : t :=
  {| _base_temp := 22; _base_humidity := 65;
     _base_co2 := 450; _base_light := 5000 |}.

(** [read]: the keyword arguments are evaluated in source order, so the
    clock is read first and the four draws follow in the order
    temperature, humidity, CO2, light. *)
Definition read (self : t) : M SensorReading :=
  now ← datetime_now;
  n_temp ← random_uniform (-2) 2;
  n_hum ← random_uniform (-5) 5;
  n_co2 ← random_uniform (-50) 50;
  n_light ← random_uniform (-1000) 1000;
  mret {| timestamp := now;
          temperature_c := (_base_temp self + n_temp)%Q;
          humidity_percent :=
            Num.max 0 (Num.min 100 (_base_humidity self + n_hum)%Q);
          co2_ppm := Num.max 300 (_base_co2 self + n_co2)%Q;
          light_lux := Num.max 0 (_base_light self + n_light)%Q |}.

(** [n] consecutive calls of [read], oldest reading first. *)
Fixpoint read_many (self : t) (n : nat) : M (list SensorReading) :=
  match n with
  | O => mret []
  | S k =>
      r ← read self;
      rs ← read_many self k;
      mret (r :: rs)
  end.

End MockSensors.

(** ** display.py *)

(** Optimal ranges for avocado plant growth. *)
Definition OPTIMAL_RANGES : gmap string (Q * Q) :=
  list_to_map
    [ ("temperature", (18 : Q, 26 : Q));
      ("humidity", (50 : Q, 70 : Q));
      ("co2", (400 : Q, 800 : Q));
      ("light", (2000 : Q, 10000 : Q)) ].

Definition get_status_indicator (value : Q) (optimal_range : Q * Q) : string :=
  let '(low, high) := optimal_range in
  if Num.leb low value && Num.leb value high then "[OK]"
  else if Num.ltb value low then "[LOW]"
  else "[HIGH]".

(** [create_bar]: the division raises when the two bounds are equal. *)
Definition create_bar (value min_val max_val : Q) (width : Z) : outcome string :=
  if Num.eqb (max_val - min_val) 0 then Raise ZeroDivisionError
  else
    let normalized := ((value - min_val) / (max_val - min_val))%Q in
    let normalized := Num.max 0 (Num.min 1 normalized) in
    let filled := Num.int (normalized * Num.of_int width) in
    Return ("[" ++ Str.mul "#" filled ++ Str.mul "-" (width - filled) ++ "]").

(** Default [width] of [create_bar]. *)
Definition create_bar_width : Z := 30.

(** The word-wrap loop of [display_reading]: [line] is the line being
    filled; the result is the line left after the last word. *)
Fixpoint wrap_words (words : list string) (line : string) : M string :=
  match words with
  | [] => mret line
  | word :: rest =>
      if 58 <? Str.len line + Str.len word + 1
      then print line;; wrap_words rest ("  " ++ word)
      else wrap_words rest
             (line ++ (if negb (String.eqb line "  ") then " " ++ word else word))
  end.

(** The body of [if ai_recommendation:] between the heading and the
    closing rule: wrap the words, then print the last line unless it is
    blank. *)
Definition print_wrapped (ai_recommendation : string) : M unit :=
  let words := Str.split ai_recommendation in
  line ← wrap_words words "  ";
  if Str.truthy (Str.strip line) then print line else mret tt.

Section Display.
Context `{Formatting}.

Definition display_reading (reading : SensorReading)
    (ai_recommendation : option string) : M unit :=
  clear_screen;;
  print (Str.mul "=" 60);;
  print "         AVOCADO PLANT MONITORING SYSTEM";;
  print (Str.mul "=" 60);;
  print ("  Last Update: " ++ strftime (timestamp reading) "%Y-%m-%d %H:%M:%S");;
  print (Str.mul "=" 60);;
  print "";;
  (* Temperature *)
  range ← lift (getitem OPTIMAL_RANGES "temperature");
  let temp_status := get_status_indicator (temperature_c reading) range in
  temp_bar ← lift (create_bar (temperature_c reading) 10 40 create_bar_width);
  print ("  TEMPERATURE " ++ temp_status);;
  print ("  " ++ format_num "6.1f" (temperature_c reading) ++ " C   " ++ temp_bar);;
  range ← lift (getitem OPTIMAL_RANGES "temperature");
  print ("  Optimal: " ++ format_num "" range.1 ++ "-"
           ++ format_num "" range.2 ++ " C");;
  print "";;
  (* Humidity *)
  range ← lift (getitem OPTIMAL_RANGES "humidity");
  let hum_status := get_status_indicator (humidity_percent reading) range in
  hum_bar ← lift (create_bar (humidity_percent reading) 0 100 create_bar_width);
  print ("  HUMIDITY " ++ hum_status);;
  print ("  " ++ format_num "6.1f" (humidity_percent reading) ++ " %   " ++ hum_bar);;
  range ← lift (getitem OPTIMAL_RANGES "humidity");
  print ("  Optimal: " ++ format_num "" range.1 ++ "-"
           ++ format_num "" range.2 ++ " %");;
  print "";;
  (* CO2 *)
  range ← lift (getitem OPTIMAL_RANGES "co2");
  let co2_status := get_status_indicator (co2_ppm reading) range in
  co2_bar ← lift (create_bar (co2_ppm reading) 300 1500 create_bar_width);
  print ("  CO2 LEVEL " ++ co2_status);;
  print ("  " ++ format_num "6.0f" (co2_ppm reading) ++ " ppm " ++ co2_bar);;
  range ← lift (getitem OPTIMAL_RANGES "co2");
  print ("  Optimal: " ++ format_num "" range.1 ++ "-"
           ++ format_num "" range.2 ++ " ppm");;
  print "";;
  (* Light *)
  range ← lift (getitem OPTIMAL_RANGES "light");
  let light_status := get_status_indicator (light_lux reading) range in
  light_bar ← lift (create_bar (light_lux reading) 0 20000 create_bar_width);
  print ("  LIGHT LEVEL " ++ light_status);;
  print ("  " ++ format_num "6.0f" (light_lux reading) ++ " lux " ++ light_bar);;
  range ← lift (getitem OPTIMAL_RANGES "light");
  print ("  Optimal: " ++ format_num "" range.1 ++ "-"
           ++ format_num "" range.2 ++ " lux");;
  print "";;
  print (Str.mul "=" 60);;
  match ai_recommendation with
  | Some text =>
      if Str.truthy text then
        print "  AI RECOMMENDATIONS";;
        print (Str.mul "-" 60);;
        print_wrapped text;;
        print (Str.mul "=" 60)
      else mret tt
  | None => mret tt
  end;;
  print "";;
  print "  Press Ctrl+C to exit".

End Display.

(** ** ai_advisor.py *)

(** The degree sign, code point 176. *)
Definition degree : string := String "176"%char "".

Definition SYSTEM_PROMPT : string :=
  "You are an expert botanist specializing in avocado plant cultivation.
Your role is to analyze sensor readings from an avocado plant monitoring system and provide
concise, actionable recommendations to optimize plant growth.

Optimal conditions for avocado plants:
- Temperature: 18-26" ++ degree ++ "C (avoid frost and extreme heat)
- Humidity: 50-70% (moderate humidity)
- CO2: 400-800 ppm (normal atmospheric to slightly elevated)
- Light: 2,000-10,000 lux (bright indirect light, avocados are understory trees)

Keep your responses brief (2-3 sentences max) and focus on the most important adjustment needed.
If all readings are optimal, provide a short encouraging status update.".

Module AIAdvisor.

Record t := {
  _api_key : option string;
  _client : option Anthropic;
}.

Definition __init__ (api_key : option string) : M t :=
  key ← or_else api_key (os_getenv "ANTHROPIC_API_KEY");
  mret {| _api_key := key;
          _client := match key with
                     | Some k => if Str.truthy k
                                 then Some (Build_Anthropic k)
                                 else None
                     | None => None
                     end |}.

(** [_get_fallback_recommendation]: [ranges] is the module-level table
    [OPTIMAL_RANGES] that the method reads when it is called. *)
Definition _get_fallback_recommendation (ranges : gmap string (Q * Q))
    (reading : SensorReading) : outcome string :=
  let issues : list string := [] in
  '(temp_low, temp_high) ← getitem ranges "temperature";
  let issues :=
    if Num.ltb (temperature_c reading) temp_low
    then (issues ++ ["Temperature too low - consider warming the area"])%list
    else if Num.gtb (temperature_c reading) temp_high
    then (issues ++ ["Temperature too high - improve ventilation"])%list
    else issues in
  '(hum_low, hum_high) ← getitem ranges "humidity";
  let issues :=
    if Num.ltb (humidity_percent reading) hum_low
    then (issues ++ ["Humidity too low - mist leaves or use humidifier"])%list
    else if Num.gtb (humidity_percent reading) hum_high
    then (issues ++ ["Humidity too high - improve air circulation"])%list
    else issues in
  '(co2_low, co2_high) ← getitem ranges "co2";
  let issues :=
    if Num.ltb (co2_ppm reading) co2_low
    then (issues ++ ["CO2 below normal - ensure adequate ventilation"])%list
    else if Num.gtb (co2_ppm reading) co2_high
    then (issues ++ ["CO2 elevated - increase fresh air exchange"])%list
    else issues in
  '(light_low, light_high) ← getitem ranges "light";
  let issues :=
    if Num.ltb (light_lux reading) light_low
    then (issues ++ ["Light insufficient - move closer to window or add grow light"])%list
    else if Num.gtb (light_lux reading) light_high
    then (issues ++ ["Light too intense - add shade or move plant"])%list
    else issues in
  match issues with
  | [] => mret "All conditions optimal! Your avocado plant is in a great environment."
  | _ => mret (Str.join " | " (take 2 issues))
  end.

Section Service.
Context `{Formatting}.

Definition _build_prompt (reading : SensorReading) : string :=
  "Current sensor readings for my avocado plant:
- Temperature: " ++ format_num ".1f" (temperature_c reading) ++ degree ++ "C
- Humidity: " ++ format_num ".1f" (humidity_percent reading) ++ "%
- CO2: " ++ format_num ".0f" (co2_ppm reading) ++ " ppm
- Light: " ++ format_num ".0f" (light_lux reading) ++ " lux

What adjustments should I make for optimal growth?".

(** [response.content[0].text] *)
Definition first_text (response : Message) : outcome string :=
  match content response with
  | [] => Raise IndexError
  | TextBlock text :: _ => Return text
  | OtherBlock class_name :: _ => Raise (AttributeError class_name "text")
  end.

Definition get_recommendation (self : t) (reading : SensorReading) : M string :=
  match _client self with
  | None => lift (_get_fallback_recommendation OPTIMAL_RANGES reading)
  | Some client =>
      let prompt := _build_prompt reading in
      try_except
        (response ← messages_create client
           {| model := "claude-sonnet-4-20250514";
              max_tokens := 150;
              system := SYSTEM_PROMPT;
              messages := [ {[ "role" := "user"; "content" := prompt ]} ] |};
         lift (first_text response))
        (fun e =>
           print ("AI API error: " ++ str_exn e);;
           lift (_get_fallback_recommendation OPTIMAL_RANGES reading))
  end.

End Service.

End AIAdvisor.

(** ** api_client.py *)

Module APIClient.

Record t := {
  _base_url : option string;
  _api_key : option string;
  _enabled : bool;
}.

Definition __init__ (base_url api_key : option string) : M t :=
  url ← or_else base_url (os_getenv "AIVOCADO_API_URL");
  key ← or_else api_key (os_getenv "AIVOCADO_API_KEY");
  let enabled := truthy_opt url && truthy_opt key in
  (if negb enabled
   then print "API client disabled: missing AIVOCADO_API_URL or AIVOCADO_API_KEY"
   else mret tt);;
  mret {| _base_url := url; _api_key := key; _enabled := enabled |}.

Definition _headers (self : t) : gmap string string :=
  {[ "Authorization" := "Bearer " ++ str_opt (_api_key self);
     "Content-Type" := "application/json" ]}.

(** The inner [reading] object of the analysis and alert payloads. *)
Definition reading_fields (reading : SensorReading) : list (string * json) :=
  [ ("temperature_c", JNum (temperature_c reading));
    ("humidity_percent", JNum (humidity_percent reading));
    ("co2_ppm", JNum (co2_ppm reading));
    ("light_lux", JNum (light_lux reading)) ].

Section Push.
Context `{Formatting}.

Definition push_reading (self : t) (reading : SensorReading) : M bool :=
  if negb (_enabled self) then mret false
  else
    let payload :=
      JObj (("timestamp", JStr (isoformat (timestamp reading)))
              :: reading_fields reading) in
    try_except
      (resp ← httpx_post
         {| url := str_opt (_base_url self) ++ "/readings";
            json_body := payload;
            headers := _headers self;
            timeout := 5 |};
       mret (status_code resp =? 200))
      (fun e =>
         print ("API error (push_reading): " ++ str_exn e);;
         mret false).

Definition push_analysis (self : t) (reading : SensorReading)
    (recommendation : string) : M bool :=
  if negb (_enabled self) then mret false
  else
    now ← datetime_now;
    let payload :=
      JObj [ ("timestamp", JStr (isoformat now));
             ("reading", JObj (reading_fields reading));
             ("recommendation", JStr recommendation) ] in
    try_except
      (resp ← httpx_post
         {| url := str_opt (_base_url self) ++ "/analysis";
            json_body := payload;
            headers := _headers self;
            timeout := 5 |};
       mret (status_code resp =? 200))
      (fun e =>
         print ("API error (push_analysis): " ++ str_exn e);;
         mret false).

Definition push_alert (self : t) (alert_type message : string)
    (reading : option SensorReading) : M bool :=
  if negb (_enabled self) then mret false
  else
    now ← datetime_now;
    let payload :=
      [ ("timestamp", JStr (isoformat now));
        ("type", JStr alert_type);
        ("message", JStr message) ] in
    let payload :=
      match reading with
      | Some r => (payload ++ [ ("reading", JObj (reading_fields r)) ])%list
      | None => payload
      end in
    try_except
      (resp ← httpx_post
         {| url := str_opt (_base_url self) ++ "/alerts";
            json_body := JObj payload;
            headers := _headers self;
            timeout := 5 |};
       mret (status_code resp =? 200))
      (fun e =>
         print ("API error (push_alert): " ++ str_exn e);;
         mret false).

End Push.

End APIClient.

(** ** Vocabulary of the specification *)

(** The four metrics in their fixed priority order. *)
Inductive Metric := Temperature | Humidity | CO2 | Light.

Definition metric_order : list Metric := [Temperature; Humidity; CO2; Light].

Definition metric_key (m : Metric) : string :=
  match m with
  | Temperature => "temperature"
  | Humidity => "humidity"
  | CO2 => "co2"
  | Light => "light"
  end.

Definition metric_value (m : Metric) (reading : SensorReading) : Q :=
  match m with
  | Temperature => temperature_c reading
  | Humidity => humidity_percent reading
  | CO2 => co2_ppm reading
  | Light => light_lux reading
  end.

(** The range classifier of the specification: [BELOW] when the value is
    strictly below the range, [ABOVE] when strictly above, [WITHIN]
    otherwise. *)
Inductive Status := BELOW | WITHIN | ABOVE.

Definition classify (value low high : Q) : Status :=
  if Num.ltb value low then BELOW
  else if Num.gtb value high then ABOVE
  else WITHIN.

Definition status_token (s : Status) : string :=
  match s with
  | BELOW => "[LOW]"
  | WITHIN => "[OK]"
  | ABOVE => "[HIGH]"
  end.

(** The fixed advisory sentence of a metric and a direction. *)
Definition advisory_sentence (m : Metric) (s : Status) : option string :=
  match m, s with
  | _, WITHIN => None
  | Temperature, BELOW => Some "Temperature too low - consider warming the area"
  | Temperature, ABOVE => Some "Temperature too high - improve ventilation"
  | Humidity, BELOW => Some "Humidity too low - mist leaves or use humidifier"
  | Humidity, ABOVE => Some "Humidity too high - improve air circulation"
  | CO2, BELOW => Some "CO2 below normal - ensure adequate ventilation"
  | CO2, ABOVE => Some "CO2 elevated - increase fresh air exchange"
  | Light, BELOW => Some "Light insufficient - move closer to window or add grow light"
  | Light, ABOVE => Some "Light too intense - add shade or move plant"
  end.

(** The ordered issue list of the specification: one sentence for each
    metric out of its range, in metric order. *)
Definition issue_of (ranges : gmap string (Q * Q)) (reading : SensorReading)
    (m : Metric) : option string :=
  match ranges !! metric_key m with
  | Some (low, high) =>
      advisory_sentence m (classify (metric_value m reading) low high)
  | None => None
  end.

Definition issues_of (ranges : gmap string (Q * Q)) (reading : SensorReading)
    : list string :=
  omap (issue_of ranges reading) metric_order.

(** The table defines a range for each of the four metrics. *)
Definition ranges_defined (ranges : gmap string (Q * Q)) : Prop :=
  forall m, is_Some (ranges !! metric_key m).

(** Every metric of the reading lies in its range, bounds included. *)
Definition all_within (ranges : gmap string (Q * Q)) (reading : SensorReading) : Prop :=
  forall m, exists low high,
    ranges !! metric_key m = Some (low, high)
    /\ (low <= metric_value m reading <= high)%Q.

(** Two readings carry the same four measurements. *)
Definition same_measurements (r1 r2 : SensorReading) : Prop :=
  forall m, metric_value m r1 == metric_value m r2.

(** All eight advisory sentences, and how many times they occur in a
    text. *)
Definition issue_sentences : list string :=
  omap (fun ms => advisory_sentence ms.1 ms.2)
       (m ← metric_order; [(m, BELOW); (m, ABOVE)]).

Definition issue_count (text : string) : Z :=
  foldr (fun sentence n => Str.count text sentence + n) 0 issue_sentences.

Definition all_clear : string :=
  "All conditions optimal! Your avocado plant is in a great environment.".

(** Steps 3 and 4 of the fallback advisor: the all-clear message when
    there is no issue, otherwise the first two issues joined by the
    separator. *)
Definition render_issues (issues : list string) : string :=
  match issues with
  | [] => all_clear
  | _ => Str.join " | " (take 2 issues)
  end.

(** Linear interpolation of [value] across [(low, high)], clamped to
    [[0, 1]]. *)
Definition normalize (value low high : Q) : Q :=
  if Num.leb value low then 0
  else if Num.leb high value then 1
  else ((value - low) / (high - low))%Q.


(** The lines a computation adds to the console. *)
Definition printed {A} (m : M A) (w : World) : list string :=
  drop (length (console w)) (console (m w).2).

(** The bar drawn for a value, empty if [create_bar] raised. *)
Definition bar_of (value min_val max_val : Q) : string :=
  match create_bar value min_val max_val create_bar_width with
  | Return bar => bar
  | Raise _ => ""
  end.

(** The block of one metric on the dashboard: title and status token,
    value and bar gauge, optimal range, blank line. *)
Definition metric_block `{Formatting} (title : string) (m : Metric)
    (reading : SensorReading) (min_val max_val : Q) (spec unit_bar unit_range : string)
    : list string :=
  match OPTIMAL_RANGES !! metric_key m with
  | Some range =>
      [ "  " ++ title ++ " " ++ get_status_indicator (metric_value m reading) range;
        "  " ++ format_num spec (metric_value m reading) ++ unit_bar
           ++ bar_of (metric_value m reading) min_val max_val;
        "  Optimal: " ++ format_num "" range.1 ++ "-" ++ format_num "" range.2
           ++ unit_range;
        "" ]
  | None => []
  end.

(** The part of the dashboard above the recommendation. *)
Definition dashboard_lines `{Formatting} (reading : SensorReading) : list string :=
  [ Str.mul "=" 60;
    "         AVOCADO PLANT MONITORING SYSTEM";
    Str.mul "=" 60;
    "  Last Update: " ++ strftime (timestamp reading) "%Y-%m-%d %H:%M:%S";
    Str.mul "=" 60;
    "" ]
  ++ metric_block "TEMPERATURE" Temperature reading 10 40 "6.1f" " C   " " C"
  ++ metric_block "HUMIDITY" Humidity reading 0 100 "6.1f" " %   " " %"
  ++ metric_block "CO2 LEVEL" CO2 reading 300 1500 "6.0f" " ppm " " ppm"
  ++ metric_block "LIGHT LEVEL" Light reading 0 20000 "6.0f" " lux " " lux"
  ++ [ Str.mul "=" 60 ].

(** The wrapped lines of a recommendation: what [print_wrapped] adds to
    the console.  They are the same in every world
    ([printed_print_wrapped]); the empty world below fixes one. *)
Definition blank_world : World :=
  {| clock := 0; environ := ∅;
     uniform _ a _ := a; draws := 0;
     post _ _ := Raise (Exception "connection refused"); sent := [];
     create _ _ _ := Raise (Exception "connection refused"); asked := [];
     console := [] |}.

Definition advisory_lines (text : string) : list string :=
  printed (print_wrapped text) blank_world.

(** The part of the dashboard that shows the recommendation, if any. *)
Definition recommendation_lines (ai_recommendation : option string) : list string :=
  match ai_recommendation with
  | Some text =>
      if Str.truthy text
      then [ "  AI RECOMMENDATIONS"; Str.mul "-" 60 ]
           ++ advisory_lines text ++ [ Str.mul "=" 60 ]
      else []
  | None => []
  end.

(** A computation that returns after adding [lines] to the console and
    does nothing else. *)
Definition prints (m : M unit) (lines : list string) : Prop :=
  forall w, m w = (Return tt, set_console (console w ++ lines) w).

(** The only failures of the two network services are exceptions in the
    sense of [except Exception]: the [k]-th call either returns or raises
    a subclass of [Exception]. *)
Definition service_failures_are_exceptions (w : World) : Prop :=
  forall k client args e, create w k client args = Raise e -> is_Exception e = true.

Definition transport_failures_are_exceptions (w : World) : Prop :=
  forall k req e, post w k req = Raise e -> is_Exception e = true.

(** What the recommendation service answers to the next request [args]
    of [client]: the text of the first content block, or the failure of
    the call or of reading that text. *)
Definition service_reply (w : World) (client : Anthropic) (args : CreateArgs)
    : outcome string :=
  create w (length (asked w)) client args ≫= AIAdvisor.first_text.

(** A best-effort push: it returns a truth value and never raises.  A
    disabled client answers [False] and leaves the world untouched; an
    enabled one sends exactly one request and answers whether the
    response came back with status 200, [False] if the transport raised. *)
Definition best_effort (enabled : bool) (push : M bool) (w : World) : Prop :=
  exists ok w',
    push w = (Return ok, w')
    /\ (enabled = false -> ok = false /\ w' = w)
    /\ (enabled = true ->
        exists req,
          sent w' = (sent w ++ [req])%list
          /\ match post w (length (sent w)) req with
             | Return resp => ok = (status_code resp =? 200)
             | Raise _ => ok = false
             end).

(** The endpoint or the credential is absent: neither the constructor's
    argument nor the environment variable gives a non-empty value. *)
Definition configuration_absent (base_url api_key : option string) (w : World) : Prop :=
  (truthy_opt base_url = false
   /\ truthy_opt (environ w !! "AIVOCADO_API_URL") = false)
  \/ (truthy_opt api_key = false
      /\ truthy_opt (environ w !! "AIVOCADO_API_KEY") = false).

(** The Reading invariants of the specification. *)
Definition reading_valid (r : SensorReading) : Prop :=
  (0 <= humidity_percent r <= 100)%Q /\ (300 <= co2_ppm r)%Q
  /\ (0 <= light_lux r)%Q.

(** ** Sample inputs *)

(** A formatting that shows the integer part of a number and the raw
    value of an instant. *)
Definition plain_formatting : Formatting :=
  {| format_num _ x := pretty (Qfloor x);
     strftime t _ := pretty t;
     isoformat t := pretty t |}.

(** A world with nothing configured in which every network call fails
    and every draw returns the lower bound. *)
Definition offline_world : World := blank_world.

(** An advisor with a client, and a telemetry client with and without
    its configuration. *)
Definition keyed_advisor : AIAdvisor.t :=
  {| AIAdvisor._api_key := Some "test-key";
     AIAdvisor._client := Some {| api_key := "test-key" |} |}.

Definition enabled_client : APIClient.t :=
  {| APIClient._base_url := Some "http://localhost:8000";
     APIClient._api_key := Some "secret";
     APIClient._enabled := true |}.

Definition disabled_client : APIClient.t :=
  {| APIClient._base_url := None;
     APIClient._api_key := None;
     APIClient._enabled := false |}.

(** The readings used by the repository's tests. *)
Definition sample_reading : SensorReading :=
  {| timestamp := 0; temperature_c := 22; humidity_percent := 60;
     co2_ppm := 500; light_lux := 5000 |}.

Definition all_out_of_range_reading : SensorReading :=
  {| timestamp := 0; temperature_c := 35; humidity_percent := 20;
     co2_ppm := 1200; light_lux := 500 |}.

(** ** Further vocabulary *)

(** The metrics looked up before [m] by the fallback advisor. *)
Definition earlier_metrics (m : Metric) : list Metric :=
  match m with
  | Temperature => []
  | Humidity => [Temperature]
  | CO2 => [Temperature; Humidity]
  | Light => [Temperature; Humidity; CO2]
  end.

(** What [random.uniform] promises: a value between its two bounds. *)
Definition draws_in_window (w : World) : Prop :=
  forall k a b, (a <= b)%Q -> (a <= uniform w k a b <= b)%Q.

(** Some character of [s] is not whitespace; no character of [s] is. *)
Fixpoint has_nonspace (s : string) : bool :=
  match s with
  | EmptyString => false
  | String c rest => negb (Str.isspace c) || has_nonspace rest
  end.

Fixpoint no_space (s : string) : bool :=
  match s with
  | EmptyString => true
  | String c rest => negb (Str.isspace c) && no_space rest
  end.

(** A word: a non-empty string without whitespace. *)
Definition is_word (s : string) : Prop :=
  Str.truthy s = true /\ no_space s = true.

(** The wrap loop as a function of the words alone: the lines it prints
    and the line it leaves ([wrap_words_trace] relates it to the loop). *)
Fixpoint wrap_trace (words : list string) (line : string) : list string * string :=
  match words with
  | [] => ([], line)
  | word :: rest =>
      if 58 <? Str.len line + Str.len word + 1
      then let '(lines, last) := wrap_trace rest ("  " ++ word) in
           (line :: lines, last)
      else wrap_trace rest
             (line ++ (if negb (String.eqb line "  ") then " " ++ word else word))
  end.

(** The request that [get_recommendation] sends for a reading. *)
Definition recommendation_request `{Formatting} (reading : SensorReading) : CreateArgs :=
  {| model := "claude-sonnet-4-20250514";
     max_tokens := 150;
     system := SYSTEM_PROMPT;
     messages := [ {[ "role" := "user";
                      "content" := AIAdvisor._build_prompt reading ]} ] |}.

(** The notice printed by a telemetry client without configuration. *)
Definition disabled_notice : string :=
  "API client disabled: missing AIVOCADO_API_URL or AIVOCADO_API_KEY".

(** The value of [argument or os.getenv(name)]. *)
Definition configured (argument : option string) (name : string) (w : World)
    : option string :=
  if truthy_opt argument then argument else environ w !! name.

(** What one push of an enabled client does: exactly one request [req]
    goes out; the result tells whether the response had status 200; a
    failure of the transport is logged on one line that starts with
    [label]; a raised exception that is not an [Exception] passes
    through, unlogged. *)
Definition posts_once (label : string) (req : Request) (push : M bool) (w : World)
    : Prop :=
  let w1 := set_sent (sent w ++ [req]) w in
  push w =
    match post w (length (sent w)) req with
    | Return resp => (Return (status_code resp =? 200), w1)
    | Raise e =>
        if is_Exception e
        then (Return false, set_console (console w1 ++ [label ++ str_exn e]) w1)
        else (Raise e, w1)
    end.

(** The field names of a JSON object, in order. *)
Definition json_keys (j : json) : list string :=
  match j with
  | JObj fields => fields.*1
  | _ => []
  end.

(** ** sensors.py, the hardware side *)

Definition set_clock (t : datetime) (w : World) : World :=
  {| clock := t; environ := environ w; uniform := uniform w;
     draws := draws w; post := post w; sent := sent w; create := create w;
     asked := asked w; console := console w |}.

(** The result of the start-up block of [_init_sensors]: the imports of
    [board], [adafruit_dht] and [smbus2], then [DHT22(board.D4)] and
    [SMBus(1)].  A missing library is an [ImportError]. *)
Inductive Connection :=
| Connected
| MissingLibrary
| ConnectionFailed (e : exn).

(** The sensors and their libraries as the code observes them: what
    each operation answers in a given world.
    - [dht_temperature], [dht_humidity]: the properties of the DHT22
      object, [None] when the sensor has no measurement yet;
    - [serial_open]: [import serial] and [serial.Serial('/dev/ttyS0',
      9600, timeout=1)]; [serial_write], [serial_read], [serial_close]:
      the methods of that port;
    - [bus_write_byte], [bus_read_block]: [write_byte] and
      [read_i2c_block_data] of the I2C bus. *)
Class Hardware := {
  connect : World -> Connection;
  dht_temperature : World -> outcome (option Q);
  dht_humidity : World -> outcome (option Q);
  serial_open : World -> outcome unit;
  serial_write : list Byte.byte -> World -> outcome Z;
  serial_read : Z -> World -> outcome (list Byte.byte);
  serial_close : World -> outcome unit;
  bus_write_byte : Z -> Z -> World -> outcome unit;
  bus_read_block : Z -> Z -> Z -> World -> outcome (list Z);
}.

(** The [time] module: [time_time w] is what [time.time()] returns in
    the world [w]; [sleep_until s w] is the clock at which
    [time.sleep(s)] returns, or the exception that interrupts it. *)
Class Timing := {
  time_time : World -> Q;
  sleep_until : Q -> World -> outcome datetime;
}.

(** Ask the outside for an answer that leaves the world as it is. *)
Definition ask {A} (answer : World -> outcome A) : M A :=
  fun w => (answer w, w).

(** [time.sleep(seconds)]: a negative length is a [ValueError]. *)
Definition time_sleep `{Timing} (seconds : Q) : M unit :=
  fun w =>
    if Num.ltb seconds 0
    then (Raise (Exception "sleep length must be non-negative"), w)
    else match sleep_until seconds w with
         | Return t => (Return tt, set_clock t w)
         | Raise e => (Raise e, w)
         end.

(** [l[i]] on a list, for an index that is not negative. *)
Definition list_index {A} (l : list A) (i : nat) : outcome A :=
  match l !! i with
  | Some x => Return x
  | None => Raise IndexError
  end.

(** The value of a byte as a Python int. *)
Definition byte_int (b : Byte.byte) : Z := Z.of_N (Byte.to_N b).

(** [x or default] on an optional number: [None] and zero are falsy. *)
Definition or_default (x : option Q) (default : Q) : Q :=
  match x with
  | Some v => if Num.eqb v 0 then default else v
  | None => default
  end.

Module RaspberryPiSensors.

Record t := {
  _dht_pin : Z;
  _initialized : bool;
}.

Section Sensors.
Context `{Hardware} `{Timing}.

(** [_init_sensors]: the value it leaves in [self._initialized]. *)
Definition _init_sensors : M bool :=
  c ← (fun w => (Return (connect w), w));
  match c with
  | Connected => mret true
  | MissingLibrary =>
      print "Warning: Raspberry Pi sensor libraries not available.";;
      print "Install with: pip install adafruit-circuitpython-dht smbus2";;
      mret false
  | ConnectionFailed e =>
      if is_Exception e
      then print ("Warning: Could not initialize sensors: " ++ str_exn e);;
           mret false
      else lift (Raise e)
  end.

Definition __init__ : M t :=
  initialized ← _init_sensors;
  mret {| _dht_pin := 4; _initialized := initialized |}.

(** The read command of the MH-Z19:
    [b'\xff\x01\x86\x00\x00\x00\x00\x00\x79']. *)
Definition mhz19_read_command : list Byte.byte :=
  [ Byte.xff; Byte.x01; Byte.x86; Byte.x00; Byte.x00; Byte.x00; Byte.x00;
    Byte.x00; Byte.x79 ].

Definition _read_co2 (self : t) : M Q :=
  try_except
    (ask serial_open;;
     ask (serial_write mhz19_read_command);;
     response ← ask (serial_read 9);
     ask serial_close;;
     if Z.of_nat (length response) =? 9
     then b2 ← lift (list_index response 2);
          b3 ← lift (list_index response 3);
          mret (inject_Z (byte_int b2 * 256 + byte_int b3))
     else mret (400 : Q))
    (fun _ => mret (400 : Q)).

Definition _read_light (self : t) : M Q :=
  try_except
    (let BH1750_ADDR := 35 in
     ask (bus_write_byte BH1750_ADDR 16);;
     time_sleep (1 # 5);;
     data ← ask (bus_read_block BH1750_ADDR 16 2);
     d0 ← lift (list_index data 0);
     d1 ← lift (list_index data 1);
     mret (inject_Z (Z.lor (Z.shiftl d0 8) d1) / (6 # 5))%Q)
    (fun _ => mret (5000 : Q)).

Definition read (self : t) : M SensorReading :=
  if negb (_initialized self)
  then MockSensors.read MockSensors.__init__
  else
    '(temp, humidity) ←
      try_except
        (temp ← ask dht_temperature;
         humidity ← ask dht_humidity;
         mret (temp, humidity))
        (fun _ => mret (Some (22 : Q), Some (60 : Q)));
    now ← datetime_now;
    co2 ← _read_co2 self;
    light ← _read_light self;
    mret {| timestamp := now;
            temperature_c := or_default temp 22;
            humidity_percent := or_default humidity 60;
            co2_ppm := co2;
            light_lux := light |}.

End Sensors.

End RaspberryPiSensors.

(** What [get_sensor_interface] returns: one of the two implementations
    of the [SensorInterface] protocol. *)
Inductive SensorInterface :=
| UseMock (sensors : MockSensors.t)
| UseRaspberryPi (sensors : RaspberryPiSensors.t).

Section Interface.
Context `{Hardware} `{Timing}.

Definition get_sensor_interface (use_mock : bool) : M SensorInterface :=
  if use_mock then mret (UseMock MockSensors.__init__)
  else sensors ← RaspberryPiSensors.__init__; mret (UseRaspberryPi sensors).

(** [sensors.read()] through the protocol. *)
Definition sensors_read (sensors : SensorInterface) : M SensorReading :=
  match sensors with
  | UseMock s => MockSensors.read s
  | UseRaspberryPi s => RaspberryPiSensors.read s
  end.

End Interface.

(** ** Vocabulary for the hardware side *)

(** The serial exchange of [_read_co2] as one answer: the nine-byte
    request is written and the response read, unless a step fails. *)
Definition serial_exchange `{Hardware} (w : World) : outcome (list Byte.byte) :=
  serial_open w;;
  serial_write RaspberryPiSensors.mhz19_read_command w;;
  response ← serial_read 9 w;
  serial_close w;;
  mret response.

(** The concentration a response stands for: bytes 2 and 3 of a
    nine-byte response, high byte first; the default otherwise. *)
Definition co2_of_response (response : list Byte.byte) : Q :=
  match response with
  | [_; _; b2; b3; _; _; _; _; _] => inject_Z (byte_int b2 * 256 + byte_int b3)
  | _ => 400
  end.

(** Every failure of the hardware or of its libraries is an exception in
    the sense of [except Exception]. *)
Definition hardware_failures_are_exceptions `{Hardware} : Prop :=
  forall w e,
    (connect w = ConnectionFailed e
     \/ dht_temperature w = Raise e \/ dht_humidity w = Raise e
     \/ serial_open w = Raise e
     \/ (exists bytes, serial_write bytes w = Raise e)
     \/ (exists n, serial_read n w = Raise e)
     \/ serial_close w = Raise e
     \/ (exists addr cmd, bus_write_byte addr cmd w = Raise e)
     \/ (exists addr cmd n, bus_read_block addr cmd n w = Raise e)) ->
    is_Exception e = true.

(** No sleep is interrupted. *)
Definition sleep_uninterrupted `{Timing} : Prop :=
  forall seconds w, exists t, sleep_until seconds w = Return t.

(** The I2C bus delivers bytes. *)
Definition bus_data_are_bytes `{Hardware} : Prop :=
  forall addr cmd n w data,
    bus_read_block addr cmd n w = Return data ->
    Forall (fun d => 0 <= d < 256) data.

(** A bench set-up for examples: the DHT22 reports 0 degrees and 55
    percent, the MH-Z19 answers 500 ppm, the BH1750 answers raw 7200. *)
Definition bench_hardware : Hardware :=
  {| connect _ := Connected;
     dht_temperature _ := Return (Some (0 : Q));
     dht_humidity _ := Return (Some (55 : Q));
     serial_open _ := Return tt;
     serial_write bytes _ := Return (Z.of_nat (length bytes));
     serial_read _ _ :=
       Return [ Byte.xff; Byte.x86; Byte.x01; Byte.xf4; Byte.x00; Byte.x00;
                Byte.x00; Byte.x00; Byte.x85 ];
     serial_close _ := Return tt;
     bus_write_byte _ _ _ := Return tt;
     bus_read_block _ _ _ _ := Return [ 28; 32 ] |}.

(** A machine without the sensor libraries. *)
Definition bare_hardware : Hardware :=
  {| connect _ := MissingLibrary;
     dht_temperature _ := Raise (Exception "no sensor");
     dht_humidity _ := Raise (Exception "no sensor");
     serial_open _ := Raise (Exception "No module named 'serial'");
     serial_write _ _ := Raise (Exception "no port");
     serial_read _ _ := Raise (Exception "no port");
     serial_close _ := Raise (Exception "no port");
     bus_write_byte _ _ _ := Raise (Exception "no bus");
     bus_read_block _ _ _ _ := Raise (Exception "no bus") |}.

(** A clock that counts seconds and sleeps exactly as long as asked. *)
Definition steady_timing : Timing :=
  {| time_time w := inject_Z (clock w);
     sleep_until seconds w := Return (clock w + Qceiling seconds) |}.

(** ** main.py *)

(** The namespace [parse_args] returns: [--real], [--interval],
    [--ai-interval]. *)
Record Args := {
  real : bool;
  interval : Z;
  ai_interval : Z;
}.

(** The defaults that [parse_args] declares. *)
Definition default_args : Args :=
  {| real := false; interval := 10; ai_interval := 60 |}.

(** [try: body / except KeyboardInterrupt: handler] *)
Definition try_except_interrupt {A} (body handler : M A) : M A :=
  fun w =>
    match body w with
    | (Raise KeyboardInterrupt, w') => handler w'
    | r => r
    end.

(** [sys.exit(0)] *)
Definition sys_exit {A} : M A := lift (Raise SystemExit).

Definition newline : string := String "010"%char "".

(** The two variables that the loop of [main] updates. *)
Record LoopState := {
  last_ai_update : Q;
  current_recommendation : string;
}.

Definition initial_state : LoopState :=
  {| last_ai_update := 0;
     current_recommendation := "Initializing... gathering first readings." |}.

Definition goodbye : string :=
  newline ++ newline ++ "Monitoring stopped. Goodbye!".

Section Main.
Context `{Formatting} `{Hardware} `{Timing}.

(** One round of [while True]. *)
Definition loop_body (args : Args) (sensors : SensorInterface)
    (advisor : AIAdvisor.t) (api : APIClient.t) (s : LoopState) : M LoopState :=
  reading ← sensors_read sensors;
  APIClient.push_reading api reading;;
  current_time ← ask (fun w => Return (time_time w));
  s ← (if Num.leb (Num.of_int (ai_interval args))
            (current_time - last_ai_update s)%Q
       then
         recommendation ← AIAdvisor.get_recommendation advisor reading;
         APIClient.push_analysis api reading recommendation;;
         mret {| last_ai_update := current_time;
                 current_recommendation := recommendation |}
       else mret s);
  display_reading reading (Some (current_recommendation s));;
  time_sleep (Num.of_int (interval args));;
  mret s.

(** The first [rounds] rounds of [while True]: the loop has no exit of
    its own, it ends only when a round raises. *)
Fixpoint loop (rounds : nat) (args : Args) (sensors : SensorInterface)
    (advisor : AIAdvisor.t) (api : APIClient.t) (s : LoopState) : M LoopState :=
  match rounds with
  | O => mret s
  | S n =>
      s' ← loop_body args sensors advisor api s;
      loop n args sensors advisor api s'
  end.

(** The part of [main] before the loop. *)
Definition startup (args : Args) : M (SensorInterface * AIAdvisor.t * APIClient.t) :=
  sensors ← get_sensor_interface (negb (real args));
  advisor ← AIAdvisor.__init__ None;
  api ← APIClient.__init__ None None;
  print "Starting Avocado Plant Monitoring System...";;
  print ("Mode: " ++ if real args then "Real sensors" else "Mock sensors (testing)");;
  print ("Reading interval: " ++ pretty (interval args) ++ "s");;
  print ("AI recommendation interval: " ++ pretty (ai_interval args) ++ "s");;
  print "";;
  mret (sensors, advisor, api).

(** [main], with the arguments that [parse_args] returned, followed for
    [rounds] rounds of its loop.  The environment of the world is the
    one that [load_dotenv()] has left when the module was loaded. *)
Definition main (rounds : nat) (args : Args) : M LoopState :=
  '(sensors, advisor, api) ← startup args;
  try_except_interrupt
    (loop rounds args sensors advisor api initial_state)
    (print goodbye;; sys_exit).

End Main.

(** ** Vocabulary for the monitor *)

(** From [w] to [w'] no request was sent, no recommendation was asked
    for and the environment variables stayed as they were. *)
Definition no_traffic (w w' : World) : Prop :=
  sent w' = sent w /\ asked w' = asked w /\ environ w' = environ w.

(** A computation that causes no traffic, whatever it returns or
    raises. *)
Definition quiet {A} (m : M A) : Prop := forall w, no_traffic w (m w).2.

(** Neither the recommendation service nor the external API is
    configured. *)
Definition offline (w : World) : Prop :=
  truthy_opt (environ w !! "ANTHROPIC_API_KEY") = false
  /\ configuration_absent None None w.

(** A clock under which every sleep is interrupted from the keyboard. *)
Definition interrupted_timing : Timing :=
  {| time_time w := inject_Z (clock w);
     sleep_until _ _ := Raise KeyboardInterrupt |}.

(** * Properties *)

(** ** Numbers *)

Module NumFacts.

Lemma ltb_lt a b : Num.ltb a b = true <-> (a < b)%Q.
Proof.
  unfold Num.ltb. rewrite negb_true_iff, <- not_true_iff_false, Qle_bool_iff.
  split; [apply Qnot_le_lt | apply Qlt_not_le].
Qed.

Lemma ltb_ge a b : Num.ltb a b = false <-> (b <= a)%Q.
Proof.
  unfold Num.ltb. rewrite negb_false_iff. apply Qle_bool_iff.
Qed.

Lemma gtb_gt a b : Num.gtb a b = true <-> (b < a)%Q.
Proof. apply ltb_lt. Qed.

Lemma gtb_le a b : Num.gtb a b = false <-> (a <= b)%Q.
Proof. apply ltb_ge. Qed.

Lemma leb_le a b : Num.leb a b = true <-> (a <= b)%Q.
Proof. apply Qle_bool_iff. Qed.

Lemma leb_gt a b : Num.leb a b = false <-> (b < a)%Q.
Proof.
  unfold Num.leb. rewrite <- not_true_iff_false, Qle_bool_iff.
  split; [apply Qnot_le_lt | apply Qlt_not_le].
Qed.

Lemma eqb_eq a b : Num.eqb a b = true <-> a == b.
Proof. apply Qeq_bool_iff. Qed.

(** The comparisons only see the number, not its representation. *)
#[global] Instance ltb_proper : Proper (Qeq ==> Qeq ==> eq) Num.ltb.
Proof. intros a a' Ha b b' Hb. unfold Num.ltb. now rewrite Ha, Hb. Qed.

#[global] Instance gtb_proper : Proper (Qeq ==> Qeq ==> eq) Num.gtb.
Proof. intros a a' Ha b b' Hb. unfold Num.gtb. now rewrite Ha, Hb. Qed.

#[global] Instance leb_proper : Proper (Qeq ==> Qeq ==> eq) Num.leb.
Proof. intros a a' Ha b b' Hb. unfold Num.leb. now rewrite Ha, Hb. Qed.

Lemma ltb_compat_l a a' b : a == a' -> Num.ltb a b = Num.ltb a' b.
Proof. intros Ha. now apply ltb_proper. Qed.

Lemma gtb_compat_l a a' b : a == a' -> Num.gtb a b = Num.gtb a' b.
Proof. intros Ha. now apply gtb_proper. Qed.

(** [max(lo, x)] is at least [lo] and at least [x]. *)
Lemma max_lower lo x : (lo <= Num.max lo x)%Q.
Proof.
  unfold Num.max. destruct (Num.gtb x lo) eqn:E.
  - apply gtb_gt in E. lra.
  - lra.
Qed.

Lemma max_upper lo hi x : (lo <= hi)%Q -> (x <= hi)%Q -> (Num.max lo x <= hi)%Q.
Proof. intros. unfold Num.max. now destruct (Num.gtb x lo). Qed.

Lemma min_upper hi x : (Num.min hi x <= hi)%Q.
Proof.
  unfold Num.min. destruct (Num.ltb x hi) eqn:E.
  - apply ltb_lt in E. lra.
  - lra.
Qed.

(** On non-negative numbers [int] is the floor. *)
Lemma int_floor x : (0 <= x)%Q -> Num.int x = Qfloor x.
Proof.
  destruct x as [n d]. unfold Qle, Num.int, Qfloor. simpl. intros Hn.
  apply Z.quot_div_nonneg; lia.
Qed.

End NumFacts.

(** ** The range classifier *)

(** The status token is the token of the specification's class, for every
    value and every pair of bounds. *)
Lemma get_status_indicator_classify value low high :
  get_status_indicator value (low, high) = status_token (classify value low high).
Proof.
  unfold get_status_indicator, classify.
  destruct (Num.leb low value) eqn:E1, (Num.leb value high) eqn:E2,
    (Num.ltb value low) eqn:E3, (Num.gtb value high) eqn:E4;
    simpl; try reflexivity; exfalso;
    rewrite ?NumFacts.leb_le, ?NumFacts.leb_gt, ?NumFacts.ltb_lt,
      ?NumFacts.ltb_ge, ?NumFacts.gtb_gt, ?NumFacts.gtb_le in *; lra.
Qed.

(** C2. For a range with [low < high] the classifier answers "[OK]"
    exactly when [low <= v <= high], "[LOW]" exactly when [v < low] and
    "[HIGH]" exactly when [v > high]; both bounds themselves are "[OK]". *)
Theorem get_status_indicator_spec (v low high : Q) :
  (low < high)%Q ->
  (get_status_indicator v (low, high) = "[OK]" <-> (low <= v <= high)%Q)
  /\ (get_status_indicator v (low, high) = "[LOW]" <-> (v < low)%Q)
  /\ (get_status_indicator v (low, high) = "[HIGH]" <-> (high < v)%Q)
  /\ get_status_indicator low (low, high) = "[OK]"
  /\ get_status_indicator high (low, high) = "[OK]".
Proof.
  intros Hlh. unfold get_status_indicator.
  assert (Hl : Num.leb low low = true) by (apply NumFacts.leb_le; lra).
  assert (Hh : Num.leb high high = true) by (apply NumFacts.leb_le; lra).
  assert (Hlh' : Num.leb low high = true) by (apply NumFacts.leb_le; lra).
  rewrite Hl, Hh, Hlh'. simpl.
  destruct (Num.leb low v) eqn:E1; [apply NumFacts.leb_le in E1 | apply NumFacts.leb_gt in E1];
  (destruct (Num.leb v high) eqn:E2; [apply NumFacts.leb_le in E2 | apply NumFacts.leb_gt in E2]);
  (destruct (Num.ltb v low) eqn:E3; [apply NumFacts.ltb_lt in E3 | apply NumFacts.ltb_ge in E3]);
  simpl; try lra.
  all: repeat apply conj; try reflexivity; try discriminate; try lra.
  all: try (intros [? ?]; lra); try (intros; lra).
Qed.

Lemma get_status_indicator_spec_witness :
  (get_status_indicator 18 (18 : Q, 26 : Q) = "[OK]" <-> (18 <= 18 <= 26)%Q)
  /\ (get_status_indicator 18 (18 : Q, 26 : Q) = "[LOW]" <-> (18 < 18)%Q)
  /\ (get_status_indicator 18 (18 : Q, 26 : Q) = "[HIGH]" <-> (26 < 18)%Q)
  /\ get_status_indicator 18 (18 : Q, 26 : Q) = "[OK]"
  /\ get_status_indicator 26 (18 : Q, 26 : Q) = "[OK]".
Proof. apply (get_status_indicator_spec 18 18 26). reflexivity. Defined.

(** ** Strings *)

Module StrFacts.

Lemma length_app (s t : string) :
  String.length (s ++ t) = (String.length s + String.length t)%nat.
Proof. induction s as [|c s IH]; simpl; [reflexivity | now rewrite IH]. Qed.

Lemma len_app (s t : string) : Str.len (s ++ t) = Str.len s + Str.len t.
Proof. unfold Str.len. rewrite length_app. lia. Qed.

Lemma len_nonneg (s : string) : 0 <= Str.len s.
Proof. unfold Str.len. lia. Qed.


(** A character repeated [n] times. *)
Lemma mul_char_succ c (n : Z) :
  0 <= n -> Str.mul (String c "") (Z.succ n) = String c (Str.mul (String c "") n).
Proof.
  intros Hn. unfold Str.mul. rewrite Z2Nat.inj_succ by assumption. reflexivity.
Qed.


Lemma len_mul_char c (n : Z) : 0 <= n -> Str.len (Str.mul (String c "") n) = n.
Proof.
  revert n. apply natlike_ind.
  - reflexivity.
  - intros n Hn IH. rewrite mul_char_succ by assumption.
    unfold Str.len in *. simpl String.length. lia.
Qed.


End StrFacts.

(** ** The bar gauge *)

Section Bar.
Variables (value low high : Q).
Hypothesis low_lt_high : (low < high)%Q.

(** The code's clamped quotient is the interpolation of the
    specification. *)
Lemma clamp_normalize :
  Num.max 0 (Num.min 1 ((value - low) / (high - low))) == normalize value low high
  /\ (0 <= normalize value low high <= 1)%Q.
Proof.
  set (x := ((value - low) / (high - low))%Q).
  assert (Hd : (0 < high - low)%Q) by lra.
  assert (Hx : x * (high - low) == value - low).
  { unfold x. field. lra. }
  unfold normalize, Num.max, Num.min.
  destruct (Num.leb value low) eqn:E1;
    [apply NumFacts.leb_le in E1 | apply NumFacts.leb_gt in E1];
    (destruct (Num.leb high value) eqn:E2;
     [apply NumFacts.leb_le in E2 | apply NumFacts.leb_gt in E2]);
    (destruct (Num.ltb x 1) eqn:E3;
     [apply NumFacts.ltb_lt in E3 | apply NumFacts.ltb_ge in E3]);
    try (exfalso; nra).
  all: match goal with
       | |- context [Num.gtb ?a 0] =>
           destruct (Num.gtb a 0) eqn:E4;
           [apply NumFacts.gtb_gt in E4 | apply NumFacts.gtb_le in E4]
       end; try (exfalso; nra).
  all: fold x; split; try reflexivity; try nra; try lra.
Qed.

Lemma create_bar_filled (width : Z) :
  0 <= width ->
  create_bar value low high width =
    Return ("[" ++ Str.mul "#" (Qfloor (normalize value low high * inject_Z width))
                ++ Str.mul "-" (width - Qfloor (normalize value low high * inject_Z width))
                ++ "]")
  /\ 0 <= Qfloor (normalize value low high * inject_Z width) <= width.
Proof.
  intros Hw. destruct clamp_normalize as [Hc [Hn0 Hn1]].
  assert (HW : (0 <= inject_Z width)%Q) by (unfold Qle; simpl; lia).
  unfold create_bar.
  destruct (Num.eqb (high - low) 0) eqn:E.
  { apply NumFacts.eqb_eq in E. lra. }
  rewrite NumFacts.int_floor.
  2:{ unfold Num.of_int. rewrite Hc. now apply Qmult_le_0_compat. }
  unfold Num.of_int. rewrite (Qfloor_comp _ _ (Qmult_comp _ _ Hc _ _ (Qeq_refl _))).
  split; [reflexivity|].
  split.
  - rewrite <- (Qfloor_Z 0). apply Qfloor_resp_le.
    now apply Qmult_le_0_compat.
  - rewrite <- (Qfloor_Z width) at 2. apply Qfloor_resp_le.
    rewrite <- (Qmult_1_l (inject_Z width)) at 2.
    now apply Qmult_le_compat_r.
Qed.

End Bar.






(** ** The fallback advisor *)

Section Fallback.
Variable ranges : gmap string (Q * Q).
Variable reading : SensorReading.

Ltac lookup_ranges H :=
  let get m lo hi E :=
    (destruct (H m) as [[lo hi] E]; cbn [metric_key] in E) in
  get Temperature ipattern:(t_lo) ipattern:(t_hi) ipattern:(Et);
  get Humidity ipattern:(h_lo) ipattern:(h_hi) ipattern:(Eh);
  get CO2 ipattern:(c_lo) ipattern:(c_hi) ipattern:(Ec);
  get Light ipattern:(l_lo) ipattern:(l_hi) ipattern:(El).

(** The code's issue list, built by successive appends, is the issue
    list of the specification, and the returned text is its rendering. *)
Lemma fallback_render :
  ranges_defined ranges ->
  AIAdvisor._get_fallback_recommendation ranges reading =
    Return (render_issues (issues_of ranges reading)).
Proof.
  intros Hdef. lookup_ranges Hdef.
  unfold AIAdvisor._get_fallback_recommendation, getitem, issues_of, metric_order.
  cbn [omap list_omap]. unfold issue_of. cbn [metric_key metric_value].
  rewrite Et, Eh, Ec, El. cbn [mbind outcome_bind]. unfold classify.
  destruct (Num.ltb (temperature_c reading) t_lo);
    [|destruct (Num.gtb (temperature_c reading) t_hi)];
    (destruct (Num.ltb (humidity_percent reading) h_lo);
     [|destruct (Num.gtb (humidity_percent reading) h_hi)]);
    (destruct (Num.ltb (co2_ppm reading) c_lo);
     [|destruct (Num.gtb (co2_ppm reading) c_hi)]);
    (destruct (Num.ltb (light_lux reading) l_lo);
     [|destruct (Num.gtb (light_lux reading) l_hi)]);
    reflexivity.
Qed.

(** Whatever the reading, the rendered text holds as many issue
    sentences as were kept and one separator between two of them. *)
Lemma render_counts :
  ranges_defined ranges ->
  let issues := issues_of ranges reading in
  issue_count (render_issues issues) = Z.of_nat (length (take 2 issues))
  /\ Str.count (render_issues issues) " | " = Z.of_nat (length (take 2 issues) - 1).
Proof.
  intros Hdef. lookup_ranges Hdef.
  unfold issues_of, metric_order.
  cbn [omap list_omap]. unfold issue_of. cbn [metric_key metric_value].
  rewrite Et, Eh, Ec, El. unfold classify.
  destruct (Num.ltb (temperature_c reading) t_lo);
    [|destruct (Num.gtb (temperature_c reading) t_hi)];
    (destruct (Num.ltb (humidity_percent reading) h_lo);
     [|destruct (Num.gtb (humidity_percent reading) h_hi)]);
    (destruct (Num.ltb (co2_ppm reading) c_lo);
     [|destruct (Num.gtb (co2_ppm reading) c_hi)]);
    (destruct (Num.ltb (light_lux reading) l_lo);
     [|destruct (Num.gtb (light_lux reading) l_hi)]);
    vm_compute; split; reflexivity.
Qed.

End Fallback.

Lemma OPTIMAL_RANGES_defined : ranges_defined OPTIMAL_RANGES.
Proof. intros []; vm_compute; eexists; reflexivity. Qed.

(** C1. The advisor looks at temperature, humidity, CO2 and light in that
    order, collects the sentence of each metric strictly below or strictly
    above its range, and when there is an issue returns the first two
    joined by " | " (with no issue it returns the all-clear message); for
    every reading the text holds at most two issue sentences and at most
    one separator. *)
Theorem fallback_top_two_issues (ranges : gmap string (Q * Q)) (reading : SensorReading) :
  ranges_defined ranges ->
  let issues := issues_of ranges reading in
  exists text,
    AIAdvisor._get_fallback_recommendation ranges reading = Return text
    /\ (issues <> [] -> text = Str.join " | " (take 2 issues))
    /\ (issues = [] -> text = all_clear)
    /\ issue_count text = Z.of_nat (length (take 2 issues))
    /\ issue_count text <= 2
    /\ Str.count text " | " <= 1.
Proof.
  intros Hdef issues. exists (render_issues issues).
  destruct (render_counts ranges reading Hdef) as [Hn Hsep].
  fold issues in Hn, Hsep.
  assert (Hlen : (length (take 2 issues) <= 2)%nat).
  { rewrite length_take. lia. }
  repeat apply conj.
  - apply fallback_render, Hdef.
  - unfold render_issues. destruct issues; [congruence | reflexivity].
  - intros ->. reflexivity.
  - exact Hn.
  - lia.
  - lia.
Qed.

Lemma fallback_top_two_issues_witness :
  exists text,
    AIAdvisor._get_fallback_recommendation OPTIMAL_RANGES all_out_of_range_reading
      = Return text
    /\ text = Str.join " | "
                [ "Temperature too high - improve ventilation";
                  "Humidity too low - mist leaves or use humidifier" ]
    /\ issue_count text = 2
    /\ Str.count text " | " <= 1.
Proof.
  destruct (fallback_top_two_issues OPTIMAL_RANGES all_out_of_range_reading
              OPTIMAL_RANGES_defined) as (text & Hrun & Hjoin & _ & Hn & _ & Hsep).
  exists text. repeat apply conj.
  - exact Hrun.
  - apply Hjoin. vm_compute. discriminate.
  - exact Hn.
  - exact Hsep.
Defined.

(** C6. A reading whose four metrics all lie within their ranges, bounds
    included, gets the all-clear message, and that message contains
    "optimal" when lower-cased. *)
Theorem fallback_all_clear (ranges : gmap string (Q * Q)) (reading : SensorReading) :
  all_within ranges reading ->
  AIAdvisor._get_fallback_recommendation ranges reading = Return all_clear
  /\ Str.contains "optimal" (Str.lower all_clear) = true.
Proof.
  intros Hin. split; [|reflexivity].
  rewrite fallback_render.
  2:{ intros m. destruct (Hin m) as (lo & hi & -> & _). eexists; reflexivity. }
  f_equal. unfold issues_of, metric_order. cbn [omap list_omap].
  assert (Hnone : forall m, issue_of ranges reading m = None).
  { intros m. unfold issue_of. destruct (Hin m) as (lo & hi & -> & Hlo & Hhi).
    unfold classify.
    rewrite (proj2 (NumFacts.ltb_ge _ _) Hlo), (proj2 (NumFacts.gtb_le _ _) Hhi).
    now destruct m. }
  rewrite !Hnone. reflexivity.
Qed.

Lemma fallback_all_clear_witness :
  AIAdvisor._get_fallback_recommendation OPTIMAL_RANGES
    {| timestamp := 0; temperature_c := 18; humidity_percent := 70;
       co2_ppm := 400; light_lux := 10000 |} = Return all_clear
  /\ Str.contains "optimal" (Str.lower all_clear) = true.
Proof.
  apply fallback_all_clear. intros m.
  destruct m; vm_compute; do 2 eexists; (split; [reflexivity|]); split; discriminate.
Defined.

(** C10. The fallback text is a function of the four measurements and of
    the range table alone: two readings with equal measurements, whatever
    their timestamps and however the numbers are represented, get the
    same text from the same table. *)
Theorem fallback_deterministic (ranges : gmap string (Q * Q)) (r1 r2 : SensorReading) :
  same_measurements r1 r2 ->
  AIAdvisor._get_fallback_recommendation ranges r1
  = AIAdvisor._get_fallback_recommendation ranges r2.
Proof.
  intros Heq.
  pose proof (Heq Temperature) as Ht. pose proof (Heq Humidity) as Hh.
  pose proof (Heq CO2) as Hc. pose proof (Heq Light) as Hl.
  cbn [metric_value] in Ht, Hh, Hc, Hl.
  unfold AIAdvisor._get_fallback_recommendation.
  destruct (getitem ranges "temperature") as [[t_lo t_hi]|]; [|reflexivity].
  cbn [mbind outcome_bind].
  rewrite (NumFacts.ltb_compat_l _ _ t_lo Ht), (NumFacts.gtb_compat_l _ _ t_hi Ht).
  destruct (getitem ranges "humidity") as [[h_lo h_hi]|]; [|reflexivity].
  cbn [mbind outcome_bind].
  rewrite (NumFacts.ltb_compat_l _ _ h_lo Hh), (NumFacts.gtb_compat_l _ _ h_hi Hh).
  destruct (getitem ranges "co2") as [[c_lo c_hi]|]; [|reflexivity].
  cbn [mbind outcome_bind].
  rewrite (NumFacts.ltb_compat_l _ _ c_lo Hc), (NumFacts.gtb_compat_l _ _ c_hi Hc).
  destruct (getitem ranges "light") as [[l_lo l_hi]|]; [|reflexivity].
  cbn [mbind outcome_bind].
  rewrite (NumFacts.ltb_compat_l _ _ l_lo Hl), (NumFacts.gtb_compat_l _ _ l_hi Hl).
  reflexivity.
Qed.

Lemma fallback_deterministic_witness :
  AIAdvisor._get_fallback_recommendation OPTIMAL_RANGES
    {| timestamp := 1; temperature_c := 35; humidity_percent := 60;
       co2_ppm := 500; light_lux := 5000 |}
  = AIAdvisor._get_fallback_recommendation OPTIMAL_RANGES
    {| timestamp := 2; temperature_c := 70 # 2; humidity_percent := 60;
       co2_ppm := 1000 # 2; light_lux := 5000 |}.
Proof. apply fallback_deterministic. intros []; reflexivity. Defined.

(** ** Running computations *)

Lemma bind_return {A B} (m : M A) (f : A -> M B) (w w' : World) (a : A) :
  m w = (Return a, w') -> (m ≫= f) w = f a w'.
Proof. intros Hm. unfold mbind, M_bind. now rewrite Hm. Qed.

Lemma bind_raise {A B} (m : M A) (f : A -> M B) (w w' : World) (e : exn) :
  m w = (Raise e, w') -> (m ≫= f) w = (Raise e, w').
Proof. intros Hm. unfold mbind, M_bind. now rewrite Hm. Qed.

(** ** The mock simulator *)

(** One call of [read] in a world [w]: the reading it returns and the
    world it leaves, in which four more draws have been made. *)
Lemma mock_read_run (w : World) :
  MockSensors.read MockSensors.__init__ w =
    (Return
       {| timestamp := clock w;
          temperature_c := (22 + uniform w (draws w) (-2) 2)%Q;
          humidity_percent :=
            Num.max 0 (Num.min 100 (65 + uniform w (S (draws w)) (-5) 5)%Q);
          co2_ppm := Num.max 300 (450 + uniform w (S (S (draws w))) (-50) 50)%Q;
          light_lux :=
            Num.max 0 (5000 + uniform w (S (S (S (draws w)))) (-1000) 1000)%Q |},
     set_draws (S (S (S (S (draws w))))) w).
Proof. reflexivity. Qed.

Lemma clamped_reading_valid (ts : datetime) (t h c l : Q) :
  reading_valid
    {| timestamp := ts; temperature_c := t;
       humidity_percent := Num.max 0 (Num.min 100 h);
       co2_ppm := Num.max 300 c;
       light_lux := Num.max 0 l |}.
Proof.
  unfold reading_valid. cbn [humidity_percent co2_ppm light_lux].
  repeat apply conj.
  - apply NumFacts.max_lower.
  - apply NumFacts.max_upper; [discriminate | apply NumFacts.min_upper].
  - apply NumFacts.max_lower.
  - apply NumFacts.max_lower.
Qed.

(** C4. Every call of [read] returns a reading, whatever the four draws
    are; its humidity lies in [[0, 100]], its CO2 is at least 300, its
    light is at least 0, and its temperature is the base value 22 plus
    the first draw, with no clamp. *)
Theorem mock_read_valid (w : World) :
  exists r w',
    MockSensors.read MockSensors.__init__ w = (Return r, w')
    /\ (0 <= humidity_percent r <= 100)%Q
    /\ (300 <= co2_ppm r)%Q
    /\ (0 <= light_lux r)%Q
    /\ temperature_c r = (22 + uniform w (draws w) (-2) 2)%Q
    /\ draws w' = (draws w + 4)%nat.
Proof.
  eexists _, _. split; [apply mock_read_run|].
  match goal with
  | |- context [Build_SensorReading ?ts ?t (Num.max 0 (Num.min 100 ?h))
                  (Num.max 300 ?c) (Num.max 0 ?l)] =>
      destruct (clamped_reading_valid ts t h c l) as (Hh & Hc & Hl)
  end.
  repeat apply conj; try assumption; try apply Hh.
  - reflexivity.
  - cbn [draws set_draws]. lia.
Qed.

(** Any number of consecutive reads returns that many valid readings. *)
Lemma mock_read_many_valid (n : nat) (w : World) :
  exists rs w',
    MockSensors.read_many MockSensors.__init__ n w = (Return rs, w')
    /\ length rs = n
    /\ Forall reading_valid rs.
Proof.
  revert w. induction n as [|n IH]; intros w.
  - exists [], w. repeat split. constructor.
  - destruct (IH (set_draws (S (S (S (S (draws w))))) w))
      as (rs & w2 & Hrs & Hlen & Hall).
    eexists (_ :: rs), w2. repeat apply conj.
    + cbn [MockSensors.read_many].
      rewrite (bind_return _ _ _ _ _ (mock_read_run w)),
        (bind_return _ _ _ _ _ Hrs). reflexivity.
    + simpl. now rewrite Hlen.
    + constructor; [apply clamped_reading_valid | exact Hall].
Qed.

(** ** The dashboard *)

Lemma set_console_same (w : World) : set_console (console w) w = w.
Proof. now destruct w. Qed.

(** The wrap loop only prints: it returns the last line and leaves the
    world as it was but for the lines added to the console.  When no word
    is longer than 56 characters and the current line fits in 58, so do
    the printed lines and the line left over. *)
Lemma wrap_words_run (words : list string) :
  forall line, exists last lines,
    (forall w, wrap_words words line w
               = (Return last, set_console (console w ++ lines) w))
    /\ (Forall (fun word => Str.len word <= 56) words -> Str.len line <= 58 ->
        Forall (fun l => Str.len l <= 58) lines /\ Str.len last <= 58).
Proof.
  induction words as [|word rest IH]; intros line.
  - exists line, []. split.
    + intros w. rewrite app_nil_r, set_console_same. reflexivity.
    + intros _ Hline. split; [constructor | exact Hline].
  - cbn [wrap_words].
    destruct (58 <? Str.len line + Str.len word + 1) eqn:E.
    + destruct (IH ("  " ++ word)) as (last & lines & Hrun & Hfit).
      exists last, (line :: lines). split.
      * intros w. rewrite (bind_return (print line) _ w _ tt eq_refl), Hrun.
        cbn [console set_console]. rewrite <- app_assoc. reflexivity.
      * intros Hwords Hline. inversion Hwords as [|? ? Hword Hrest]; subst.
        destruct (Hfit Hrest) as [Hlines Hlast].
        { rewrite StrFacts.len_app. change (Str.len "  ") with 2. lia. }
        split; [constructor; assumption | exact Hlast].
    + apply Z.ltb_ge in E.
      destruct (IH (line ++ (if negb (String.eqb line "  ") then " " ++ word else word)))
        as (last & lines & Hrun & Hfit).
      exists last, lines. split; [exact Hrun|].
      intros Hwords Hline. inversion Hwords as [|? ? Hword Hrest]; subst.
      apply Hfit; [exact Hrest|].
      rewrite StrFacts.len_app.
      destruct (negb (String.eqb line "  ")).
      * rewrite StrFacts.len_app. change (Str.len " ") with 1. lia.
      * pose proof (StrFacts.len_nonneg word). lia.
Qed.

(** The lines of a recommendation do not depend on the world they are
    printed in. *)
Lemma print_wrapped_run (text : string) :
  exists lines,
    (forall w, print_wrapped text w = (Return tt, set_console (console w ++ lines) w))
    /\ (Forall (fun word => Str.len word <= 56) (Str.split text) ->
        Forall (fun l => Str.len l <= 58) lines).
Proof.
  unfold print_wrapped.
  destruct (wrap_words_run (Str.split text) "  ") as (last & lines & Hrun & Hfit).
  destruct (Str.truthy (Str.strip last)) eqn:E.
  - exists (lines ++ [last])%list. split.
    + intros w. rewrite (bind_return _ _ w _ last (Hrun w)), E.
      unfold print. cbn [console set_console]. rewrite <- app_assoc. reflexivity.
    + intros Hwords. destruct (Hfit Hwords) as [Hlines Hlast]; [discriminate|].
      apply Forall_app. split; [exact Hlines | constructor; [exact Hlast | constructor]].
  - exists lines. split.
    + intros w. rewrite (bind_return _ _ w _ last (Hrun w)), E. reflexivity.
    + intros Hwords. now destruct (Hfit Hwords).
Qed.

Lemma printed_print_wrapped (text : string) (w w' : World) :
  printed (print_wrapped text) w = printed (print_wrapped text) w'.
Proof.
  destruct (print_wrapped_run text) as (lines & Hrun & _).
  unfold printed. rewrite !Hrun. cbn [snd console set_console].
  now rewrite !drop_app_length.
Qed.

Lemma prints_print (line : string) : prints (print line) [line].
Proof. intros w. reflexivity. Qed.

Lemma prints_ret : prints (mret tt) [].
Proof. intros w. unfold mret, M_ret. now rewrite app_nil_r, set_console_same. Qed.

Lemma prints_seq (m : M unit) (k : unit -> M unit) (l1 l2 : list string) :
  prints m l1 -> prints (k tt) l2 -> prints (m ≫= k) (l1 ++ l2).
Proof.
  intros H1 H2 w. rewrite (bind_return m k w _ tt (H1 w)), H2.
  cbn [console set_console]. now rewrite <- app_assoc.
Qed.

Lemma lift_return_bind {A B} (a : A) (k : A -> M B) :
  lift (Return a) ≫= k = k a.
Proof. reflexivity. Qed.

Lemma prints_eq (m : M unit) (l l' : list string) :
  prints m l -> l = l' -> prints m l'.
Proof. now intros H <-. Qed.

Lemma prints_print_wrapped (text : string) :
  prints (print_wrapped text) (advisory_lines text).
Proof.
  destruct (print_wrapped_run text) as (lines & Hrun & _). intros w.
  unfold advisory_lines, printed. rewrite !Hrun. cbn [snd console set_console].
  now rewrite drop_app_length.
Qed.

Lemma create_bar_bar_of (value min_val max_val : Q) :
  (min_val < max_val)%Q ->
  create_bar value min_val max_val create_bar_width
  = Return (bar_of value min_val max_val).
Proof.
  intros Hlt. unfold bar_of.
  destruct (create_bar_filled value min_val max_val Hlt create_bar_width) as [-> _];
    [discriminate | reflexivity].
Qed.

(** [display_reading] never raises: it clears the screen and prints the
    dashboard, the recommendation if there is one, and the footer. *)
Lemma display_reading_run `{Formatting} (reading : SensorReading)
    (ai_recommendation : option string) (w : World) :
  display_reading reading ai_recommendation w =
    (Return tt,
     set_console (dashboard_lines reading
                    ++ recommendation_lines ai_recommendation
                    ++ [ ""; "  Press Ctrl+C to exit" ]) w).
Proof.
  assert (Hbody : forall (m : M unit) lines,
            prints m lines -> (clear_screen;; m) w = (Return tt, set_console lines w)).
  { intros m lines Hm. rewrite (bind_return clear_screen _ w _ tt eq_refl), Hm.
    reflexivity. }
  unfold display_reading. apply Hbody.
  assert (Et : getitem OPTIMAL_RANGES "temperature" = Return (18 : Q, 26 : Q))
    by (vm_compute; reflexivity).
  assert (Eh : getitem OPTIMAL_RANGES "humidity" = Return (50 : Q, 70 : Q))
    by (vm_compute; reflexivity).
  assert (Ec : getitem OPTIMAL_RANGES "co2" = Return (400 : Q, 800 : Q))
    by (vm_compute; reflexivity).
  assert (El : getitem OPTIMAL_RANGES "light" = Return (2000 : Q, 10000 : Q))
    by (vm_compute; reflexivity).
  assert (Et' : OPTIMAL_RANGES !! "temperature" = Some (18 : Q, 26 : Q))
    by (vm_compute; reflexivity).
  assert (Eh' : OPTIMAL_RANGES !! "humidity" = Some (50 : Q, 70 : Q))
    by (vm_compute; reflexivity).
  assert (Ec' : OPTIMAL_RANGES !! "co2" = Some (400 : Q, 800 : Q))
    by (vm_compute; reflexivity).
  assert (El' : OPTIMAL_RANGES !! "light" = Some (2000 : Q, 10000 : Q))
    by (vm_compute; reflexivity).
  unfold dashboard_lines, metric_block. cbn [metric_key metric_value].
  rewrite Et', Eh', Ec', El'.
  assert (Hrec : prints
            match ai_recommendation with
            | Some text =>
                if Str.truthy text then
                  print "  AI RECOMMENDATIONS";;
                  print (Str.mul "-" 60);;
                  print_wrapped text;;
                  print (Str.mul "=" 60)
                else mret tt
            | None => mret tt
            end (recommendation_lines ai_recommendation)).
  { destruct ai_recommendation as [text|]; cbn [recommendation_lines];
      [destruct (Str.truthy text)|]; try apply prints_ret.
    eapply prints_eq.
    - repeat (eapply prints_seq;
              [first [apply prints_print | apply prints_print_wrapped]|]).
      apply prints_print.
    - reflexivity. }
  rewrite Et, Eh, Ec, El, !create_bar_bar_of by reflexivity.
  rewrite !lift_return_bind. cbv zeta.
  eapply prints_eq.
  repeat (eapply prints_seq; [first [apply prints_print | exact Hrec]|]).
  - apply prints_print.
  - reflexivity.
Qed.

(** C7 as stated does not hold: the loop never breaks a word, so a word
    of 57 characters is printed on a line of 59 (after a line that holds
    only the indent). *)
Lemma display_reading_long_word :
  let text := Str.mul "a" 57 in
  Str.truthy text = true
  /\ advisory_lines text = [ "  "; "  " ++ text ]
  /\ console (@display_reading plain_formatting sample_reading (Some text)
                offline_world).2
     = (@dashboard_lines plain_formatting sample_reading
        ++ [ "  AI RECOMMENDATIONS"; Str.mul "-" 60 ]
        ++ [ "  "; "  " +:+ text ]
        ++ [ Str.mul "=" 60; ""; "  Press Ctrl+C to exit" ])%list
  /\ Str.len ("  " ++ text) = 59
  /\ ~ Forall (fun line => Str.len line <= 58) (advisory_lines text).
Proof.
  repeat apply conj; try (vm_compute; reflexivity).
  intros Hall. apply Forall_cons in Hall as [_ Hall].
  apply Forall_cons in Hall as [Hlong _]. vm_compute in Hlong. now apply Hlong.
Qed.

(** C7, amended. When no word of the recommendation is longer than 56
    characters, the dashboard shows the recommendation between its heading
    and the closing rule on lines of at most 58 characters, indent
    included. *)
Theorem display_reading_wraps `{Formatting} (reading : SensorReading)
    (text : string) (w : World) :
  Str.truthy text = true ->
  Forall (fun word => Str.len word <= 56) (Str.split text) ->
  console (display_reading reading (Some text) w).2
  = (dashboard_lines reading
     ++ [ "  AI RECOMMENDATIONS"; Str.mul "-" 60 ]
     ++ advisory_lines text
     ++ [ Str.mul "=" 60; ""; "  Press Ctrl+C to exit" ])%list
  /\ Forall (fun line => Str.len line <= 58) (advisory_lines text).
Proof.
  intros Htext Hwords. split.
  - rewrite display_reading_run. cbn [snd console set_console recommendation_lines].
    rewrite Htext. now rewrite <- !app_assoc.
  - destruct (print_wrapped_run text) as (lines & Hrun & Hfit).
    unfold advisory_lines, printed. rewrite Hrun. cbn [snd console set_console].
    rewrite drop_app_length. apply Hfit, Hwords.
Qed.

Lemma display_reading_wraps_witness :
  let text := "Temperature too high - improve ventilation | Humidity too low - mist leaves or use humidifier" in
  console (@display_reading plain_formatting all_out_of_range_reading (Some text)
             offline_world).2
  = (@dashboard_lines plain_formatting all_out_of_range_reading
     ++ [ "  AI RECOMMENDATIONS"; Str.mul "-" 60 ]
     ++ advisory_lines text
     ++ [ Str.mul "=" 60; ""; "  Press Ctrl+C to exit" ])%list
  /\ Forall (fun line => Str.len line <= 58) (advisory_lines text).
Proof.
  apply (@display_reading_wraps plain_formatting).
  - reflexivity.
  - vm_compute. repeat constructor; discriminate.
Defined.

(** ** The end-to-end scenario *)

(** C3. The reading 35 / 20 / 1200 / 500 against the standard ranges has
    the status tokens [HIGH], [LOW], [HIGH], [LOW], and its fallback
    advisory is the high-temperature sentence followed by the
    low-humidity sentence. *)
Theorem out_of_range_scenario (ts : datetime) :
  let reading := {| timestamp := ts; temperature_c := 35; humidity_percent := 20;
                    co2_ppm := 1200; light_lux := 500 |} in
  (fmap (M := list) (fun m => fmap (M := option) (get_status_indicator (metric_value m reading))
                  (OPTIMAL_RANGES !! metric_key m)) metric_order
   = [Some "[HIGH]"; Some "[LOW]"; Some "[HIGH]"; Some "[LOW]"])
  /\ (fmap (M := list) (fun m => OPTIMAL_RANGES !! metric_key m) metric_order
      = [Some (18 : Q, 26 : Q); Some (50 : Q, 70 : Q);
         Some (400 : Q, 800 : Q); Some (2000 : Q, 10000 : Q)])
  /\ AIAdvisor._get_fallback_recommendation OPTIMAL_RANGES reading
     = Return ("Temperature too high - improve ventilation"
               ++ " | " ++ "Humidity too low - mist leaves or use humidifier")
  /\ issues_of OPTIMAL_RANGES reading
     = [ "Temperature too high - improve ventilation";
         "Humidity too low - mist leaves or use humidifier";
         "CO2 elevated - increase fresh air exchange";
         "Light insufficient - move closer to window or add grow light" ]
  /\ (forall (F : Formatting) (advice : option string) (w : World),
        let screen := console (display_reading reading advice w).2 in
        screen !! 6%nat = Some "  TEMPERATURE [HIGH]"
        /\ screen !! 10%nat = Some "  HUMIDITY [LOW]"
        /\ screen !! 14%nat = Some "  CO2 LEVEL [HIGH]"
        /\ screen !! 18%nat = Some "  LIGHT LEVEL [LOW]").
Proof.
  repeat apply conj; try (vm_compute; reflexivity).
  intros F advice w screen. subst screen. rewrite display_reading_run.
  cbn [snd console set_console]. repeat apply conj; vm_compute; reflexivity.
Qed.


(** ** The recommendation service *)

Lemma fallback_returns (reading : SensorReading) :
  AIAdvisor._get_fallback_recommendation OPTIMAL_RANGES reading
  = Return (render_issues (issues_of OPTIMAL_RANGES reading)).
Proof. apply fallback_render, OPTIMAL_RANGES_defined. Qed.

(** C8. [get_recommendation] returns a text for every reading.  Without
    a client it is the rule-based fallback and nothing else happens; with
    a client it is the text of the service's reply, and the fallback
    whenever the call raises or the reply is malformed. *)
Theorem get_recommendation_never_raises `{Formatting} (self : AIAdvisor.t)
    (reading : SensorReading) (w : World) :
  service_failures_are_exceptions w ->
  exists text fallback w',
    AIAdvisor.get_recommendation self reading w = (Return text, w')
    /\ AIAdvisor._get_fallback_recommendation OPTIMAL_RANGES reading = Return fallback
    /\ (AIAdvisor._client self = None -> text = fallback /\ w' = w)
    /\ (forall client, AIAdvisor._client self = Some client ->
        exists args,
          asked w' = (asked w ++ [args])%list
          /\ (forall reply, service_reply w client args = Return reply -> text = reply)
          /\ (forall e, service_reply w client args = Raise e -> text = fallback)).
Proof.
  intros Hexn.
  unfold AIAdvisor.get_recommendation. rewrite fallback_returns.
  set (fallback := render_issues (issues_of OPTIMAL_RANGES reading)).
  destruct (AIAdvisor._client self) as [client|].
  2:{ exists fallback, fallback, w. repeat split; discriminate. }
  match goal with
  | |- context [messages_create client ?a] => set (args := a)
  end.
  assert (Hcall : messages_create client args w
                  = (create w (length (asked w)) client args,
                     set_asked (asked w ++ [args]) w)) by reflexivity.
  unfold try_except, service_reply.
  destruct (create w (length (asked w)) client args) as [response|e] eqn:Ecreate.
  - rewrite (bind_return _ _ _ _ _ Hcall).
    unfold lift, AIAdvisor.first_text. cbn [mbind outcome_bind].
    destruct (content response) as [|[text|class_name] rest] eqn:Econtent.
    + eexists _, fallback, _. split; [reflexivity|]. split; [reflexivity|].
      split; [discriminate|]. intros c [= <-]. exists args.
      rewrite Ecreate. cbn [mbind outcome_bind]. rewrite Econtent.
      split; [reflexivity|]. split; [discriminate | intros; reflexivity].
    + eexists text, fallback, _. split; [reflexivity|]. split; [reflexivity|].
      split; [discriminate|]. intros c [= <-]. exists args.
      rewrite Ecreate. cbn [mbind outcome_bind]. rewrite Econtent.
      split; [reflexivity|]. split; [now intros ? [= <-] | discriminate].
    + eexists _, fallback, _. split; [reflexivity|]. split; [reflexivity|].
      split; [discriminate|]. intros c [= <-]. exists args.
      rewrite Ecreate. cbn [mbind outcome_bind]. rewrite Econtent.
      split; [reflexivity|]. split; [discriminate | intros; reflexivity].
  - rewrite (bind_raise _ _ _ _ _ Hcall), (Hexn _ _ _ _ Ecreate).
    eexists _, fallback, _. split; [reflexivity|]. split; [reflexivity|].
    split; [discriminate|]. intros c [= <-]. exists args.
    rewrite Ecreate. cbn [mbind outcome_bind].
    split; [reflexivity|]. split; [discriminate | intros; reflexivity].
Qed.

Lemma offline_service_failures : service_failures_are_exceptions offline_world.
Proof. intros k client args e [= <-]. reflexivity. Qed.

Lemma offline_transport_failures : transport_failures_are_exceptions offline_world.
Proof. intros k req e [= <-]. reflexivity. Qed.

Lemma get_recommendation_never_raises_witness :
  exists text fallback w',
    @AIAdvisor.get_recommendation plain_formatting keyed_advisor sample_reading
      offline_world = (Return text, w')
    /\ AIAdvisor._get_fallback_recommendation OPTIMAL_RANGES sample_reading
       = Return fallback
    /\ text = fallback.
Proof.
  destruct (@get_recommendation_never_raises plain_formatting keyed_advisor
              sample_reading offline_world offline_service_failures)
    as (text & fallback & w' & Hrun & Hfb & _ & Hclient).
  exists text, fallback, w'. split; [exact Hrun|]. split; [exact Hfb|].
  destruct (Hclient _ eq_refl) as (args & _ & _ & Hfail).
  apply (Hfail (Exception "connection refused")). reflexivity.
Defined.

(** An interrupt during the service call is not a failure of the service:
    it is not an [Exception] and passes through. *)
Lemma get_recommendation_interrupt `{Formatting} (client : Anthropic)
    (reading : SensorReading) (w : World) :
  (forall args, create w (length (asked w)) client args = Raise KeyboardInterrupt) ->
  (AIAdvisor.get_recommendation
     {| AIAdvisor._api_key := Some (api_key client);
        AIAdvisor._client := Some client |} reading w).1
  = Raise KeyboardInterrupt.
Proof.
  intros Hint. unfold AIAdvisor.get_recommendation. cbn [AIAdvisor._client].
  unfold try_except, mbind, M_bind, messages_create. now rewrite Hint.
Qed.

(** ** The telemetry client *)

Section PushFacts.
Context `{Formatting}.
Variable self : APIClient.t.
Variable w : World.
Hypothesis Hexn : transport_failures_are_exceptions w.

(** The shape shared by the three operations: build a request, post it
    inside [try], compare the status code. *)
Lemma try_post_best_effort (req : Request) (label : string) :
  exists ok w',
    try_except
      (resp ← httpx_post req; mret (status_code resp =? 200))
      (fun e => print (label ++ str_exn e);; mret false) w
    = (Return ok, w')
    /\ sent w' = (sent w ++ [req])%list
    /\ match post w (length (sent w)) req with
       | Return resp => ok = (status_code resp =? 200)
       | Raise _ => ok = false
       end.
Proof.
  unfold try_except, mbind, M_bind, httpx_post.
  destruct (post w (length (sent w)) req) as [resp|e] eqn:Epost.
  - eexists _, _. split; [reflexivity|]. split; reflexivity.
  - rewrite (Hexn _ _ _ Epost).
    eexists _, _. split; [reflexivity|]. split; reflexivity.
Qed.

Lemma enabled_best_effort (push : M bool) (req : Request) (label : string) :
  APIClient._enabled self = true ->
  push = try_except
           (resp ← httpx_post req; mret (status_code resp =? 200))
           (fun e => print (label ++ str_exn e);; mret false) ->
  best_effort (APIClient._enabled self) push w.
Proof.
  intros Hen ->. destruct (try_post_best_effort req label) as (ok & w' & Hrun & Hsent & Hok).
  exists ok, w'. split; [exact Hrun|]. split; [congruence|].
  intros _. exists req. split; assumption.
Qed.

Lemma push_reading_best_effort (reading : SensorReading) :
  best_effort (APIClient._enabled self) (APIClient.push_reading self reading) w.
Proof.
  unfold APIClient.push_reading.
  destruct (APIClient._enabled self) eqn:Hen; cbn [negb].
  - rewrite <- Hen. eapply enabled_best_effort; [exact Hen | reflexivity].
  - exists false, w. repeat split; discriminate.
Qed.

Lemma push_analysis_best_effort (reading : SensorReading) (recommendation : string) :
  best_effort (APIClient._enabled self)
    (APIClient.push_analysis self reading recommendation) w.
Proof.
  unfold APIClient.push_analysis.
  destruct (APIClient._enabled self) eqn:Hen; cbn [negb].
  - match goal with
    | |- best_effort _ (datetime_now ≫= ?k) _ =>
        destruct (try_post_best_effort
                    {| url := str_opt (APIClient._base_url self) ++ "/analysis";
                       json_body :=
                         JObj [ ("timestamp", JStr (isoformat (clock w)));
                                ("reading", JObj (APIClient.reading_fields reading));
                                ("recommendation", JStr recommendation) ];
                       headers := APIClient._headers self;
                       timeout := 5 |}
                    "API error (push_analysis): ")
          as (ok & w' & Hrun & Hsent & Hok)
    end.
    exists ok, w'. split; [exact Hrun|]. split; [discriminate|].
    intros _. eexists. split; [exact Hsent | exact Hok].
  - exists false, w. repeat split; discriminate.
Qed.

Lemma push_alert_best_effort (alert_type message : string)
    (reading : option SensorReading) :
  best_effort (APIClient._enabled self)
    (APIClient.push_alert self alert_type message reading) w.
Proof.
  unfold APIClient.push_alert.
  destruct (APIClient._enabled self) eqn:Hen; cbn [negb].
  - match goal with
    | |- best_effort _ (datetime_now ≫= ?k) _ =>
        change (best_effort true (k (clock w)) w); cbv beta
    end.
    match goal with
    | |- best_effort _ (try_except (httpx_post ?req ≫= _) _) _ =>
        destruct (try_post_best_effort req "API error (push_alert): ")
          as (ok & w' & Hrun & Hsent & Hok)
    end.
    exists ok, w'. split; [exact Hrun|]. split; [discriminate|].
    intros _. eexists. split; [exact Hsent | exact Hok].
  - exists false, w. repeat split; discriminate.
Qed.

End PushFacts.

(** A client built without endpoint or credential is disabled, and
    building it sends nothing. *)
Lemma init_disabled (base_url api_key : option string) (w : World) :
  configuration_absent base_url api_key w ->
  exists self w',
    APIClient.__init__ base_url api_key w = (Return self, w')
    /\ APIClient._enabled self = false
    /\ sent w' = sent w.
Proof.
  intros Habsent. unfold APIClient.__init__, or_else, os_getenv.
  destruct (truthy_opt base_url) eqn:Eu, (truthy_opt api_key) eqn:Ek;
    unfold mbind, M_bind, mret, M_ret; cbn beta iota;
    repeat match goal with
      | |- context [truthy_opt ?o] =>
          lazymatch o with
          | base_url => rewrite Eu
          | api_key => rewrite Ek
          | _ => let E := fresh "E" in destruct (truthy_opt o) eqn:E
          end; cbn [andb negb]
      end;
    try (eexists _, _; split; [reflexivity|]; split; reflexivity).
  all: exfalso; destruct Habsent as [[? ?]|[? ?]]; congruence.
Qed.

(** C9. A client whose configuration is absent is disabled; for a
    disabled client each of [push_reading], [push_analysis] and
    [push_alert] returns [False] and leaves the world as it was, so that
    no request is sent; and no push raises: an enabled client sends one
    request and returns [False] when the transport raises. *)
Theorem push_best_effort `{Formatting} (self : APIClient.t) (w : World)
    (reading : SensorReading) (recommendation alert_type message : string)
    (alert_reading : option SensorReading) :
  transport_failures_are_exceptions w ->
  (forall base_url api_key w0,
      configuration_absent base_url api_key w0 ->
      exists client w1,
        APIClient.__init__ base_url api_key w0 = (Return client, w1)
        /\ APIClient._enabled client = false /\ sent w1 = sent w0)
  /\ best_effort (APIClient._enabled self)
       (APIClient.push_reading self reading) w
  /\ best_effort (APIClient._enabled self)
       (APIClient.push_analysis self reading recommendation) w
  /\ best_effort (APIClient._enabled self)
       (APIClient.push_alert self alert_type message alert_reading) w.
Proof.
  intros Hexn. repeat apply conj.
  - apply init_disabled.
  - now apply push_reading_best_effort.
  - now apply push_analysis_best_effort.
  - now apply push_alert_best_effort.
Qed.

Lemma push_best_effort_witness :
  (@APIClient.push_reading plain_formatting disabled_client sample_reading
     offline_world = (Return false, offline_world)
   /\ @APIClient.push_analysis plain_formatting disabled_client sample_reading
        all_clear offline_world = (Return false, offline_world)
   /\ @APIClient.push_alert plain_formatting disabled_client "temperature_high"
        "Temperature is above optimal range" None offline_world
      = (Return false, offline_world))
  /\ (@APIClient.push_reading plain_formatting enabled_client sample_reading
        offline_world).1 = Return false
  /\ exists client w1,
       APIClient.__init__ None None offline_world = (Return client, w1)
       /\ APIClient._enabled client = false.
Proof.
  destruct (@push_best_effort plain_formatting disabled_client offline_world
              sample_reading all_clear "temperature_high"
              "Temperature is above optimal range" None offline_transport_failures)
    as (Hinit & (ok1 & w1 & Hr1 & Hd1 & _) & (ok2 & w2 & Hr2 & Hd2 & _)
          & (ok3 & w3 & Hr3 & Hd3 & _)).
  destruct (Hd1 eq_refl) as [-> ->]. destruct (Hd2 eq_refl) as [-> ->].
  destruct (Hd3 eq_refl) as [-> ->].
  destruct (@push_best_effort plain_formatting enabled_client offline_world
              sample_reading all_clear "temperature_high"
              "Temperature is above optimal range" None offline_transport_failures)
    as (_ & (ok & w' & Hr & _ & He) & _).
  destruct (He eq_refl) as (req & _ & Hok). cbn in Hok. subst ok.
  split; [repeat split; assumption|]. split; [now rewrite Hr|].
  destruct (Hinit None None offline_world) as (client & w0 & Hrun & Hoff & _).
  { left. split; reflexivity. }
  exists client, w0. split; assumption.
Defined.

(** ** The repository's tests, run on the model *)

Example test_value_in_range_returns_ok :
  get_status_indicator 22 (18 : Q, 26 : Q) = "[OK]".
Proof. reflexivity. Qed.

Example test_value_below_range_returns_low :
  get_status_indicator 10 (18 : Q, 26 : Q) = "[LOW]".
Proof. reflexivity. Qed.

Example test_value_above_range_returns_high :
  get_status_indicator 30 (18 : Q, 26 : Q) = "[HIGH]".
Proof. reflexivity. Qed.

Example test_bar_middle_value : create_bar 50 0 100 10 = Return "[#####-----]".
Proof. reflexivity. Qed.

Example test_bar_below_minimum_clamped :
  create_bar (-50) 0 100 10 = Return "[----------]".
Proof. reflexivity. Qed.

Example test_bar_above_maximum_clamped :
  create_bar 200 0 100 10 = Return "[##########]".
Proof. reflexivity. Qed.

Example test_bar_custom_width :
  exists bar,
    create_bar 50 0 100 20 = Return bar
    /\ Str.len bar = 22 /\ Str.count bar "#" = 10 /\ Str.count bar "-" = 10.
Proof. eexists. repeat split. Qed.

Example test_bar_default_width :
  exists bar,
    create_bar 50 0 100 create_bar_width = Return bar /\ Str.len bar = 32.
Proof. eexists. repeat split. Qed.

Example test_ranges_are_ordered :
  map_Forall (fun _ range => (range.1 < range.2)%Q) OPTIMAL_RANGES.
Proof.
  apply map_Forall_to_list. vm_compute. repeat constructor.
Qed.

Example test_fallback_optimal_conditions :
  exists result,
    AIAdvisor._get_fallback_recommendation OPTIMAL_RANGES sample_reading
      = Return result
    /\ Str.contains "optimal" (Str.lower result) = true.
Proof. eexists. split; vm_compute; reflexivity. Qed.

Example test_fallback_limits_to_two_issues :
  exists result,
    AIAdvisor._get_fallback_recommendation OPTIMAL_RANGES all_out_of_range_reading
      = Return result
    /\ Str.count result "|" <= 1.
Proof. eexists. split; [vm_compute; reflexivity | vm_compute; discriminate]. Qed.

Example test_uses_fallback_when_no_client :
  exists result,
    (@AIAdvisor.get_recommendation plain_formatting
       {| AIAdvisor._api_key := None; AIAdvisor._client := None |}
       sample_reading offline_world).1 = Return result
    /\ Str.contains "optimal" (Str.lower result) = true.
Proof. eexists. split; vm_compute; reflexivity. Qed.

Example test_falls_back_on_api_error :
  exists result,
    (@AIAdvisor.get_recommendation plain_formatting keyed_advisor
       sample_reading offline_world).1 = Return result
    /\ Str.contains "optimal" (Str.lower result) = true.
Proof. eexists. split; vm_compute; reflexivity. Qed.

Example test_init_without_api_key :
  exists advisor w,
    AIAdvisor.__init__ None offline_world = (Return advisor, w)
    /\ AIAdvisor._client advisor = None.
Proof. eexists _, _. split; vm_compute; reflexivity. Qed.

(** * More properties of the code *)

(** ** The bar gauge, for any bounds and any width *)











(** ** The advisor and the status indicator *)

Lemma status_token_inj (s1 s2 : Status) : status_token s1 = status_token s2 -> s1 = s2.
Proof. destruct s1, s2; simpl; congruence. Qed.

Lemma advisory_sentence_none (m : Metric) (st : Status) :
  advisory_sentence m st = None <-> st = WITHIN.
Proof. destruct m, st; simpl; split; congruence. Qed.

(** A text that starts with an advisory sentence is not the all-clear
    message. *)
Lemma render_issue_not_all_clear (m : Metric) (st : Status) (s : string)
    (rest : list string) :
  advisory_sentence m st = Some s -> render_issues (s :: rest) <> all_clear.
Proof.
  intros Hs. unfold render_issues, Str.join.
  destruct m, st; simpl in Hs; try discriminate; injection Hs as <-;
    destruct rest; cbn [take String.concat]; discriminate.
Qed.

Lemma issue_of_status (ranges : gmap string (Q * Q)) (reading : SensorReading)
    (m : Metric) (low high : Q) (st : Status) :
  ranges !! metric_key m = Some (low, high) ->
  get_status_indicator (metric_value m reading) (low, high) = status_token st ->
  issue_of ranges reading m = advisory_sentence m st.
Proof.
  intros Hr Ht. unfold issue_of. rewrite Hr.
  rewrite get_status_indicator_classify in Ht.
  now rewrite (status_token_inj _ _ Ht).
Qed.

Lemma issues_of_nil (ranges : gmap string (Q * Q)) (reading : SensorReading) :
  issues_of ranges reading = [] <-> forall m, issue_of ranges reading m = None.
Proof.
  unfold issues_of, metric_order. cbn [omap list_omap]. split.
  - intros Hnil m.
    destruct (issue_of ranges reading Temperature) eqn:Et; [discriminate|].
    destruct (issue_of ranges reading Humidity) eqn:Eh; [discriminate|].
    destruct (issue_of ranges reading CO2) eqn:Ec; [discriminate|].
    destruct (issue_of ranges reading Light) eqn:El; [discriminate|].
    now destruct m.
  - intros Hnone. now rewrite !Hnone.
Qed.

Lemma issues_of_head (ranges : gmap string (Q * Q)) (reading : SensorReading)
    (s : string) (rest : list string) :
  issues_of ranges reading = s :: rest ->
  exists m, issue_of ranges reading m = Some s.
Proof.
  unfold issues_of, metric_order. cbn [omap list_omap].
  destruct (issue_of ranges reading Temperature) eqn:Et;
    [intros [= -> _]; now exists Temperature|].
  destruct (issue_of ranges reading Humidity) eqn:Eh;
    [intros [= -> _]; now exists Humidity|].
  destruct (issue_of ranges reading CO2) eqn:Ec;
    [intros [= -> _]; now exists CO2|].
  destruct (issue_of ranges reading Light) eqn:El;
    [intros [= -> _]; now exists Light|].
  discriminate.
Qed.

(** X3. The advisor and the dashboard agree, for every table that
    defines the four ranges, degenerate or reversed ranges included: the
    advisor's issue for a metric is the sentence of the status shown for
    it, and the advisor returns the all-clear message exactly when all
    four status tokens are "[OK]". *)
Theorem status_agrees_with_advisor (ranges : gmap string (Q * Q))
    (reading : SensorReading) :
  ranges_defined ranges ->
  (forall m low high st,
      ranges !! metric_key m = Some (low, high) ->
      get_status_indicator (metric_value m reading) (low, high) = status_token st ->
      issue_of ranges reading m = advisory_sentence m st)
  /\ (AIAdvisor._get_fallback_recommendation ranges reading = Return all_clear
      <-> forall m, exists range,
            ranges !! metric_key m = Some range
            /\ get_status_indicator (metric_value m reading) range = "[OK]").
Proof.
  intros Hdef. split; [intros m low high st; apply issue_of_status|].
  rewrite (fallback_render ranges reading Hdef). split.
  - intros [= Hclear].
    assert (Hnil : issues_of ranges reading = []).
    { destruct (issues_of ranges reading) as [|s rest] eqn:E; [reflexivity|].
      destruct (issues_of_head _ _ _ _ E) as [m Hm]. unfold issue_of in Hm.
      destruct (ranges !! metric_key m) as [[low high]|]; [|discriminate].
      exfalso. exact (render_issue_not_all_clear _ _ _ rest Hm Hclear). }
    intros m. destruct (Hdef m) as [[low high] Hr]. exists (low, high).
    split; [exact Hr|].
    pose proof (proj1 (issues_of_nil ranges reading) Hnil m) as Hnone.
    unfold issue_of in Hnone. rewrite Hr in Hnone.
    apply advisory_sentence_none in Hnone.
    now rewrite get_status_indicator_classify, Hnone.
  - intros Hok. f_equal.
    replace (issues_of ranges reading) with (@nil string); [reflexivity|].
    symmetry. apply issues_of_nil. intros m.
    destruct (Hok m) as ([low high] & Hr & Ht).
    rewrite (issue_of_status ranges reading m low high WITHIN Hr Ht).
    now destruct m.
Qed.

Lemma status_agrees_with_advisor_witness :
  issue_of OPTIMAL_RANGES all_out_of_range_reading Humidity
  = Some "Humidity too low - mist leaves or use humidifier"
  /\ (AIAdvisor._get_fallback_recommendation OPTIMAL_RANGES sample_reading
      = Return all_clear
      <-> forall m, exists range,
            OPTIMAL_RANGES !! metric_key m = Some range
            /\ get_status_indicator (metric_value m sample_reading) range = "[OK]").
Proof.
  destruct (status_agrees_with_advisor OPTIMAL_RANGES all_out_of_range_reading
              OPTIMAL_RANGES_defined) as [Hissue _].
  destruct (status_agrees_with_advisor OPTIMAL_RANGES sample_reading
              OPTIMAL_RANGES_defined) as [_ Hclear].
  split; [|exact Hclear].
  apply (Hissue Humidity 50%Q 70%Q BELOW); vm_compute; reflexivity.
Defined.

(** X4. When the table lacks the range of a metric and defines those of
    the metrics before it, the advisor raises [KeyError] with the key of
    that metric, whatever the reading. *)
Theorem fallback_missing_range (ranges : gmap string (Q * Q))
    (reading : SensorReading) (m : Metric) :
  ranges !! metric_key m = None ->
  Forall (fun m' => is_Some (ranges !! metric_key m')) (earlier_metrics m) ->
  AIAdvisor._get_fallback_recommendation ranges reading
  = Raise (KeyError (metric_key m)).
Proof.
  intros Hnone Hearlier. unfold AIAdvisor._get_fallback_recommendation, getitem.
  destruct m; cbn [earlier_metrics metric_key] in *;
    repeat match goal with
      | H : Forall _ (_ :: _) |- _ =>
          apply Forall_cons in H as [[[? ?] ?] H]
      end;
    cbn [metric_key] in *;
    repeat match goal with
      | H : ranges !! _ = _ |- _ => rewrite H; clear H
      end;
    reflexivity.
Qed.

Lemma fallback_missing_range_witness :
  AIAdvisor._get_fallback_recommendation (delete "co2" OPTIMAL_RANGES)
    all_out_of_range_reading = Raise (KeyError "co2").
Proof.
  apply (fallback_missing_range _ _ CO2).
  - reflexivity.
  - repeat constructor; vm_compute; eexists; reflexivity.
Defined.

(** ** The mock simulator under bounded noise *)

Lemma max_id (lo x : Q) : (lo < x)%Q -> Num.max lo x = x.
Proof. intros H. unfold Num.max. now rewrite (proj2 (NumFacts.gtb_gt x lo) H). Qed.

Lemma min_id (hi x : Q) : (x < hi)%Q -> Num.min hi x = x.
Proof. intros H. unfold Num.min. now rewrite (proj2 (NumFacts.ltb_lt x hi) H). Qed.

(** A reading with every metric in its range has no issue. *)
Lemma all_within_all_clear (ranges : gmap string (Q * Q)) (reading : SensorReading) :
  all_within ranges reading ->
  AIAdvisor._get_fallback_recommendation ranges reading = Return all_clear.
Proof.
  intros Hin. rewrite fallback_render.
  2:{ intros m. destruct (Hin m) as (low & high & -> & _). eexists; reflexivity. }
  replace (issues_of ranges reading) with (@nil string); [reflexivity|].
  symmetry. apply issues_of_nil. intros m. unfold issue_of.
  destruct (Hin m) as (low & high & -> & Hlow & Hhigh). unfold classify.
  rewrite (proj2 (NumFacts.ltb_ge _ _) Hlow), (proj2 (NumFacts.gtb_le _ _) Hhigh).
  now destruct m.
Qed.

(** X5. When every draw lies between its bounds, as [random.uniform]
    promises, no clamp of the mock simulator fires: each metric is its
    base value plus its draw, all four lie in their optimal ranges, and
    the fallback advisor answers such a reading with the all-clear
    message. *)
Theorem mock_read_optimal (w : World) :
  draws_in_window w ->
  exists r w',
    MockSensors.read MockSensors.__init__ w = (Return r, w')
    /\ humidity_percent r = (65 + uniform w (S (draws w)) (-5) 5)%Q
    /\ co2_ppm r = (450 + uniform w (S (S (draws w))) (-50) 50)%Q
    /\ light_lux r = (5000 + uniform w (S (S (S (draws w)))) (-1000) 1000)%Q
    /\ (20 <= temperature_c r <= 24)%Q
    /\ (60 <= humidity_percent r <= 70)%Q
    /\ (400 <= co2_ppm r <= 500)%Q
    /\ (4000 <= light_lux r <= 6000)%Q
    /\ all_within OPTIMAL_RANGES r
    /\ AIAdvisor._get_fallback_recommendation OPTIMAL_RANGES r = Return all_clear.
Proof.
  intros Hwin. eexists _, _. split; [apply mock_read_run|].
  cbn [temperature_c humidity_percent co2_ppm light_lux].
  set (nt := uniform w (draws w) (-2) 2).
  set (nh := uniform w (S (draws w)) (-5) 5).
  set (nc := uniform w (S (S (draws w))) (-50) 50).
  set (nl := uniform w (S (S (S (draws w)))) (-1000) 1000).
  assert (Ht : (-2 # 1 <= nt <= 2 # 1)%Q) by (apply Hwin; discriminate).
  assert (Hh : (-5 # 1 <= nh <= 5 # 1)%Q) by (apply Hwin; discriminate).
  assert (Hc : (-50 # 1 <= nc <= 50 # 1)%Q) by (apply Hwin; discriminate).
  assert (Hl : (-1000 # 1 <= nl <= 1000 # 1)%Q) by (apply Hwin; discriminate).
  clearbody nt nh nc nl.
  rewrite (min_id 100 (65 + nh)) by (unfold inject_Z in *; lra).
  rewrite (max_id 0 (65 + nh)), (max_id 300 (450 + nc)), (max_id 0 (5000 + nl))
    by (unfold inject_Z in *; lra).
  assert (Hin : all_within OPTIMAL_RANGES
                  {| timestamp := clock w; temperature_c := 22 + nt;
                     humidity_percent := 65 + nh; co2_ppm := 450 + nc;
                     light_lux := 5000 + nl |}).
  { intros m. destruct m; cbn [metric_value temperature_c humidity_percent
                                 co2_ppm light_lux].
    - exists 18%Q, 26%Q. split; [vm_compute; reflexivity | unfold inject_Z in *; lra].
    - exists 50%Q, 70%Q. split; [vm_compute; reflexivity | unfold inject_Z in *; lra].
    - exists 400%Q, 800%Q. split; [vm_compute; reflexivity | unfold inject_Z in *; lra].
    - exists 2000%Q, 10000%Q. split; [vm_compute; reflexivity | unfold inject_Z in *; lra]. }
  repeat apply conj; try reflexivity; try (unfold inject_Z in *; lra); try exact Hin.
  now apply all_within_all_clear.
Qed.

Lemma offline_draws_in_window : draws_in_window offline_world.
Proof. intros k a b Hab. simpl. lra. Qed.

Lemma mock_read_optimal_witness :
  exists r w',
    MockSensors.read MockSensors.__init__ offline_world = (Return r, w')
    /\ AIAdvisor._get_fallback_recommendation OPTIMAL_RANGES r = Return all_clear.
Proof.
  destruct (mock_read_optimal offline_world offline_draws_in_window)
    as (r & w' & Hrun & H).
  exists r, w'. split; [exact Hrun|]. apply H.
Defined.

Lemma set_draws_same (w : World) : set_draws (draws w) w = w.
Proof. now destruct w. Qed.

(** X6. Any number [n] of consecutive reads returns [n] readings that
    satisfy the reading invariants; the reads consume [4 * n] draws and
    change nothing else in the world: nothing is printed and nothing is
    sent. *)
Theorem mock_read_many_spec (n : nat) (w : World) :
  exists rs,
    MockSensors.read_many MockSensors.__init__ n w
    = (Return rs, set_draws (draws w + 4 * n) w)
    /\ length rs = n
    /\ Forall reading_valid rs.
Proof.
  revert w. induction n as [|n IH]; intros w.
  - exists []. rewrite Nat.mul_0_r, Nat.add_0_r, set_draws_same.
    repeat split; constructor.
  - destruct (IH (set_draws (S (S (S (S (draws w))))) w))
      as (rs & Hrs & Hlen & Hall).
    eexists (_ :: rs). repeat apply conj.
    + cbn [MockSensors.read_many].
      rewrite (bind_return _ _ _ _ _ (mock_read_run w)),
        (bind_return _ _ _ _ _ Hrs).
      cbn [draws set_draws]. unfold mret, M_ret.
      replace (S (S (S (S (draws w)))) + 4 * n)%nat with (draws w + 4 * S n)%nat by lia.
      reflexivity.
    + simpl. now rewrite Hlen.
    + constructor; [apply clamped_reading_valid | exact Hall].
Qed.

(** ** The dashboard as a whole *)

Lemma bar_of_len (value min_val max_val : Q) :
  (min_val < max_val)%Q -> Str.len (bar_of value min_val max_val) = 32.
Proof.
  intros Hlt. unfold bar_of.
  destruct (create_bar_filled value min_val max_val Hlt create_bar_width) as [-> Hf];
    [discriminate|].
  cbv zeta in Hf. unfold create_bar_width in *.
  rewrite !StrFacts.len_app, !StrFacts.len_mul_char by lia.
  change (Str.len "[") with 1. change (Str.len "]") with 1. lia.
Qed.

Lemma dashboard_lines_length `{Formatting} (reading : SensorReading) :
  length (dashboard_lines reading) = 23%nat.
Proof.
  unfold dashboard_lines, metric_block. cbn [metric_key].
  replace (OPTIMAL_RANGES !! "temperature") with (Some (18 : Q, 26 : Q))
    by (vm_compute; reflexivity).
  replace (OPTIMAL_RANGES !! "humidity") with (Some (50 : Q, 70 : Q))
    by (vm_compute; reflexivity).
  replace (OPTIMAL_RANGES !! "co2") with (Some (400 : Q, 800 : Q))
    by (vm_compute; reflexivity).
  replace (OPTIMAL_RANGES !! "light") with (Some (2000 : Q, 10000 : Q))
    by (vm_compute; reflexivity).
  reflexivity.
Qed.

(** X7. [display_reading] returns for every reading and every
    recommendation: no lookup and no bar can fail.  It replaces whatever
    was on the console by the 23 dashboard lines, the recommendation block
    if the text is present and non-empty, and the two footer lines; and it
    changes nothing else in the world.  An absent and an empty
    recommendation give the same 25-line screen. *)
Theorem display_reading_screen `{Formatting} (reading : SensorReading)
    (ai_recommendation : option string) (w : World) :
  display_reading reading ai_recommendation w
  = (Return tt,
     set_console (dashboard_lines reading
                    ++ recommendation_lines ai_recommendation
                    ++ [ ""; "  Press Ctrl+C to exit" ])%list w)
  /\ length (dashboard_lines reading) = 23%nat
  /\ match ai_recommendation with
     | Some (String c rest) =>
         length (recommendation_lines ai_recommendation)
         = (3 + length (advisory_lines (String c rest)))%nat
     | _ => recommendation_lines ai_recommendation = []
     end.
Proof.
  split; [apply display_reading_run|]. split; [apply dashboard_lines_length|].
  destruct ai_recommendation as [[|c rest]|]; try reflexivity.
  cbn [recommendation_lines Str.truthy]. rewrite !length_app. simpl. lia.
Qed.

(** ** Word wrap *)

Lemma wrap_words_trace (words : list string) :
  forall line w,
    wrap_words words line w
    = (Return (wrap_trace words line).2,
       set_console (console w ++ (wrap_trace words line).1) w).
Proof.
  induction words as [|word rest IH]; intros line w.
  - cbn. now rewrite app_nil_r, set_console_same.
  - cbn [wrap_words wrap_trace].
    destruct (58 <? Str.len line + Str.len word + 1).
    + rewrite (bind_return (print line) _ w _ tt eq_refl), IH.
      destruct (wrap_trace rest ("  " ++ word)) as [lines last].
      cbn [fst snd console set_console]. now rewrite <- app_assoc.
    + apply IH.
Qed.

(** The lines of a recommendation, computed from its words. *)
Lemma advisory_lines_trace (text : string) :
  advisory_lines text
  = ((wrap_trace (Str.split text) "  ").1
     ++ (if Str.truthy (Str.strip (wrap_trace (Str.split text) "  ").2)
         then [(wrap_trace (Str.split text) "  ").2] else []))%list.
Proof.
  unfold advisory_lines, printed, print_wrapped.
  rewrite (bind_return _ _ _ _ _ (wrap_words_trace (Str.split text) "  " blank_world)).
  destruct (Str.truthy (Str.strip (wrap_trace (Str.split text) "  ").2)).
  - unfold print. cbn [snd console set_console blank_world length drop].
    reflexivity.
  - unfold mret, M_ret. cbn [snd console set_console blank_world length drop].
    now rewrite app_nil_r.
Qed.

Module SplitFacts.

Lemma has_nonspace_app (a b : string) :
  has_nonspace (a ++ b) = has_nonspace a || has_nonspace b.
Proof.
  induction a as [|c a IH]; [reflexivity|]. simpl. rewrite IH.
  now destruct (Str.isspace c).
Qed.

Lemma no_space_app (a b : string) :
  no_space (a ++ b) = no_space a && no_space b.
Proof.
  induction a as [|c a IH]; [reflexivity|]. simpl. rewrite IH.
  now destruct (Str.isspace c).
Qed.

Lemma app_empty_r (s : string) : s ++ "" = s.
Proof.
  induction s as [|c s IH]; [reflexivity|].
  change (String c (s ++ "") = String c s). now rewrite IH.
Qed.

Lemma app_cons_r (a : string) (c : ascii) (b : string) :
  (a ++ String c "") ++ b = a ++ String c b.
Proof.
  induction a as [|x a IH]; [reflexivity|].
  change (String x ((a ++ String c "") ++ b) = String x (a ++ String c b)).
  now rewrite IH.
Qed.

Lemma truthy_app (a b : string) :
  Str.truthy (a ++ b) = Str.truthy a || Str.truthy b.
Proof. now destruct a. Qed.

Lemma truthy_of_nonspace (s : string) : has_nonspace s = true -> Str.truthy s = true.
Proof. now destruct s. Qed.

Lemma word_has_nonspace (s : string) : is_word s -> has_nonspace s = true.
Proof.
  intros [Ht Hn]. destruct s as [|c s]; [discriminate|]. simpl in *.
  now destruct (Str.isspace c).
Qed.

(** A whitespace character ends the current word. *)
Lemma split_go_space (a : string) :
  forall cur c b,
    Str.isspace c = true ->
    Str.split_go cur (a ++ String c b)
    = (Str.split_go cur a ++ Str.split_go "" b)%list.
Proof.
  induction a as [|x a IH]; intros cur c b Hc.
  - simpl. rewrite Hc. now destruct (Str.truthy cur).
  - simpl. destruct (Str.isspace x).
    + destruct (Str.truthy cur); simpl; now rewrite IH.
    + now apply IH.
Qed.

(** A run without whitespace extends the current word. *)
Lemma split_go_run (s : string) :
  forall cur,
    no_space s = true ->
    Str.split_go cur s = if Str.truthy (cur ++ s) then [cur ++ s] else [].
Proof.
  induction s as [|c s IH]; intros cur Hs.
  - rewrite app_empty_r. reflexivity.
  - simpl in *. apply andb_prop in Hs as [Hc Hs].
    apply negb_true_iff in Hc. rewrite Hc, (IH _ Hs), app_cons_r. reflexivity.
Qed.

Lemma split_word (s : string) : is_word s -> Str.split s = [s].
Proof.
  intros [Ht Hn]. unfold Str.split. rewrite split_go_run by assumption.
  change ("" ++ s) with s. now rewrite Ht.
Qed.

(** Whitespace only: no word but the current one. *)
Lemma split_go_blank (s : string) :
  forall cur,
    has_nonspace s = false ->
    Str.split_go cur s = if Str.truthy cur then [cur] else [].
Proof.
  induction s as [|c s IH]; intros cur Hs; [reflexivity|].
  simpl in *. apply orb_false_elim in Hs as [Hc Hs].
  apply negb_false_iff in Hc. rewrite Hc, (IH _ Hs).
  now destruct (Str.truthy cur).
Qed.

(** [split] returns words. *)
Lemma split_go_words (s : string) :
  forall cur, no_space cur = true -> Forall is_word (Str.split_go cur s).
Proof.
  induction s as [|c s IH]; intros cur Hcur; simpl.
  - destruct (Str.truthy cur) eqn:E; repeat constructor; assumption.
  - destruct (Str.isspace c) eqn:Ec.
    + destruct (Str.truthy cur) eqn:E.
      * constructor; [split; assumption | now apply IH].
      * now apply IH.
    + apply IH. rewrite no_space_app, Hcur. simpl. now rewrite Ec.
Qed.

Lemma split_words (s : string) : Forall is_word (Str.split s).
Proof. now apply split_go_words. Qed.

(** [strip] keeps a string with a character that is not whitespace
    non-empty. *)
Lemma lstrip_nonspace (s : string) :
  has_nonspace (Str.lstrip s) = has_nonspace s.
Proof.
  induction s as [|c s IH]; [reflexivity|]. simpl.
  destruct (Str.isspace c) eqn:E; simpl; [exact IH | now rewrite E].
Qed.

Lemma rev_app_nonspace (a b : string) :
  has_nonspace (String.rev_app a b) = has_nonspace a || has_nonspace b.
Proof.
  revert b. induction a as [|c a IH]; intros b; [reflexivity|].
  simpl. rewrite IH. simpl. destruct (Str.isspace c); simpl;
    [reflexivity | now rewrite orb_true_r].
Qed.

Lemma strip_nonspace (s : string) : has_nonspace (Str.strip s) = has_nonspace s.
Proof.
  unfold Str.strip, Str.rstrip, String.rev.
  rewrite rev_app_nonspace, orb_false_r, lstrip_nonspace, rev_app_nonspace,
    orb_false_r.
  apply lstrip_nonspace.
Qed.

Lemma strip_truthy (s : string) :
  Str.truthy (Str.strip s) = true -> has_nonspace s = true.
Proof.
  intros Ht. rewrite <- strip_nonspace.
  unfold Str.strip in *.
  destruct (Str.lstrip s) as [|c t] eqn:El.
  { discriminate. }
  assert (Hc : Str.isspace c = false).
  { clear Ht. revert El. induction s as [|x s IH]; [discriminate|].
    simpl. destruct (Str.isspace x) eqn:Ex; [exact IH|].
    intros [= <- _]. exact Ex. }
  unfold Str.rstrip, String.rev. rewrite rev_app_nonspace, orb_false_r,
    lstrip_nonspace, rev_app_nonspace, orb_false_r.
  simpl. now rewrite Hc.
Qed.

End SplitFacts.

Lemma strip_truthy_nonspace (s : string) :
  Str.truthy (Str.strip s) = has_nonspace s.
Proof.
  destruct (has_nonspace s) eqn:E.
  - apply SplitFacts.truthy_of_nonspace. now rewrite SplitFacts.strip_nonspace.
  - destruct (Str.truthy (Str.strip s)) eqn:Et; [|reflexivity].
    apply SplitFacts.strip_truthy in Et. congruence.
Qed.

(** Words put on a line can be read back from it. *)
Lemma split_indent_word (word : string) :
  is_word word -> Str.split ("  " ++ word) = [word].
Proof. intros Hw. change (Str.split ("  " ++ word)) with (Str.split word).
  now apply SplitFacts.split_word. Qed.

Lemma split_line_word (line word : string) :
  is_word word -> Str.split (line ++ " " ++ word) = (Str.split line ++ [word])%list.
Proof.
  intros Hw. unfold Str.split.
  change (line ++ " " ++ word) with (line ++ String " " word).
  rewrite SplitFacts.split_go_space by reflexivity.
  f_equal. now apply SplitFacts.split_word.
Qed.

Lemma wrap_trace_words (words : list string) :
  forall line,
    Forall is_word words ->
    (flat_map Str.split (wrap_trace words line).1
       ++ Str.split (wrap_trace words line).2
     = Str.split line ++ words)%list.
Proof.
  induction words as [|word rest IH]; intros line Hwords.
  - cbn. now rewrite app_nil_r.
  - apply Forall_cons in Hwords as [Hword Hrest]. cbn [wrap_trace].
    destruct (58 <? Str.len line + Str.len word + 1).
    + specialize (IH ("  " ++ word) Hrest).
      destruct (wrap_trace rest ("  " ++ word)) as [lines last].
      cbn [fst snd flat_map] in *. rewrite <- app_assoc, IH.
      now rewrite split_indent_word.
    + rewrite IH by assumption.
      assert (Hs : Str.split (line ++ (if negb (String.eqb line "  ")
                                       then " " ++ word else word))
                   = (Str.split line ++ [word])%list).
      { destruct (String.eqb line "  ") eqn:E; cbn [negb].
        - apply String.eqb_eq in E. subst line. now rewrite split_indent_word.
        - now apply split_line_word. }
      rewrite Hs, <- app_assoc. reflexivity.
Qed.

(** X8. Word wrap loses nothing and breaks no word: reading the printed
    advisory lines back word by word gives the words of the
    recommendation, in order, for every text. *)
Theorem advisory_lines_words (text : string) :
  flat_map Str.split (advisory_lines text) = Str.split text.
Proof.
  rewrite advisory_lines_trace.
  pose proof (wrap_trace_words (Str.split text) "  " (SplitFacts.split_words text))
    as Htrace.
  destruct (wrap_trace (Str.split text) "  ") as [lines last].
  cbn [fst snd] in *. rewrite strip_truthy_nonspace.
  destruct (has_nonspace last) eqn:E.
  - rewrite flat_map_app. cbn [flat_map]. now rewrite app_nil_r.
  - rewrite app_nil_r.
    unfold Str.split at 2 in Htrace.
    rewrite (SplitFacts.split_go_blank last "" E) in Htrace.
    cbn in Htrace. now rewrite app_nil_r in Htrace.
Qed.

Lemma prefix_app (p a b : string) :
  String.prefix p a = true -> String.prefix p (a ++ b) = true.
Proof.
  revert p. induction a as [|x a IH]; intros p.
  - destruct p; [|discriminate]. intros _. now destruct b.
  - change (String x a ++ b) with (String x (a ++ b)).
    destruct p as [|c p]; [reflexivity|]. simpl.
    destruct (ascii_dec c x); [apply IH | discriminate].
Qed.

Lemma prefix_indent (word : string) : String.prefix "  " ("  " ++ word) = true.
Proof. now destruct word. Qed.

Lemma wrap_trace_lines (words : list string) :
  forall line,
    Forall is_word words ->
    String.prefix "  " line = true ->
    has_nonspace line = true ->
    Forall (fun l => String.prefix "  " l = true /\ has_nonspace l = true)
      (wrap_trace words line).1
    /\ String.prefix "  " (wrap_trace words line).2 = true
    /\ has_nonspace (wrap_trace words line).2 = true.
Proof.
  induction words as [|word rest IH]; intros line Hwords Hp Hn.
  - cbn. repeat split; [constructor | assumption | assumption].
  - apply Forall_cons in Hwords as [Hword Hrest]. cbn [wrap_trace].
    pose proof (SplitFacts.word_has_nonspace word Hword) as Hwn.
    destruct (58 <? Str.len line + Str.len word + 1).
    + destruct (IH ("  " ++ word) Hrest) as (Hl & Hlp & Hln).
      { apply prefix_indent. }
      { change ("  " ++ word) with (String " " (String " " word)). simpl.
        exact Hwn. }
      destruct (wrap_trace rest ("  " ++ word)) as [lines last].
      cbn [fst snd] in *. repeat split; try assumption.
      constructor; [split; assumption | assumption].
    + apply IH; [assumption | now apply prefix_app |].
      rewrite SplitFacts.has_nonspace_app, Hn. reflexivity.
Qed.

(** X9. Every printed advisory line starts with the two-space indent.
    A line that holds nothing but the indent is printed exactly when the
    first word has 56 characters or more, and then it comes first; every
    other line contains a word.  A recommendation without any word prints
    no line. *)
Theorem advisory_lines_indent (text : string) :
  Forall (fun l => String.prefix "  " l = true) (advisory_lines text)
  /\ match Str.split text with
     | [] => advisory_lines text = []
     | word :: _ =>
         if 56 <=? Str.len word
         then exists lines,
                advisory_lines text = "  " :: lines
                /\ Forall (fun l => has_nonspace l = true) lines
         else Forall (fun l => has_nonspace l = true) (advisory_lines text)
     end.
Proof.
  rewrite advisory_lines_trace.
  pose proof (SplitFacts.split_words text) as Hwords.
  destruct (Str.split text) as [|word rest].
  { cbn. split; [constructor | reflexivity]. }
  apply Forall_cons in Hwords as [Hword Hrest].
  pose proof (SplitFacts.word_has_nonspace word Hword) as Hwn.
  assert (Hstart : has_nonspace ("  " ++ word) = true).
  { change ("  " ++ word) with (String " " (String " " word)). exact Hwn. }
  cbn [wrap_trace]. change (Str.len "  ") with 2. change (String.eqb "  " "  ") with true.
  cbn [negb].
  destruct (wrap_trace_lines rest ("  " ++ word) Hrest (prefix_indent word) Hstart)
    as (Hl & Hlp & Hln).
  replace (58 <? 2 + Str.len word + 1) with (56 <=? Str.len word)
    by (destruct (Z.leb_spec 56 (Str.len word)), (Z.ltb_spec 58 (2 + Str.len word + 1));
        lia || reflexivity).
  destruct (56 <=? Str.len word);
    destruct (wrap_trace rest ("  " ++ word)) as [lines last];
    cbn [fst snd] in *; rewrite strip_truthy_nonspace, Hln.
  - split.
    + constructor; [reflexivity|]. apply Forall_app. split.
      * eapply Forall_impl; [exact Hl | now intros l [? ?]].
      * now repeat constructor.
    + eexists. split; [reflexivity|]. apply Forall_app. split.
      * eapply Forall_impl; [exact Hl | now intros l [? ?]].
      * now repeat constructor.
  - split; apply Forall_app; split;
      try (eapply Forall_impl; [exact Hl | now intros l [? ?]]);
      now repeat constructor.
Qed.

(** The characters that [words] take when each is put after a space. *)
Lemma wrap_trace_fit (words : list string) :
  forall line,
    has_nonspace line = true ->
    Str.len line + foldr (fun word n => 1 + Str.len word + n) 0 words <= 58 ->
    wrap_trace words line
    = ([], fold_left (fun l word => l ++ " " ++ word) words line).
Proof.
  induction words as [|word rest IH]; intros line Hn Hfit; [reflexivity|].
  cbn [wrap_trace foldr fold_left] in *.
  assert (Hrest : 0 <= foldr (fun word n => 1 + Str.len word + n) 0 rest).
  { clear. induction rest as [|w rest IH]; simpl; [lia|].
    pose proof (StrFacts.len_nonneg w). lia. }
  destruct (Z.ltb_spec 58 (Str.len line + Str.len word + 1)) as [Hlt|_]; [lia|].
  assert (Hne : String.eqb line "  " = false).
  { apply String.eqb_neq. intros ->. discriminate. }
  rewrite Hne. cbn [negb]. apply IH.
  - rewrite SplitFacts.has_nonspace_app, Hn. reflexivity.
  - rewrite !StrFacts.len_app. change (Str.len " ") with 1. lia.
Qed.

Lemma string_app_assoc (a b c : string) : (a ++ b) ++ c = a ++ b ++ c.
Proof.
  induction a as [|x a IH]; [reflexivity|].
  change (String x ((a ++ b) ++ c) = String x (a ++ b ++ c)). now rewrite IH.
Qed.

Lemma fold_left_app_prefix (words : list string) :
  forall a b,
    fold_left (fun l word => l ++ " " ++ word) words (a ++ b)
    = a ++ fold_left (fun l word => l ++ " " ++ word) words b.
Proof.
  induction words as [|word rest IH]; intros a b; [reflexivity|].
  cbn [fold_left]. rewrite string_app_assoc. apply IH.
Qed.

Lemma join_fold_left (word : string) (rest : list string) :
  Str.join " " (word :: rest)
  = fold_left (fun l w => l ++ " " ++ w) rest word.
Proof.
  unfold Str.join. revert word. induction rest as [|w rest IH]; intros word.
  - reflexivity.
  - change (String.concat " " (word :: w :: rest))
      with (word ++ " " ++ String.concat " " (w :: rest)).
    cbn [fold_left]. rewrite IH, <- !string_app_assoc.
    symmetry. apply fold_left_app_prefix.
Qed.

Lemma len_join (word : string) (rest : list string) :
  Str.len (Str.join " " (word :: rest))
  = Str.len word + foldr (fun w n => 1 + Str.len w + n) 0 rest.
Proof.
  unfold Str.join. revert word. induction rest as [|w rest IH]; intros word.
  - simpl. lia.
  - change (String.concat " " (word :: w :: rest))
      with (word ++ " " ++ String.concat " " (w :: rest)).
    cbn [foldr]. rewrite !StrFacts.len_app, IH.
    change (Str.len " ") with 1. lia.
Qed.

(** X10. A recommendation whose words, joined by single spaces, take at
    most 55 characters is printed on one line: the indent followed by
    the words, every run of whitespace of the text replaced by one
    space. *)
Theorem advisory_lines_one_line (text : string) :
  Str.split text <> [] ->
  Str.len (Str.join " " (Str.split text)) <= 55 ->
  advisory_lines text = [ "  " ++ Str.join " " (Str.split text) ].
Proof.
  intros Hne Hlen. rewrite advisory_lines_trace.
  pose proof (SplitFacts.split_words text) as Hwords.
  destruct (Str.split text) as [|word rest]; [congruence|].
  apply Forall_cons in Hwords as [Hword _].
  rewrite len_join in Hlen.
  assert (Hrest : 0 <= foldr (fun w n => 1 + Str.len w + n) 0 rest).
  { clear. induction rest as [|w rest IH]; simpl; [lia|].
    pose proof (StrFacts.len_nonneg w). lia. }
  cbn [wrap_trace]. change (Str.len "  ") with 2.
  change (String.eqb "  " "  ") with true. cbn [negb].
  destruct (Z.ltb_spec 58 (2 + Str.len word + 1)) as [Hlt|_]; [lia|].
  assert (Hstart : has_nonspace ("  " ++ word) = true).
  { change ("  " ++ word) with (String " " (String " " word)).
    exact (SplitFacts.word_has_nonspace word Hword). }
  rewrite wrap_trace_fit.
  2: exact Hstart.
  2:{ rewrite StrFacts.len_app. change (Str.len "  ") with 2. lia. }
  cbn [fst snd app]. rewrite strip_truthy_nonspace.
  rewrite fold_left_app_prefix, <- join_fold_left.
  rewrite SplitFacts.has_nonspace_app.
  replace (has_nonspace (Str.join " " (word :: rest))) with true; [reflexivity|].
  symmetry. rewrite join_fold_left.
  clear -Hword. pose proof (SplitFacts.word_has_nonspace word Hword) as Hw.
  revert word Hword Hw. induction rest as [|w rest IH]; intros word Hword Hw;
    [exact Hw|].
  cbn [fold_left]. rewrite fold_left_app_prefix, SplitFacts.has_nonspace_app, Hw.
  reflexivity.
Qed.

Lemma advisory_lines_one_line_witness :
  advisory_lines "  All conditions   optimal! " = [ "  All conditions optimal!" ].
Proof.
  apply (advisory_lines_one_line "  All conditions   optimal! ");
    vm_compute; discriminate.
Defined.

(** ** Construction of the advisor and of the telemetry client *)

(** X11. The advisor takes its key from the constructor's argument when
    that is non-empty, whatever the environment says, and otherwise from
    ANTHROPIC_API_KEY.  With no non-empty key it has no client, and then
    [get_recommendation] answers every reading with the fallback text
    and leaves the world untouched: no request is made. *)
Theorem advisor_init_spec `{Formatting} (api_key : option string) (w : World) :
  exists advisor,
    AIAdvisor.__init__ api_key w = (Return advisor, w)
    /\ AIAdvisor._api_key advisor = configured api_key "ANTHROPIC_API_KEY" w
    /\ (forall key,
          configured api_key "ANTHROPIC_API_KEY" w = Some key ->
          Str.truthy key = true ->
          AIAdvisor._client advisor = Some (Build_Anthropic key))
    /\ (truthy_opt (configured api_key "ANTHROPIC_API_KEY" w) = false ->
        AIAdvisor._client advisor = None
        /\ forall reading w',
             AIAdvisor.get_recommendation advisor reading w'
             = (Return (render_issues (issues_of OPTIMAL_RANGES reading)), w')).
Proof.
  unfold AIAdvisor.__init__, or_else, os_getenv, configured.
  destruct (truthy_opt api_key) eqn:Earg.
  - eexists. split; [reflexivity|]. cbn [AIAdvisor._api_key AIAdvisor._client].
    split; [reflexivity|]. split.
    + intros key -> Hkey. now rewrite Hkey.
    + intros Hfalse. congruence.
  - eexists. split; [reflexivity|]. cbn [AIAdvisor._api_key AIAdvisor._client].
    split; [reflexivity|]. split.
    + intros key -> Hkey. now rewrite Hkey.
    + intros Hfalse.
      assert (Hnone : match environ w !! "ANTHROPIC_API_KEY" with
                      | Some k => if Str.truthy k then Some (Build_Anthropic k) else None
                      | None => None
                      end = None).
      { destruct (environ w !! "ANTHROPIC_API_KEY") as [k|]; [|reflexivity].
        simpl in Hfalse. now rewrite Hfalse. }
      split; [exact Hnone|]. intros reading w'.
      unfold AIAdvisor.get_recommendation. cbn [AIAdvisor._client].
      rewrite Hnone, fallback_returns. reflexivity.
Qed.

Lemma advisor_init_spec_witness :
  exists advisor,
    AIAdvisor.__init__ (Some "") offline_world = (Return advisor, offline_world)
    /\ AIAdvisor._client advisor = None
    /\ @AIAdvisor.get_recommendation plain_formatting advisor sample_reading
         offline_world = (Return all_clear, offline_world).
Proof.
  destruct (@advisor_init_spec plain_formatting (Some "") offline_world)
    as (advisor & Hinit & _ & _ & Hnone).
  destruct (Hnone eq_refl) as [Hclient Hrec].
  exists advisor. split; [exact Hinit|]. split; [exact Hclient|].
  rewrite Hrec. reflexivity.
Defined.

(** X12. The telemetry client is enabled exactly when both the endpoint
    and the credential are configured, each taken from the constructor's
    argument when that is non-empty and from its environment variable
    otherwise.  Construction never raises and sends nothing; it prints
    the notice exactly when the client is disabled. *)
Theorem client_init_spec (base_url api_key : option string) (w : World) :
  exists client w',
    APIClient.__init__ base_url api_key w = (Return client, w')
    /\ APIClient._base_url client = configured base_url "AIVOCADO_API_URL" w
    /\ APIClient._api_key client = configured api_key "AIVOCADO_API_KEY" w
    /\ (APIClient._enabled client = true
        <-> ~ configuration_absent base_url api_key w)
    /\ w' = set_console
              (console w ++ (if APIClient._enabled client then []
                             else [disabled_notice])) w.
Proof.
  unfold APIClient.__init__, or_else, os_getenv, configured, configuration_absent.
  destruct (truthy_opt base_url) eqn:Eu, (truthy_opt api_key) eqn:Ek;
    unfold mbind, M_bind, mret, M_ret; cbn beta iota;
    repeat match goal with
      | |- context [truthy_opt ?o] =>
          lazymatch o with
          | base_url => rewrite Eu
          | api_key => rewrite Ek
          | _ => let E := fresh "E" in destruct (truthy_opt o) eqn:E
          end; cbn [andb negb]
      end;
    eexists _, _; (split; [reflexivity|]);
    cbn [APIClient._base_url APIClient._api_key APIClient._enabled];
    (split; [reflexivity|]); (split; [reflexivity|]);
    (split; [|first [ now rewrite app_nil_r, set_console_same | reflexivity ]]);
    split; try discriminate; try (intros _; intros [[? ?]|[? ?]]; congruence);
    try (intros; reflexivity); try (intros Hn; exfalso; apply Hn; tauto).
Qed.
(** ** What a push sends and what a recommendation costs *)

Section PushRequests.
Context `{Formatting}.
Variable self : APIClient.t.
Variable w : World.
Hypothesis Henabled : APIClient._enabled self = true.

Lemma try_post_once (label : string) (req : Request) :
  posts_once label req
    (try_except
       (resp ← httpx_post req; mret (status_code resp =? 200))
       (fun e => print (label ++ str_exn e);; mret false)) w.
Proof.
  unfold posts_once, try_except, mbind, M_bind, httpx_post.
  destruct (post w (length (sent w)) req) as [resp|e]; [reflexivity|].
  now destruct (is_Exception e).
Qed.

(** X13. Each push of an enabled client makes exactly one request, to
    its own endpoint under the base URL, with the bearer credential and
    a timeout of 5 seconds, and with the body its docstring describes.
    The answer is [True] exactly for status 200; a failing transport is
    logged on one line naming the operation; an interrupt passes through
    unlogged. *)
Theorem push_requests (reading : SensorReading) (recommendation alert_type message : string)
    (alert_reading : option SensorReading) :
  (exists req,
      posts_once "API error (push_reading): " req
        (APIClient.push_reading self reading) w
      /\ url req = str_opt (APIClient._base_url self) ++ "/readings"
      /\ headers req !! "Authorization"
         = Some ("Bearer " ++ str_opt (APIClient._api_key self))
      /\ (timeout req == 5)%Q
      /\ json_keys (json_body req)
         = [ "timestamp"; "temperature_c"; "humidity_percent"; "co2_ppm";
             "light_lux" ])
  /\ (exists req,
        posts_once "API error (push_analysis): " req
          (APIClient.push_analysis self reading recommendation) w
        /\ url req = str_opt (APIClient._base_url self) ++ "/analysis"
        /\ headers req !! "Authorization"
           = Some ("Bearer " ++ str_opt (APIClient._api_key self))
        /\ (timeout req == 5)%Q
        /\ json_keys (json_body req) = [ "timestamp"; "reading"; "recommendation" ])
  /\ (exists req,
        posts_once "API error (push_alert): " req
          (APIClient.push_alert self alert_type message alert_reading) w
        /\ url req = str_opt (APIClient._base_url self) ++ "/alerts"
        /\ headers req !! "Authorization"
           = Some ("Bearer " ++ str_opt (APIClient._api_key self))
        /\ (timeout req == 5)%Q
        /\ json_keys (json_body req)
           = ([ "timestamp"; "type"; "message" ]
              ++ match alert_reading with
                 | Some _ => [ "reading" ]
                 | None => []
                 end)%list).
Proof.
  unfold APIClient.push_reading, APIClient.push_analysis, APIClient.push_alert.
  rewrite Henabled. cbn [negb].
  repeat apply conj.
  - eexists. split; [apply try_post_once|].
    cbn [url headers timeout json_body]. repeat split.
  - eexists. split.
    + unfold posts_once.
      rewrite (bind_return datetime_now _ w w (clock w) eq_refl).
      apply try_post_once.
    + cbn [url headers timeout json_body]. repeat split.
  - eexists. split.
    + unfold posts_once.
      rewrite (bind_return datetime_now _ w w (clock w) eq_refl).
      apply try_post_once.
    + cbn [url headers timeout json_body]. repeat split.
      now destruct alert_reading.
Qed.

End PushRequests.

Lemma push_requests_witness :
  exists req,
    posts_once "API error (push_alert): " req
      (@APIClient.push_alert plain_formatting enabled_client "temperature_high"
         "Temperature is above optimal range" (Some all_out_of_range_reading))
      offline_world
    /\ url req = "http://localhost:8000/alerts"
    /\ json_keys (json_body req) = [ "timestamp"; "type"; "message"; "reading" ].
Proof.
  destruct (@push_requests plain_formatting enabled_client offline_world eq_refl
              sample_reading all_clear "temperature_high"
              "Temperature is above optimal range" (Some all_out_of_range_reading))
    as (_ & _ & req & Hpost & Hurl & _ & _ & Hkeys).
  exists req. split; [exact Hpost|]. split; [exact Hurl | exact Hkeys].
Defined.

(** X14. What [get_recommendation] does with a client, exactly: it asks
    the service once; a reply with a leading text block is returned as it
    is; a failed call and a malformed reply alike give the fallback text
    and one console line "AI API error: ..."; an interrupt passes through
    after the request, unlogged.  Nothing is sent to the telemetry
    service and the clock and the draws are untouched. *)
Theorem get_recommendation_run `{Formatting} (self : AIAdvisor.t)
    (client : Anthropic) (reading : SensorReading) (w : World) :
  AIAdvisor._client self = Some client ->
  let args := recommendation_request reading in
  let w1 := set_asked (asked w ++ [args]) w in
  AIAdvisor.get_recommendation self reading w =
    match service_reply w client args with
    | Return text => (Return text, w1)
    | Raise e =>
        if is_Exception e
        then (Return (render_issues (issues_of OPTIMAL_RANGES reading)),
              set_console (console w1 ++ ["AI API error: " ++ str_exn e]) w1)
        else (Raise e, w1)
    end.
Proof.
  intros Hclient args w1. unfold AIAdvisor.get_recommendation.
  rewrite Hclient, fallback_returns.
  fold (recommendation_request reading). fold args.
  unfold try_except, service_reply.
  assert (Hcall : messages_create client args w
                  = (create w (length (asked w)) client args, w1)) by reflexivity.
  destruct (create w (length (asked w)) client args) as [response|e].
  - rewrite (bind_return _ _ _ _ _ Hcall). cbn [mbind outcome_bind].
    unfold lift. destruct (AIAdvisor.first_text response) as [text|e];
      [reflexivity|].
    now destruct (is_Exception e).
  - rewrite (bind_raise _ _ _ _ _ Hcall). cbn [mbind outcome_bind].
    now destruct (is_Exception e).
Qed.

Lemma get_recommendation_run_witness :
  @AIAdvisor.get_recommendation plain_formatting keyed_advisor sample_reading
    offline_world
  = (Return all_clear,
     set_console [ "AI API error: connection refused" ]
       (set_asked [ @recommendation_request plain_formatting sample_reading ]
          offline_world)).
Proof.
  rewrite (@get_recommendation_run plain_formatting keyed_advisor
             (Build_Anthropic "test-key") sample_reading offline_world eq_refl).
  reflexivity.
Defined.

(** ** The Raspberry Pi sensors *)

(** ** The Raspberry Pi sensors *)

Lemma byte_int_range (b : Byte.byte) : 0 <= byte_int b <= 255.
Proof.
  unfold byte_int. pose proof (Byte.to_N_bounded b) as Hb. lia.
Qed.

Lemma co2_of_response_range (response : list Byte.byte) :
  (0 <= co2_of_response response <= 65535)%Q.
Proof.
  unfold co2_of_response.
  destruct response as [|? [|? [|b2 [|b3 [|? [|? [|? [|? [|? [|? ?]]]]]]]]]];
    try (split; discriminate).
  pose proof (byte_int_range b2). pose proof (byte_int_range b3).
  split; unfold Qle; cbn [Qnum Qden inject_Z]; lia.
Qed.

Section Pi.
Context `{Hardware} `{Timing}.
Variable self : RaspberryPiSensors.t.

Lemma read_co2_run (w : World) :
  RaspberryPiSensors._read_co2 self w =
    match serial_exchange w with
    | Return response => (Return (co2_of_response response), w)
    | Raise e => if is_Exception e then (Return (400 : Q), w) else (Raise e, w)
    end.
Proof.
  unfold RaspberryPiSensors._read_co2, serial_exchange, try_except, ask,
    mbind, M_bind, outcome_bind, lift, mret, M_ret, outcome_ret.
  destruct (serial_open w) as [[]|e]; [|now destruct (is_Exception e)].
  destruct (serial_write _ w) as [n|e]; [|now destruct (is_Exception e)].
  destruct (serial_read 9 w) as [response|e]; [|now destruct (is_Exception e)].
  destruct (serial_close w) as [[]|e]; [|now destruct (is_Exception e)].
  destruct response as [|? [|? [|b2 [|b3 [|? [|? [|? [|? [|? [|? ?]]]]]]]]]];
    try reflexivity.
  cbn [length].
  match goal with
  | |- context [?a =? 9] => destruct (Z.eqb_spec a 9) as [Heq|_]; [lia | reflexivity]
  end.
Qed.

Lemma read_co2_returns (w : World) :
  hardware_failures_are_exceptions ->
  exists co2,
    RaspberryPiSensors._read_co2 self w = (Return co2, w)
    /\ (0 <= co2 <= 65535)%Q.
Proof.
  intros Hhw. rewrite read_co2_run.
  destruct (serial_exchange w) as [response|e] eqn:Ex.
  - eexists. split; [reflexivity | apply co2_of_response_range].
  - assert (He : is_Exception e = true).
    { apply (Hhw w). unfold serial_exchange, mbind, outcome_bind in Ex.
      destruct (serial_open w) as [[]|e1] eqn:E1;
        [|injection Ex as <-; do 3 right; now left].
      destruct (serial_write _ w) as [n|e2] eqn:E2;
        [|injection Ex as <-; do 4 right; left; eauto].
      destruct (serial_read 9 w) as [r|e3] eqn:E3;
        [|injection Ex as <-; do 5 right; left; eauto].
      destruct (serial_close w) as [[]|e4] eqn:E4;
        [discriminate | injection Ex as <-; do 6 right; now left]. }
    rewrite He. eexists. split; [reflexivity | split; discriminate].
Qed.

(** X15. [_read_co2] is silent and leaves the world as it is.  When the
    serial exchange delivers nine bytes the result is byte 2 times 256
    plus byte 3; a response of any other length gives 400, and so does
    any failure of the exchange, including a failure to close the port
    after a good response.  The result always lies between 0 and 65535;
    only an interrupt passes through. *)
Theorem read_co2_spec (w : World) :
  RaspberryPiSensors._read_co2 self w =
    match serial_exchange w with
    | Return response => (Return (co2_of_response response), w)
    | Raise e => if is_Exception e then (Return (400 : Q), w) else (Raise e, w)
    end
  /\ forall co2 w',
       RaspberryPiSensors._read_co2 self w = (Return co2, w') ->
       (0 <= co2 <= 65535)%Q.
Proof.
  split; [apply read_co2_run|]. intros co2 w' Hco2. rewrite read_co2_run in Hco2.
  destruct (serial_exchange w) as [response|e].
  - injection Hco2 as <- _. apply co2_of_response_range.
  - destruct (is_Exception e); [|discriminate].
    injection Hco2 as <- _. split; discriminate.
Qed.

End Pi.
Lemma set_clock_same (w : World) : set_clock (clock w) w = w.
Proof. now destruct w. Qed.

(** Two bytes put together by shift and or. *)
Lemma lor_shiftl_bytes (d0 d1 : Z) :
  0 <= d1 < 256 -> Z.lor (Z.shiftl d0 8) d1 = d0 * 256 + d1.
Proof.
  intros Hd1. rewrite Z.shiftl_mul_pow2 by lia. change (2 ^ 8) with 256.
  rewrite <- Z.add_nocarry_lor; [reflexivity|].
  apply Z.bits_inj'. intros n Hn. rewrite Z.land_spec, Z.bits_0.
  destruct (Z.lt_ge_cases n 8) as [Hlow|Hhigh].
  - replace (d0 * 256) with (d0 * 2 ^ 8) by reflexivity.
    rewrite Z.mul_pow2_bits_low by lia. reflexivity.
  - replace d1 with (d1 mod 2 ^ 8) by (apply Z.mod_small; simpl; lia).
    rewrite Z.mod_pow2_bits_high by lia. apply andb_false_r.
Qed.

Section PiLight.
Context `{Hardware} `{Timing}.
Variable self : RaspberryPiSensors.t.

Lemma read_light_returns (w : World) :
  hardware_failures_are_exceptions -> sleep_uninterrupted ->
  exists lux t,
    RaspberryPiSensors._read_light self w = (Return lux, set_clock t w).
Proof.
  intros Hhw Hsleep.
  unfold RaspberryPiSensors._read_light, try_except, ask, time_sleep.
  cbv zeta. unfold mbind at 1, M_bind at 1.
  destruct (bus_write_byte 35 16 w) as [[]|e] eqn:Ew.
  2:{ rewrite (Hhw w e) by (do 7 right; left; eauto).
      exists 5000%Q, (clock w). now rewrite set_clock_same. }
  unfold mbind at 1, M_bind at 1.
  change (Num.ltb (1 # 5) 0) with false. cbv iota.
  destruct (Hsleep (1 # 5) w) as [t ->].
  unfold mbind at 1, M_bind at 1.
  destruct (bus_read_block 35 16 2 (set_clock t w)) as [data|e] eqn:Er.
  2:{ rewrite (Hhw (set_clock t w) e) by (do 8 right; eauto).
      now exists 5000%Q, t. }
  unfold lift, list_index, mbind, M_bind, mret, M_ret.
  destruct data as [|d0 [|d1 rest]]; cbn; eexists _, t; reflexivity.
Qed.

(** X16. [_read_light] asks the bus, sleeps a fifth of a second and
    reads two bytes.  When they arrive, the result is the 16-bit number
    they form, high byte first, divided by 1.2, between 0 and 54612.5.
    A block of fewer than two bytes gives the default 5000, like any
    failure of the bus.  Nothing is printed. *)
Theorem read_light_spec (w : World) (t : datetime) (data : list Z) :
  bus_write_byte 35 16 w = Return tt ->
  sleep_until (1 # 5) w = Return t ->
  bus_read_block 35 16 2 (set_clock t w) = Return data ->
  match data with
  | d0 :: d1 :: _ =>
      0 <= d0 < 256 -> 0 <= d1 < 256 ->
      exists lux,
        RaspberryPiSensors._read_light self w = (Return lux, set_clock t w)
        /\ lux == inject_Z (d0 * 256 + d1) * (5 # 6)
        /\ (0 <= lux <= 109225 # 2)%Q
  | _ =>
      RaspberryPiSensors._read_light self w = (Return (5000 : Q), set_clock t w)
  end.
Proof.
  intros Hw Hs Hr.
  assert (Hrun : RaspberryPiSensors._read_light self w =
            match data with
            | d0 :: d1 :: _ =>
                (Return (inject_Z (Z.lor (Z.shiftl d0 8) d1) / (6 # 5))%Q,
                 set_clock t w)
            | _ => (Return (5000 : Q), set_clock t w)
            end).
  { unfold RaspberryPiSensors._read_light, try_except, ask, time_sleep.
    cbv zeta. unfold mbind at 1, M_bind at 1. rewrite Hw.
    unfold mbind at 1, M_bind at 1.
    change (Num.ltb (1 # 5) 0) with false. cbv iota. rewrite Hs.
    unfold mbind at 1, M_bind at 1. rewrite Hr.
    unfold lift, list_index, mbind, M_bind, mret, M_ret.
    now destruct data as [|d0 [|d1 rest]]. }
  destruct data as [|d0 [|d1 rest]]; [exact Hrun | exact Hrun |].
  intros Hd0 Hd1. eexists. split; [exact Hrun|].
  rewrite lor_shiftl_bytes by assumption.
  assert (Hq : inject_Z (d0 * 256 + d1) / (6 # 5)
               == inject_Z (d0 * 256 + d1) * (5 # 6)) by (field).
  split; [exact Hq|]. rewrite Hq.
  assert (Hlo : (0 <= inject_Z (d0 * 256 + d1))%Q)
    by (unfold Qle; cbn [Qnum Qden inject_Z]; lia).
  assert (Hhi : (inject_Z (d0 * 256 + d1) <= 65535)%Q)
    by (unfold Qle; cbn [Qnum Qden inject_Z]; lia).
  set (x := inject_Z (d0 * 256 + d1)) in *. clearbody x. lra.
Qed.

End PiLight.

Lemma read_light_spec_witness :
  exists lux,
    @RaspberryPiSensors._read_light bench_hardware steady_timing
      {| RaspberryPiSensors._dht_pin := 4;
         RaspberryPiSensors._initialized := true |} offline_world
    = (Return lux, set_clock 1 offline_world)
    /\ lux == 6000.
Proof.
  destruct (@read_light_spec bench_hardware steady_timing
              {| RaspberryPiSensors._dht_pin := 4;
                 RaspberryPiSensors._initialized := true |}
              offline_world 1 [28; 32] eq_refl eq_refl eq_refl)
    as (lux & Hrun & Hlux & _); [lia | lia |].
  exists lux. split; [exact Hrun|]. rewrite Hlux. reflexivity.
Defined.
Lemma or_default_nonzero (x : option Q) (default : Q) :
  ~ default == 0 -> ~ or_default x default == 0.
Proof.
  intros Hd. unfold or_default. destruct x as [v|]; [|exact Hd].
  destruct (Num.eqb v 0) eqn:E; [exact Hd|].
  intros Hv. apply NumFacts.eqb_eq in Hv. congruence.
Qed.

Section PiRead.
Context `{Hardware} `{Timing}.
Variable self : RaspberryPiSensors.t.

(** X17. With the sensors connected, [read] returns a reading whenever
    the hardware fails only with exceptions and no sleep is interrupted;
    it prints nothing and only the clock moves.  A temperature or
    humidity of zero counts as missing, like [None]: the reading never
    shows 0 but 22 degrees or 60 percent instead; and when either of the
    two DHT22 values cannot be read, both defaults are used, even if
    the temperature had been read.  The CO2 value lies between 0 and
    65535. *)
Theorem pi_read_spec (w : World) :
  RaspberryPiSensors._initialized self = true ->
  hardware_failures_are_exceptions -> sleep_uninterrupted ->
  exists r t,
    RaspberryPiSensors.read self w = (Return r, set_clock t w)
    /\ timestamp r = clock w
    /\ ~ temperature_c r == 0
    /\ ~ humidity_percent r == 0
    /\ (0 <= co2_ppm r <= 65535)%Q
    /\ match dht_temperature w, dht_humidity w with
       | Return temp, Return humidity =>
           temperature_c r = or_default temp 22
           /\ humidity_percent r = or_default humidity 60
       | _, _ => temperature_c r = 22%Q /\ humidity_percent r = 60%Q
       end.
Proof.
  intros Hinit Hhw Hsleep. unfold RaspberryPiSensors.read. rewrite Hinit.
  cbn [negb].
  assert (Hdht : exists temp humidity,
            try_except
              (temp ← ask dht_temperature;
               humidity ← ask dht_humidity;
               mret (temp, humidity))
              (fun _ => mret (Some (22 : Q), Some (60 : Q))) w
            = (Return (temp, humidity), w)
            /\ match dht_temperature w, dht_humidity w with
               | Return temp', Return humidity' =>
                   temp = temp' /\ humidity = humidity'
               | _, _ => temp = Some (22 : Q) /\ humidity = Some (60 : Q)
               end).
  { unfold try_except, ask, mbind, M_bind, mret, M_ret.
    destruct (dht_temperature w) as [temp|e] eqn:Et.
    - destruct (dht_humidity w) as [humidity|e] eqn:Eh.
      + now exists temp, humidity.
      + rewrite (Hhw w e) by (do 2 right; now left).
        now exists (Some (22 : Q)), (Some (60 : Q)).
    - rewrite (Hhw w e) by (right; now left).
      now exists (Some (22 : Q)), (Some (60 : Q)). }
  destruct Hdht as (temp & humidity & Hdht & Hvalues).
  destruct (read_co2_returns self w Hhw) as (co2 & Hco2 & Hrange).
  destruct (read_light_returns self w Hhw Hsleep) as (lux & t & Hlux).
  rewrite (bind_return _ _ _ _ _ Hdht). cbv beta iota.
  rewrite (bind_return datetime_now _ w w (clock w) eq_refl).
  rewrite (bind_return _ _ _ _ _ Hco2), (bind_return _ _ _ _ _ Hlux).
  eexists _, t. split; [reflexivity|].
  cbn [timestamp temperature_c humidity_percent co2_ppm].
  split; [reflexivity|].
  split; [apply or_default_nonzero; discriminate|].
  split; [apply or_default_nonzero; discriminate|].
  split; [exact Hrange|].
  destruct (dht_temperature w), (dht_humidity w);
    destruct Hvalues as [-> ->]; split; reflexivity.
Qed.

(** X18. Constructing the sensors never raises on a failure that is an
    exception.  They count as initialised exactly when the libraries
    load and both devices open; a missing library is reported on two
    console lines, any other failure on one.  Sensors that are not
    initialised read like the mock simulator. *)
Theorem pi_init_spec (w : World) :
  (forall e, connect w = ConnectionFailed e -> is_Exception e = true) ->
  exists sensors w',
    RaspberryPiSensors.__init__ w = (Return sensors, w')
    /\ RaspberryPiSensors._dht_pin sensors = 4
    /\ (RaspberryPiSensors._initialized sensors = true <-> connect w = Connected)
    /\ w' = set_console
              (console w ++
               match connect w with
               | Connected => []
               | MissingLibrary =>
                   [ "Warning: Raspberry Pi sensor libraries not available.";
                     "Install with: pip install adafruit-circuitpython-dht smbus2" ]
               | ConnectionFailed e =>
                   [ "Warning: Could not initialize sensors: " ++ str_exn e ]
               end) w
    /\ (RaspberryPiSensors._initialized sensors = false ->
        forall w0, RaspberryPiSensors.read sensors w0
                   = MockSensors.read MockSensors.__init__ w0).
Proof.
  intros Hexn.
  unfold RaspberryPiSensors.__init__, RaspberryPiSensors._init_sensors.
  unfold mbind at 1 2, M_bind at 1 2.
  destruct (connect w) as [| |e] eqn:Ec.
  - eexists _, _. split; [reflexivity|]. cbn. repeat split; try discriminate.
    now rewrite app_nil_r, set_console_same.
  - eexists _, _. split; [reflexivity|]. cbn. repeat split; try discriminate.
    now rewrite <- app_assoc.
  - rewrite (Hexn e eq_refl).
    eexists _, _. split; [reflexivity|]. cbn. repeat split; try discriminate.
Qed.

End PiRead.

Lemma bench_hardware_failures : @hardware_failures_are_exceptions bench_hardware.
Proof.
  intros w e [Hf|[Hf|[Hf|[Hf|[[? Hf]|[[? Hf]|[Hf|[(? & ? & Hf)|(? & ? & ? & Hf)]]]]]]]];
    discriminate.
Qed.

Lemma steady_sleep_uninterrupted : @sleep_uninterrupted steady_timing.
Proof. intros seconds w. eexists. reflexivity. Qed.

Lemma pi_read_spec_witness :
  exists r t,
    @RaspberryPiSensors.read bench_hardware steady_timing
      {| RaspberryPiSensors._dht_pin := 4;
         RaspberryPiSensors._initialized := true |} offline_world
    = (Return r, set_clock t offline_world)
    /\ temperature_c r = 22%Q /\ humidity_percent r = 55%Q /\ co2_ppm r = 500%Q.
Proof.
  destruct (@pi_read_spec bench_hardware steady_timing
              {| RaspberryPiSensors._dht_pin := 4;
                 RaspberryPiSensors._initialized := true |}
              offline_world eq_refl bench_hardware_failures
              steady_sleep_uninterrupted)
    as (r & t & Hrun & _ & _ & _ & _ & Htemp & Hhum).
  exists r, t. split; [exact Hrun|]. split; [exact Htemp|]. split; [exact Hhum|].
  vm_compute in Hrun. now injection Hrun as <- _.
Defined.

Lemma pi_init_spec_witness :
  exists sensors w',
    @RaspberryPiSensors.__init__ bare_hardware offline_world = (Return sensors, w')
    /\ RaspberryPiSensors._initialized sensors = false
    /\ console w'
       = [ "Warning: Raspberry Pi sensor libraries not available.";
           "Install with: pip install adafruit-circuitpython-dht smbus2" ].
Proof.
  destruct (@pi_init_spec bare_hardware steady_timing offline_world)
    as (sensors & w' & Hrun & _ & Hiff & Hw & _); [discriminate|].
  exists sensors, w'. split; [exact Hrun|]. split.
  - destruct (RaspberryPiSensors._initialized sensors); [|reflexivity].
    destruct Hiff as [Hiff _]. discriminate (Hiff eq_refl).
  - rewrite Hw. reflexivity.
Defined.
Lemma read_co2_spec_witness :
  @RaspberryPiSensors._read_co2 bench_hardware
    {| RaspberryPiSensors._dht_pin := 4;
       RaspberryPiSensors._initialized := true |} offline_world
  = (Return (500 : Q), offline_world)
  /\ (0 <= 500 <= 65535)%Q.
Proof.
  destruct (@read_co2_spec bench_hardware
              {| RaspberryPiSensors._dht_pin := 4;
                 RaspberryPiSensors._initialized := true |} offline_world)
    as [Hrun Hrange].
  split; [exact Hrun|]. exact (Hrange 500%Q offline_world Hrun).
Defined.

Section InterfaceFacts.
Context `{Hardware} `{Timing}.

(** X19. [get_sensor_interface] with [use_mock] set touches nothing and
    gives the simulator.  Without it the start-up of the Raspberry Pi
    sensors runs, and on a machine where that start-up fails the
    sensors returned still read, and read exactly like the simulator:
    the monitor works without hardware whichever way it is started. *)
Theorem get_sensor_interface_spec (use_mock : bool) (w : World) :
  (forall e, connect w = ConnectionFailed e -> is_Exception e = true) ->
  use_mock = true \/ connect w <> Connected ->
  exists sensors w',
    get_sensor_interface use_mock w = (Return sensors, w')
    /\ (use_mock = true -> w' = w)
    /\ forall w0, sensors_read sensors w0
                  = MockSensors.read MockSensors.__init__ w0.
Proof.
  intros Hexn Hmock. unfold get_sensor_interface.
  destruct use_mock.
  - eexists _, w. split; [reflexivity|]. split; [reflexivity|].
    intros w0. reflexivity.
  - destruct Hmock as [?|Hconn]; [discriminate|].
    unfold RaspberryPiSensors.__init__, RaspberryPiSensors._init_sensors.
    unfold mbind at 1 2 3, M_bind at 1 2 3.
    destruct (connect w) as [| |e] eqn:Ec; [congruence| |].
    + eexists _, _. split; [reflexivity|]. split; [discriminate|].
      intros w0. reflexivity.
    + rewrite (Hexn e eq_refl).
      eexists _, _. split; [reflexivity|]. split; [discriminate|].
      intros w0. reflexivity.
Qed.

End InterfaceFacts.

Lemma get_sensor_interface_spec_witness :
  exists sensors w',
    @get_sensor_interface bare_hardware false offline_world = (Return sensors, w')
    /\ forall w0, @sensors_read bare_hardware steady_timing sensors w0
                  = MockSensors.read MockSensors.__init__ w0.
Proof.
  destruct (@get_sensor_interface_spec bare_hardware steady_timing false
              offline_world)
    as (sensors & w' & Hrun & _ & Hread).
  - discriminate.
  - right. discriminate.
  - exists sensors, w'. split; [exact Hrun | exact Hread].
Defined.

(** ** The monitor *)

Lemma no_traffic_refl (w : World) : no_traffic w w.
Proof. now repeat split. Qed.

Lemma no_traffic_trans (w1 w2 w3 : World) :
  no_traffic w1 w2 -> no_traffic w2 w3 -> no_traffic w1 w3.
Proof. intros (? & ? & ?) (? & ? & ?). repeat split; congruence. Qed.

Lemma quiet_ret {A} (a : A) : quiet (mret a).
Proof. intros w. apply no_traffic_refl. Qed.

Lemma quiet_lift {A} (o : outcome A) : quiet (lift o).
Proof. intros w. apply no_traffic_refl. Qed.

Lemma quiet_ask {A} (answer : World -> outcome A) : quiet (ask answer).
Proof. intros w. apply no_traffic_refl. Qed.

Lemma quiet_bind {A B} (m : M A) (f : A -> M B) :
  quiet m -> (forall a, quiet (f a)) -> quiet (m ≫= f).
Proof.
  intros Hm Hf w. specialize (Hm w). unfold mbind, M_bind.
  destruct (m w) as [[a|e] w1]; [|exact Hm].
  eapply no_traffic_trans; [exact Hm | apply Hf].
Qed.

Lemma quiet_try_except {A} (body : M A) (handler : exn -> M A) :
  quiet body -> (forall e, quiet (handler e)) -> quiet (try_except body handler).
Proof.
  intros Hb Hh w. specialize (Hb w). unfold try_except.
  destruct (body w) as [[a|e] w1]; [exact Hb|].
  destruct (is_Exception e); [|exact Hb].
  eapply no_traffic_trans; [exact Hb | apply Hh].
Qed.

Lemma quiet_try_except_interrupt {A} (body handler : M A) :
  quiet body -> quiet handler -> quiet (try_except_interrupt body handler).
Proof.
  intros Hb Hh w. specialize (Hb w). unfold try_except_interrupt.
  destruct (body w) as [[a|[]] w1]; try exact Hb.
  eapply no_traffic_trans; [exact Hb | apply Hh].
Qed.

Lemma quiet_print (line : string) : quiet (print line).
Proof. intros w. now repeat split. Qed.

Lemma quiet_clear_screen : quiet clear_screen.
Proof. intros w. now repeat split. Qed.

Lemma quiet_datetime_now : quiet datetime_now.
Proof. intros w. apply no_traffic_refl. Qed.

Lemma quiet_os_getenv (name : string) : quiet (os_getenv name).
Proof. intros w. apply no_traffic_refl. Qed.

Lemma quiet_random_uniform (a b : Q) : quiet (random_uniform a b).
Proof. intros w. now repeat split. Qed.

Lemma quiet_time_sleep `{Timing} (seconds : Q) : quiet (time_sleep seconds).
Proof.
  intros w. unfold time_sleep. destruct (Num.ltb seconds 0); [apply no_traffic_refl|].
  destruct (sleep_until seconds w); now repeat split.
Qed.

Lemma quiet_display_reading `{Formatting} (reading : SensorReading)
    (ai_recommendation : option string) :
  quiet (display_reading reading ai_recommendation).
Proof. intros w. rewrite display_reading_run. now repeat split. Qed.

Lemma quiet_mock_read (self : MockSensors.t) : quiet (MockSensors.read self).
Proof. intros w. now repeat split. Qed.

Create HintDb quiet.

#[local] Hint Resolve quiet_ret quiet_lift quiet_ask quiet_print
  quiet_clear_screen quiet_datetime_now quiet_os_getenv quiet_random_uniform
  quiet_time_sleep quiet_display_reading quiet_mock_read : quiet.

Ltac quiet_steps :=
  repeat first
    [ solve [auto with quiet]
    | apply quiet_bind; [|intros ?]
    | apply quiet_try_except; [|intros ?]
    | match goal with
      | |- quiet (if ?b then _ else _) => destruct b
      | |- quiet (match ?x with _ => _ end) => destruct x
      | |- quiet (let (_, _) := ?x in _) => destruct x
      end ].

Section MonitorFacts.
Context `{Formatting} `{Hardware} `{Timing}.

Lemma quiet_pi_read (self : RaspberryPiSensors.t) :
  quiet (RaspberryPiSensors.read self).
Proof.
  unfold RaspberryPiSensors.read, RaspberryPiSensors._read_co2,
    RaspberryPiSensors._read_light.
  cbv zeta. quiet_steps.
Qed.

Lemma quiet_sensors_read (sensors : SensorInterface) : quiet (sensors_read sensors).
Proof.
  destruct sensors; [apply quiet_mock_read | apply quiet_pi_read].
Qed.

Lemma quiet_get_sensor_interface (use_mock : bool) :
  quiet (get_sensor_interface use_mock).
Proof.
  unfold get_sensor_interface, RaspberryPiSensors.__init__,
    RaspberryPiSensors._init_sensors.
  quiet_steps.
Qed.

Lemma quiet_advisor_init (api_key : option string) :
  quiet (AIAdvisor.__init__ api_key).
Proof. unfold AIAdvisor.__init__, or_else. quiet_steps. Qed.

Lemma quiet_client_init (base_url api_key : option string) :
  quiet (APIClient.__init__ base_url api_key).
Proof. unfold APIClient.__init__, or_else. quiet_steps. Qed.

Lemma quiet_loop_body (args : Args) (sensors : SensorInterface)
    (advisor : AIAdvisor.t) (api : APIClient.t) (s : LoopState) :
  AIAdvisor._client advisor = None -> APIClient._enabled api = false ->
  quiet (loop_body args sensors advisor api s).
Proof.
  intros Hclient Henabled.
  unfold loop_body, APIClient.push_reading, APIClient.push_analysis,
    AIAdvisor.get_recommendation.
  rewrite Hclient, Henabled. cbn [negb].
  pose proof quiet_sensors_read. quiet_steps.
Qed.

Lemma quiet_loop (rounds : nat) (args : Args) (sensors : SensorInterface)
    (advisor : AIAdvisor.t) (api : APIClient.t) (s : LoopState) :
  AIAdvisor._client advisor = None -> APIClient._enabled api = false ->
  quiet (loop rounds args sensors advisor api s).
Proof.
  intros Hclient Henabled. revert s.
  induction rounds as [|n IH]; intros s; cbn [loop].
  - apply quiet_ret.
  - apply quiet_bind; [now apply quiet_loop_body | exact IH].
Qed.

End MonitorFacts.
Lemma advisor_init_offline (w : World) :
  truthy_opt (environ w !! "ANTHROPIC_API_KEY") = false ->
  exists advisor,
    AIAdvisor.__init__ None w = (Return advisor, w)
    /\ AIAdvisor._client advisor = None.
Proof.
  intros Hkey. unfold AIAdvisor.__init__, or_else, os_getenv.
  eexists. split; [reflexivity|]. cbn [AIAdvisor._client].
  destruct (environ w !! "ANTHROPIC_API_KEY") as [k|]; [|reflexivity].
  cbn [truthy_opt] in Hkey. now rewrite Hkey.
Qed.

Lemma client_init_offline (w : World) :
  configuration_absent None None w ->
  exists api,
    APIClient.__init__ None None w
    = (Return api, set_console (console w ++ [disabled_notice]) w)
    /\ APIClient._enabled api = false.
Proof.
  intros Habsent. unfold APIClient.__init__, or_else, os_getenv.
  cbn [truthy_opt]. unfold mbind, M_bind, mret, M_ret. cbn beta iota.
  assert (E : truthy_opt (environ w !! "AIVOCADO_API_URL")
              && truthy_opt (environ w !! "AIVOCADO_API_KEY") = false).
  { destruct Habsent as [[_ ->]|[_ ->]]; [reflexivity | apply andb_false_r]. }
  rewrite E. cbn [negb]. eexists. split; reflexivity.
Qed.

Lemma client_init_returns (w : World) :
  exists api w', APIClient.__init__ None None w = (Return api, w').
Proof.
  unfold APIClient.__init__, or_else, os_getenv.
  cbn [truthy_opt]. unfold mbind, M_bind, mret, M_ret. cbn beta iota.
  destruct (truthy_opt (environ w !! "AIVOCADO_API_URL")
            && truthy_opt (environ w !! "AIVOCADO_API_KEY"));
    eexists _, _; reflexivity.
Qed.

Lemma offline_world_offline : offline offline_world.
Proof. split; [reflexivity | left; split; reflexivity]. Qed.

Section MainFacts.
Context `{Formatting} `{Hardware} `{Timing}.

Lemma startup_offline (args : Args) (w : World) :
  offline w ->
  match startup args w with
  | (Return (sensors, advisor, api), w0) =>
      no_traffic w w0
      /\ AIAdvisor._client advisor = None /\ APIClient._enabled api = false
  | (Raise _, w0) => no_traffic w w0
  end.
Proof.
  intros [Hkey Habsent]. unfold startup.
  pose proof (quiet_get_sensor_interface (negb (real args)) w) as Hq.
  destruct (get_sensor_interface (negb (real args)) w) as [[sensors|e] w1] eqn:Eg.
  2:{ rewrite (bind_raise _ _ _ _ _ Eg). exact Hq. }
  rewrite (bind_return _ _ _ _ _ Eg).
  cbn [snd] in Hq. destruct Hq as (Hs & Ha & He).
  destruct (advisor_init_offline w1) as (advisor & Hadv & Hclient);
    [now rewrite He|].
  rewrite (bind_return _ _ _ _ _ Hadv).
  destruct (client_init_offline w1) as (api & Hapi & Hen).
  { unfold configuration_absent. rewrite He. exact Habsent. }
  rewrite (bind_return _ _ _ _ _ Hapi).
  cbn. repeat split; assumption.
Qed.

Lemma startup_returns (args : Args) (w : World) :
  (real args = true ->
   forall e, connect w = ConnectionFailed e -> is_Exception e = true) ->
  exists r w0, startup args w = (Return r, w0).
Proof.
  intros Hexn. unfold startup.
  assert (Hg : exists sensors w1,
            get_sensor_interface (negb (real args)) w = (Return sensors, w1)).
  { unfold get_sensor_interface. destruct (real args); cbn [negb].
    - unfold RaspberryPiSensors.__init__, RaspberryPiSensors._init_sensors.
      unfold mbind at 1 2 3, M_bind at 1 2 3.
      destruct (connect w) as [| |e] eqn:Ec.
      + eexists _, _. reflexivity.
      + eexists _, _. reflexivity.
      + rewrite (Hexn eq_refl e eq_refl). eexists _, _. reflexivity.
    - eexists _, _. reflexivity. }
  destruct Hg as (sensors & w1 & Hg). rewrite (bind_return _ _ _ _ _ Hg).
  rewrite (bind_return (AIAdvisor.__init__ None) _ w1 w1 _ eq_refl).
  destruct (client_init_returns w1) as (api & w2 & Hapi).
  rewrite (bind_return _ _ _ _ _ Hapi).
  eexists _, _. reflexivity.
Qed.

Lemma startup_mock_offline (args : Args) (w : World) :
  real args = false -> offline w ->
  exists advisor api lines,
    startup args w
    = (Return (UseMock MockSensors.__init__, advisor, api), set_console lines w)
    /\ AIAdvisor._client advisor = None /\ APIClient._enabled api = false.
Proof.
  intros Hreal [Hkey Habsent]. unfold startup, get_sensor_interface.
  rewrite Hreal. cbn [negb].
  rewrite (bind_return (mret (UseMock MockSensors.__init__)) _ w w _ eq_refl).
  destruct (advisor_init_offline w Hkey) as (advisor & Hadv & Hclient).
  rewrite (bind_return _ _ _ _ _ Hadv).
  destruct (client_init_offline w Habsent) as (api & Hapi & Hen).
  rewrite (bind_return _ _ _ _ _ Hapi).
  exists advisor, api. eexists. split; [reflexivity|]. now split.
Qed.

(** One round without services, on simulated sensors, up to the sleep. *)
Lemma offline_round (args : Args) (advisor : AIAdvisor.t) (api : APIClient.t)
    (s : LoopState) (w w1 : World) (reading : SensorReading) :
  AIAdvisor._client advisor = None -> APIClient._enabled api = false ->
  MockSensors.read MockSensors.__init__ w = (Return reading, w1) ->
  exists s',
    (current_recommendation s' = render_issues (issues_of OPTIMAL_RANGES reading)
     \/ s' = s)
    /\ loop_body args (UseMock MockSensors.__init__) advisor api s w
       = (time_sleep (Num.of_int (interval args));; mret s')
           (set_console
              (dashboard_lines reading
                 ++ recommendation_lines (Some (current_recommendation s'))
                 ++ [ ""; "  Press Ctrl+C to exit" ])%list w1).
Proof.
  intros Hclient Henabled Hread.
  unfold loop_body, sensors_read. rewrite (bind_return _ _ _ _ _ Hread).
  unfold APIClient.push_reading, APIClient.push_analysis,
    AIAdvisor.get_recommendation.
  rewrite Hclient, Henabled. cbn [negb].
  rewrite (bind_return (mret false) _ w1 w1 false eq_refl).
  rewrite (bind_return (ask (fun w => Return (time_time w))) _ w1 w1
             (time_time w1) eq_refl).
  destruct (Num.leb _ _).
  - rewrite fallback_returns.
    eexists {| last_ai_update := time_time w1;
               current_recommendation :=
                 render_issues (issues_of OPTIMAL_RANGES reading) |}.
    split; [left; reflexivity|].
    erewrite bind_return by reflexivity.
    rewrite (bind_return _ _ _ _ _ (display_reading_run _ _ _)). reflexivity.
  - exists s. split; [right; reflexivity|].
    rewrite (bind_return (mret s) _ w1 w1 s eq_refl).
    rewrite (bind_return _ _ _ _ _ (display_reading_run _ _ _)). reflexivity.
Qed.

(** The first round of [main] without services, on simulated sensors. *)
Lemma offline_main_round (n : nat) (args : Args) (w w1 : World)
    (reading : SensorReading) :
  real args = false -> offline w ->
  MockSensors.read MockSensors.__init__ w = (Return reading, w1) ->
  exists advisor api s',
    (current_recommendation s' = render_issues (issues_of OPTIMAL_RANGES reading)
     \/ s' = initial_state)
    /\ main (S n) args w
       = try_except_interrupt
           (time_sleep (Num.of_int (interval args));;
            loop n args (UseMock MockSensors.__init__) advisor api s')
           (print goodbye;; sys_exit)
           (set_console
              (dashboard_lines reading
                 ++ recommendation_lines (Some (current_recommendation s'))
                 ++ [ ""; "  Press Ctrl+C to exit" ])%list w1).
Proof.
  intros Hreal Hoff Hread.
  destruct (startup_mock_offline args w Hreal Hoff)
    as (advisor & api & lines & Hstart & Hclient & Henabled).
  assert (Hread0 : MockSensors.read MockSensors.__init__ (set_console lines w)
                   = (Return reading, set_console lines w1)).
  { rewrite mock_read_run in Hread |- *. injection Hread as <- <-. reflexivity. }
  destruct (offline_round args advisor api initial_state (set_console lines w)
              _ _ Hclient Henabled Hread0)
    as (s' & Hs' & Hround).
  change (set_console ?l (set_console lines w1)) with (set_console l w1) in Hround.
  exists advisor, api, s'. split; [exact Hs'|].
  unfold main. rewrite (bind_return _ _ _ _ _ Hstart). cbv beta iota.
  unfold try_except_interrupt. cbn [loop].
  unfold mbind at 1, M_bind at 1. rewrite Hround.
  unfold mbind at 1 3, M_bind at 1 3.
  match goal with
  | |- context [time_sleep ?x ?w0] => destruct (time_sleep x w0) as [[[]|e] w2]
  end; reflexivity.
Qed.

(** X20. With neither the recommendation service nor the external API
    configured, the monitor causes no network traffic: however many
    rounds it runs, with whatever arguments, on real or simulated
    sensors, and however it ends, no request has been sent and no
    recommendation has been asked for. *)
Theorem main_offline_quiet (rounds : nat) (args : Args) (w : World) :
  offline w ->
  sent (main rounds args w).2 = sent w
  /\ asked (main rounds args w).2 = asked w.
Proof.
  intros Hoff. pose proof (startup_offline args w Hoff) as Hstart.
  assert (Hq : no_traffic w (main rounds args w).2).
  { unfold main.
    destruct (startup args w) as [[[[sensors advisor] api]|e] w0] eqn:Es.
    - rewrite (bind_return _ _ _ _ _ Es). cbv beta iota.
      destruct Hstart as (Hw0 & Hclient & Henabled).
      eapply no_traffic_trans; [exact Hw0|].
      apply quiet_try_except_interrupt.
      + now apply quiet_loop.
      + apply quiet_bind; [apply quiet_print | intros ?; apply quiet_lift].
    - rewrite (bind_raise _ _ _ _ _ Es). exact Hstart. }
  destruct Hq as (Hs & Ha & _). now split.
Qed.

(** X21. An interrupt from the keyboard never leaves [main] as such once
    the start-up is over: when a round of the loop is interrupted, the
    goodbye line is printed after whatever is on the screen and the
    program exits with [SystemExit].  The start-up itself returns unless
    connecting the real sensors fails with something that is not an
    exception. *)
Theorem main_interrupt (rounds : nat) (args : Args) (w : World) :
  (real args = true ->
   forall e, connect w = ConnectionFailed e -> is_Exception e = true) ->
  (main rounds args w).1 <> Raise KeyboardInterrupt
  /\ exists sensors advisor api w0,
       startup args w = (Return (sensors, advisor, api), w0)
       /\ forall w1,
            loop rounds args sensors advisor api initial_state w0
            = (Raise KeyboardInterrupt, w1) ->
            main rounds args w
            = (Raise SystemExit, set_console (console w1 ++ [goodbye]) w1).
Proof.
  intros Hexn.
  destruct (startup_returns args w Hexn) as ([[sensors advisor] api] & w0 & Hstart).
  unfold main. rewrite (bind_return _ _ _ _ _ Hstart). cbv beta iota.
  unfold try_except_interrupt. split.
  - destruct (loop rounds args sensors advisor api initial_state w0)
      as [[s|[]] w1]; discriminate.
  - exists sensors, advisor, api, w0. split; [exact Hstart|].
    intros w1 ->. reflexivity.
Qed.

(** X22. [main] does not check the interval it is given.  With a
    negative one, without services and on simulated sensors, the monitor
    takes exactly one reading, shows its dashboard and then ends with
    the error of [time.sleep], which the handler for the keyboard
    interrupt does not catch: no goodbye line is printed. *)
Theorem main_negative_interval (n : nat) (args : Args) (w w1 : World)
    (reading : SensorReading) :
  real args = false -> interval args < 0 -> offline w ->
  MockSensors.read MockSensors.__init__ w = (Return reading, w1) ->
  exists text,
    (text = render_issues (issues_of OPTIMAL_RANGES reading)
     \/ text = current_recommendation initial_state)
    /\ main (S n) args w
       = (Raise (Exception "sleep length must be non-negative"),
          set_console
            (dashboard_lines reading
               ++ recommendation_lines (Some text)
               ++ [ ""; "  Press Ctrl+C to exit" ])%list w1).
Proof.
  intros Hreal Hneg Hoff Hread.
  destruct (offline_main_round n args w w1 reading Hreal Hoff Hread)
    as (advisor & api & s' & Hs' & Hmain).
  exists (current_recommendation s'). split.
  - destruct Hs' as [Hs'| ->]; [left; exact Hs' | right; reflexivity].
  - rewrite Hmain. unfold try_except_interrupt, time_sleep.
    unfold mbind at 1, M_bind at 1.
    assert (Hlt : Num.ltb (Num.of_int (interval args)) 0 = true).
    { unfold Num.ltb, Num.of_int. apply negb_true_iff.
      destruct (Qle_bool 0 (inject_Z (interval args))) eqn:E; [|reflexivity].
      apply Qle_bool_iff in E. unfold Qle, inject_Z in E. cbn in E. lia. }
    rewrite Hlt. reflexivity.
Qed.

(** X23. When the first sleep is interrupted from the keyboard, the
    monitor, without services and on simulated sensors, has taken one
    reading and shown its dashboard; it adds the goodbye line below the
    dashboard and exits with [SystemExit]. *)
Theorem main_interrupted_sleep (n : nat) (args : Args) (w w1 : World)
    (reading : SensorReading) :
  real args = false -> 0 <= interval args -> offline w ->
  (forall w', sleep_until (Num.of_int (interval args)) w' = Raise KeyboardInterrupt) ->
  MockSensors.read MockSensors.__init__ w = (Return reading, w1) ->
  exists text,
    (text = render_issues (issues_of OPTIMAL_RANGES reading)
     \/ text = current_recommendation initial_state)
    /\ main (S n) args w
       = (Raise SystemExit,
          set_console
            (dashboard_lines reading
               ++ recommendation_lines (Some text)
               ++ [ ""; "  Press Ctrl+C to exit"; goodbye ])%list w1).
Proof.
  intros Hreal Hpos Hoff Hsleep Hread.
  destruct (offline_main_round n args w w1 reading Hreal Hoff Hread)
    as (advisor & api & s' & Hs' & Hmain).
  exists (current_recommendation s'). split.
  - destruct Hs' as [Hs'| ->]; [left; exact Hs' | right; reflexivity].
  - rewrite Hmain. unfold try_except_interrupt, time_sleep.
    unfold mbind at 1, M_bind at 1.
    assert (Hlt : Num.ltb (Num.of_int (interval args)) 0 = false).
    { unfold Num.ltb, Num.of_int. apply negb_false_iff, Qle_bool_iff.
      unfold Qle, inject_Z. cbn. lia. }
    rewrite Hlt, Hsleep. unfold mbind, M_bind, print, sys_exit, lift.
    cbn [console set_console].
    rewrite <- !app_assoc. reflexivity.
Qed.

End MainFacts.

Lemma main_offline_quiet_witness :
  sent (@main plain_formatting bench_hardware steady_timing 3 default_args
          offline_world).2 = []
  /\ asked (@main plain_formatting bench_hardware steady_timing 3 default_args
              offline_world).2 = [].
Proof.
  exact (@main_offline_quiet plain_formatting bench_hardware steady_timing 3
           default_args offline_world offline_world_offline).
Defined.

Lemma main_interrupt_witness :
  (@main plain_formatting bare_hardware interrupted_timing 2
     {| real := true; interval := 10; ai_interval := 60 |} offline_world).1
  <> Raise KeyboardInterrupt.
Proof.
  apply (@main_interrupt plain_formatting bare_hardware interrupted_timing 2
           {| real := true; interval := 10; ai_interval := 60 |} offline_world).
  intros _ e He. discriminate He.
Defined.

Lemma main_negative_interval_witness :
  exists reading w1 text,
    @main plain_formatting bare_hardware steady_timing 1
      {| real := false; interval := -1; ai_interval := 60 |} offline_world
    = (Raise (Exception "sleep length must be non-negative"),
       set_console
         (@dashboard_lines plain_formatting reading
            ++ recommendation_lines (Some text)
            ++ [ ""; "  Press Ctrl+C to exit" ])%list w1).
Proof.
  destruct (@main_negative_interval plain_formatting bare_hardware steady_timing
              0 {| real := false; interval := -1; ai_interval := 60 |}
              offline_world _ _ eq_refl ltac:(reflexivity) offline_world_offline
              (mock_read_run offline_world))
    as (text & _ & Hmain).
  eexists _, _, text. exact Hmain.
Defined.

Lemma main_interrupted_sleep_witness :
  exists reading w1 text,
    @main plain_formatting bare_hardware interrupted_timing 1 default_args
      offline_world
    = (Raise SystemExit,
       set_console
         (@dashboard_lines plain_formatting reading
            ++ recommendation_lines (Some text)
            ++ [ ""; "  Press Ctrl+C to exit"; goodbye ])%list w1).
Proof.
  destruct (@main_interrupted_sleep plain_formatting bare_hardware
              interrupted_timing 0 default_args offline_world _ _ eq_refl
              ltac:(discriminate) offline_world_offline
              (fun _ => eq_refl) (mock_read_run offline_world))
    as (text & _ & Hmain).
  eexists _, _, text. exact Hmain.
Defined.
Section MainRuns.
Context `{Formatting} `{Hardware} `{Timing}.

Lemma loop_offline_runs (rounds : nat) (args : Args) (advisor : AIAdvisor.t)
    (api : APIClient.t) :
  AIAdvisor._client advisor = None -> APIClient._enabled api = false ->
  0 <= interval args -> sleep_uninterrupted ->
  forall s w,
  exists s' w',
    loop rounds args (UseMock MockSensors.__init__) advisor api s w
    = (Return s', w')
    /\ draws w' = (4 * rounds + draws w)%nat.
Proof.
  intros Hclient Henabled Hpos Hsleep.
  induction rounds as [|n IH]; intros s w; cbn [loop].
  - exists s, w. split; reflexivity.
  - destruct (offline_round args advisor api s w _ _ Hclient Henabled
                (mock_read_run w)) as (s1 & _ & Hround).
    unfold mbind at 1, M_bind at 1. rewrite Hround.
    unfold time_sleep.
    assert (Hlt : Num.ltb (Num.of_int (interval args)) 0 = false).
    { unfold Num.ltb, Num.of_int. apply negb_false_iff, Qle_bool_iff.
      unfold Qle, inject_Z. cbn. lia. }
    unfold mbind at 1, M_bind at 1. rewrite Hlt.
    match goal with
    | |- context [sleep_until ?x ?w0] => destruct (Hsleep x w0) as [t ->]
    end.
    cbn [mret M_ret].
    match goal with
    | |- context [loop n _ _ _ _ s1 ?w0] =>
        destruct (IH s1 w0) as (s' & w' & Hloop & Hdraws)
    end.
    exists s', w'. split; [exact Hloop|].
    rewrite Hdraws. cbn [draws set_clock set_console set_draws]. lia.
Qed.

(** X24. Without services and on simulated sensors the monitor keeps
    going: with an interval that is not negative and sleeps that are not
    interrupted, every number of rounds is completed without an error,
    each round taking one reading of four draws; nothing is sent. *)
Theorem main_offline_runs (rounds : nat) (args : Args) (w : World) :
  real args = false -> 0 <= interval args -> offline w ->
  sleep_uninterrupted ->
  exists s w',
    main rounds args w = (Return s, w')
    /\ draws w' = (4 * rounds + draws w)%nat
    /\ sent w' = sent w /\ asked w' = asked w.
Proof.
  intros Hreal Hpos Hoff Hsleep.
  destruct (startup_mock_offline args w Hreal Hoff)
    as (advisor & api & lines & Hstart & Hclient & Henabled).
  destruct (loop_offline_runs rounds args advisor api Hclient Henabled Hpos
              Hsleep initial_state (set_console lines w))
    as (s & w' & Hloop & Hdraws).
  pose proof (quiet_loop rounds args (UseMock MockSensors.__init__) advisor api
                initial_state Hclient Henabled (set_console lines w)) as Hq.
  rewrite Hloop in Hq. destruct Hq as (Hsent & Hasked & _).
  exists s, w'. unfold main. rewrite (bind_return _ _ _ _ _ Hstart).
  cbv beta iota. unfold try_except_interrupt. rewrite Hloop.
  split; [reflexivity|]. split; [exact Hdraws|]. split; assumption.
Qed.

End MainRuns.

Lemma main_offline_runs_witness :
  exists s w',
    @main plain_formatting bare_hardware steady_timing 5 default_args
      offline_world = (Return s, w')
    /\ draws w' = 20%nat.
Proof.
  destruct (@main_offline_runs plain_formatting bare_hardware steady_timing 5
              default_args offline_world eq_refl ltac:(discriminate)
              offline_world_offline steady_sleep_uninterrupted)
    as (s & w' & Hmain & Hdraws & _).
  exists s, w'. split; [exact Hmain | exact Hdraws].
Defined.
Lemma client_init_spec_witness :
  exists client,
    APIClient.__init__ (Some "https://api.example.test") None offline_world
    = (Return client, set_console [disabled_notice] offline_world)
    /\ APIClient._enabled client = false.
Proof.
  destruct (client_init_spec (Some "https://api.example.test") None offline_world)
    as (client & w' & Hinit & _ & _ & Henabled & Hw').
  assert (He : APIClient._enabled client = false).
  { destruct (APIClient._enabled client); [|reflexivity].
    destruct Henabled as [Hen _]. exfalso. apply (Hen eq_refl).
    right. split; reflexivity. }
  exists client. split; [|exact He].
  rewrite Hinit, Hw', He. reflexivity.
Defined.
